(** * daryl: the prompt store of [server.py]

    A shallow embedding of the request handler [CORSRequestHandler] of
    [src/server.py] and of the parts of the Python runtime it calls
    ([os.path], [os], [re.sub] with the fixed character class, [int],
    truthiness, the response-building methods of [http.server]).

    Conventions.
    - A Python [str] is a [string] holding its UTF-8 bytes.  Every operation
      the handler applies to a filename ([rfind] of ["/"], the character
      class of the regular expression, [endswith]) looks at ASCII characters
      only, and no byte of a multi-byte UTF-8 sequence is ASCII, so working
      on bytes or on code points gives the same result.
      What arrives on the wire (the request line, the header values) is
      decoded as Latin-1 by the library, one character per byte; there a
      [string] holds these characters.
    - The interpreter is CPython 3.11 on Linux, with its default limit of
      4300 digits on [int(str)].
    - The filesystem is a tree of directories and files without symbolic
      links, permissions, quotas or a limit on the length of a whole path;
      a path names a node by being walked component after component, as the
      kernel does.  No name of the tree is longer than [NAME_MAX], and
      creating one that is fails.
    - The log file that [logging.basicConfig] opens at start-up, in append
      mode, is kept apart from the tree: the state holds the lines
      [log_message] appended to it.
    - The client sends the request and closes its sending side, so that a
      read beyond the body returns what was sent.
    - A [request] is one whose request line and headers parsed, and [serve]
      runs it as a request of HTTP/1.0 or later, for which the library
      writes status lines and headers.  [handle_one_request] is what comes
      before: the request line, the version it asks for, the requests the
      library refuses, and the requests of HTTP/0.9, for which the library
      writes neither.
    - Library functions whose text is not in the repository ([json.loads],
      [urllib.parse], [SimpleHTTPRequestHandler.send_head], [repr]) and what
      the machine decides (whether a buffer can be allocated) are Variables
      of the section [Handler]: every theorem holds whatever they compute. *)

From stdpp Require Import gmap strings list fin_maps.
From Stdlib Require Import ZArith Ascii String DecimalString PrimFloat Lia.

Set Warnings "-register-all".
#[local] Open Scope string_scope.
#[local] Open Scope Z_scope.

(** ** Python strings *)

Module Py.

(** [s[i:]] for [0 <= i]. *)
Fixpoint slice_from (i : nat) (s : string) : string :=
  match i, s with
  | O, _ => s
  | S i', String _ s' => slice_from i' s'
  | S _, EmptyString => EmptyString
  end.

(** [s.rfind(c)]: the highest index at which [c] occurs, [-1] when it does
    not.  [rfind_from] scans [s], whose first character has index [i], and
    remembers the last hit. *)
Fixpoint rfind_from (c : ascii) (s : string) (i last : Z) : Z :=
  match s with
  | EmptyString => last
  | String a s' => rfind_from c s' (i + 1) (if Ascii.eqb a c then i else last)
  end.

Definition rfind (c : ascii) (s : string) : Z := rfind_from c s 0 (-1).

(** [s.startswith(p)] and [s.endswith(p)]. *)
Definition startswith (s p : string) : bool := String.prefix p s.

Definition endswith (s p : string) : bool :=
  (String.length p <=? String.length s)%nat
  && String.eqb (slice_from (String.length s - String.length p) s) p.

(** [posixpath.basename]: [i = p.rfind('/') + 1; return p[i:]]. *)
Definition os_path_basename (p : string) : string :=
  let i := rfind "/" p + 1 in
  slice_from (Z.to_nat i) p.

(** [posixpath.join(a, b)]. *)
Definition os_path_join (a b : string) : string :=
  if startswith b "/" then b
  else if String.eqb a "" || endswith a "/" then a ++ b
  else a ++ "/" ++ b.

(** The character class [a-zA-Z0-9_.-] of the pattern
    [r'[^a-zA-Z0-9_.-]']. *)
Definition in_class (c : ascii) : bool :=
  let n := N_of_ascii c in
  ((97 <=? n) && (n <=? 122))%N
  || ((65 <=? n) && (n <=? 90))%N
  || ((48 <=? n) && (n <=? 57))%N
  || Ascii.eqb c "_" || Ascii.eqb c "." || Ascii.eqb c "-".

(** [re.sub(r'[^a-zA-Z0-9_.-]', '', s)]: every character outside the class
    is replaced by the empty string. *)
Fixpoint re_sub_not_in_class (s : string) : string :=
  match s with
  | EmptyString => EmptyString
  | String c s' =>
      if in_class c then String c (re_sub_not_in_class s')
      else re_sub_not_in_class s'
  end.

End Py.

(** The expression of lines 105 and 132:
    [re.sub(r'[^a-zA-Z0-9_.-]', '', os.path.basename(filename))]. *)
Definition safe_filename_of (filename : string) : string :=
  Py.re_sub_not_in_class (Py.os_path_basename filename).

(** ** Python values and exceptions *)

(** The error numbers of the system calls: [ENOENT] is raised as
    [FileNotFoundError], [ENOTDIR] as [NotADirectoryError], [EISDIR] as
    [IsADirectoryError] and [ENAMETOOLONG] as a plain [OSError]. *)
Inductive errno := ENOENT | ENOTDIR | EISDIR | ENAMETOOLONG.

(** The exceptions the handlers can meet; all are subclasses of
    [Exception], so the [except Exception] clauses catch each of them.  An
    [OSError] records the path of the call that failed, and its text quotes
    it: [quoted] is [repr(e.filename)].  The texts of the others are ASCII,
    or quote a header value, which was decoded from Latin-1. *)
Inductive exn :=
| TypeError | ValueError | AttributeError | IndexError
| OverflowError | MemoryError
| UnicodeDecodeError | JSONDecodeError | RecursionError
| UnicodeEncodeError
| OSError (n : errno) (quoted : string).

Inductive res (E A : Type) :=
| Ok (a : A)
| Raise (e : E).
Arguments Ok {E A} a.
Arguments Raise {E A} e.

(** What a Python expression gives: a value, or an exception. *)
Abbreviation result := (res exn).

(** What [json.loads] returns.  An object keeps its members in document
    order; turning them into a [dict] lets a later member win. *)
Inductive json :=
| JNull
| JBool (b : bool)
| JInt (z : Z)
| JFloat (f : float)
| JString (s : string)
| JArray (items : list json)
| JObject (members : list (string * json)).

(** [bool(v)], as [not v] uses it. *)
Definition truthy (v : json) : bool :=
  match v with
  | JNull => false
  | JBool b => b
  | JInt z => negb (z =? 0)
  | JFloat f => negb (PrimFloat.eqb f 0%float)
  | JString s => negb (String.eqb s "")
  | JArray items => match items with [] => false | _ => true end
  | JObject members => match members with [] => false | _ => true end
  end.

(** [dict(members).get(key)]: the last member named [key], [None] (here
    [JNull]) when there is none. *)
Fixpoint members_get (members : list (string * json)) (key : string) : json :=
  match members with
  | [] => JNull
  | (k, v) :: rest =>
      if String.eqb k key && negb (existsb (fun kv => String.eqb (fst kv) key) rest)
      then v else members_get rest key
  end.

(** [data.get(key)]: only a [dict] has the method. *)
Definition py_get (data : json) (key : string) : result json :=
  match data with
  | JObject members => Ok (members_get members key)
  | _ => Raise AttributeError
  end.

(** [os.path.basename(v)] on a JSON value: [os.fspath] refuses everything
    but a [str]. *)
Definition py_basename (v : json) : result string :=
  match v with
  | JString s => Ok (Py.os_path_basename s)
  | _ => Raise TypeError
  end.

(** *** [int(s)] on a header value

    Header values are decoded as Latin-1, one character per byte.  [int]
    strips white space, reads an optional sign and then decimal digits, where
    single underscores may separate digits, and refuses a literal of more
    than 4300 digits.  The white space is the ASCII one and, of the
    characters above it, U+0085 and U+00A0; the separators U+001C to U+001F
    are not stripped. *)
Module PyInt.

Definition is_space (c : ascii) : bool :=
  let n := N_of_ascii c in
  (((9 <=? n) && (n <=? 13)) || (n =? 32) || (n =? 133) || (n =? 160))%N.

Definition digit_of (c : ascii) : option Z :=
  let n := N_of_ascii c in
  if ((48 <=? n) && (n <=? 57))%N then Some (Z.of_N n - 48) else None.

Fixpoint lstrip (l : list ascii) : list ascii :=
  match l with
  | c :: l' => if is_space c then lstrip l' else l
  | [] => []
  end.

Definition strip (l : list ascii) : list ascii :=
  rev (lstrip (rev (lstrip l))).

(** [after_digit] tells whether the previous character was a digit: an
    underscore is accepted only between two digits. *)
Fixpoint digits (l : list ascii) (acc : Z) (after_digit : bool) : option Z :=
  match l with
  | [] => if after_digit then Some acc else None
  | c :: l' =>
      match digit_of c with
      | Some d => digits l' (10 * acc + d) true
      | None =>
          if Ascii.eqb c "_" && after_digit
          then match l' with [] => None | _ => digits l' acc false end
          else None
      end
  end.

(** [sys.get_int_max_str_digits()], and the digits of a literal: its
    underscores and its sign do not count. *)
Definition max_str_digits : nat := 4300.

Definition count_digits (l : list ascii) : nat :=
  List.length (List.filter (fun c => match digit_of c with
                                     | Some _ => true
                                     | None => false
                                     end) l).

Definition parse (s : string) : option Z :=
  let l := strip (list_ascii_of_string s) in
  if (max_str_digits <? count_digits l)%nat then None
  else match l with
       | "-"%char :: l => option_map Z.opp (digits l 0 false)
       | "+"%char :: l => digits l 0 false
       | l => digits l 0 false
       end.

End PyInt.

(** [int(v)] where [v] is [self.headers[name]]: [None] when the header is
    absent. *)
Definition py_int (v : option string) : result Z :=
  match v with
  | None => Raise TypeError
  | Some s => match PyInt.parse s with
              | Some n => Ok n
              | None => Raise ValueError
              end
  end.

(** ** The filesystem *)

(** What a file holds: bytes, or the text that
    [json.dump(j, f, indent=4)] writes for the value [j]. *)
Inductive content :=
| Bytes (s : string)
| JsonIndent4 (j : json).

Inductive node :=
| File (c : content)
| Dir (entries : gmap string node).

(** A canonical path: the names from the root down. *)
Abbreviation cpath := (list string) (only parsing).

Record world := { root : node; cwd : cpath }.

Module Fs.

Fixpoint node_at (n : node) (p : cpath) : option node :=
  match p with
  | [] => Some n
  | x :: p' =>
      match n with
      | Dir m => match m !! x with
                 | Some n' => node_at n' p'
                 | None => None
                 end
      | File _ => None
      end
  end.

(** Replace ([Some]) or unlink ([None]) the entry named by the last
    component of [p], when its parent directory exists. *)
Fixpoint set_at (n : node) (p : cpath) (new : option node) : node :=
  match p, n with
  | [x], Dir m =>
      Dir (match new with Some v => <[x := v]> m | None => delete x m end)
  | x :: p', Dir m =>
      match m !! x with
      | Some n' => Dir (<[x := set_at n' p' new]> m)
      | None => n
      end
  | _, _ => n
  end.

(** [p.split('/')]. *)
Fixpoint split_slash (p : string) : list string :=
  match p with
  | EmptyString => [EmptyString]
  | String c p' =>
      if Ascii.eqb c "/" then EmptyString :: split_slash p'
      else match split_slash p' with
           | h :: t => String c h :: t
           | [] => [String c EmptyString]
           end
  end.

(** One component of a path walk from the directory [cur]. *)
Definition step (r : node) (cur : cpath) (comp : string) : res errno cpath :=
  match node_at r cur with
  | Some (Dir m) =>
      if String.eqb comp "" || String.eqb comp "." then Ok cur
      else if String.eqb comp ".." then Ok (removelast cur)
      else match m !! comp with
           | Some _ => Ok (cur ++ [comp])%list
           | None => Raise ENOENT
           end
  | Some (File _) => Raise ENOTDIR
  | None => Raise ENOENT
  end.

Fixpoint walk (r : node) (cur : cpath) (comps : list string)
  : res errno cpath :=
  match comps with
  | [] => Ok cur
  | comp :: rest =>
      match step r cur comp with
      | Ok cur' => walk r cur' rest
      | Raise e => Raise e
      end
  end.

Definition start_of (w : world) (p : string) : cpath :=
  if Py.startswith p "/" then [] else cwd w.

(** Path resolution: the canonical path of the node that [p] names. *)
Definition resolve (w : world) (p : string) : res errno cpath :=
  if String.eqb p "" then Raise ENOENT
  else walk (root w) (start_of w p) (split_slash p).

(** [os.path.exists(p)]: true for files and directories alike. *)
Definition os_path_exists (w : world) (p : string) : bool :=
  match resolve w p with Ok _ => true | Raise _ => false end.

(** What [os.listdir(p)] does, in the order the directory enumerates its
    entries. *)
Definition os_listdir (w : world) (p : string) : res errno (list string) :=
  match resolve w p with
  | Ok c => match node_at (root w) c with
            | Some (Dir m) => Ok ((map_to_list m).*1)
            | _ => Raise ENOTDIR
            end
  | Raise e => Raise e
  end.

(** What [os.remove(p)] does: it unlinks a file and refuses a directory
    (with the error of Linux). *)
Definition os_remove (w : world) (p : string) : res errno world :=
  match resolve w p with
  | Ok c => match node_at (root w) c with
            | Some (File _) =>
                Ok {| root := set_at (root w) c None; cwd := cwd w |}
            | _ => Raise EISDIR
            end
  | Raise e => Raise e
  end.

(** The longest name a directory entry can have, in bytes. *)
Definition NAME_MAX : nat := 255.

(** What [with open(p, 'w') as f: <write c>] does: the parent directory
    must exist and the name must fit; the file is created, or truncated and
    rewritten.  Once the file is open the write itself is taken to
    succeed. *)
Definition open_w (w : world) (p : string) (c : content) : res errno world :=
  if String.eqb p "" then Raise ENOENT
  else
    let comps := split_slash p in
    match walk (root w) (start_of w p) (removelast comps) with
    | Ok dir =>
        let name := List.last comps "" in
        match node_at (root w) dir with
        | Some (Dir m) =>
            if String.eqb name "" || String.eqb name "."
               || String.eqb name ".."
            then Raise EISDIR
            else if (NAME_MAX <? String.length name)%nat
            then Raise ENAMETOOLONG
            else match m !! name with
                 | Some (Dir _) => Raise EISDIR
                 | _ => Ok {| root := set_at (root w) (dir ++ [name])%list
                                             (Some (File c));
                              cwd := cwd w |}
                 end
        | Some (File _) => Raise ENOTDIR
        | None => Raise ENOENT
        end
    | Raise e => Raise e
    end.

End Fs.

(** ** Requests, responses and the handler monad *)

(** What the handler object knows of the request: [self.client_address[0]],
    [self.command], [self.path] (the request target, as [parse_request]
    left it), [self.headers] and the bytes [self.rfile] delivers. *)
Record request := {
  client_address : string;
  command : string;
  path : string;
  headers : list (string * string);
  rfile : string
}.

(** The text of a status line or of an error page.  [TextExn p e] is the
    f-string [f"{p}{e}"] for the exception [e], and [TextOf f a] is
    [f % a] for a format [f] of the library and a piece [a] of the request
    line. *)
Inductive message :=
| Default
| Text (s : string)
| TextExn (prefix : string) (e : exn)
| TextOf (format : string) (arg : string).

Inductive chunk :=
| JsonText (j : json)                  (* json.dumps(j).encode('utf-8') *)
| ErrorPage (code : Z) (msg : message) (* the error page of send_error *)
| FileBytes (s : string).

Inductive hvalue :=
| Lit (s : string)
| LengthOf (c : chunk)
| ServerVersion
| DateNow.

Record response := {
  status_line : option (Z * message);
  header_lines : list (string * hvalue);
  headers_done : bool;
  body : list chunk
}.

Definition no_response : response :=
  {| status_line := None; header_lines := []; headers_done := false;
     body := [] |}.

(** A line [log_message] hands to [logging.info], without its time stamp. *)
Inductive log_event :=
| LogRequest (code : Z)
| LogError (code : Z) (msg : message).

(** The state a handler acts on: the file tree, the lines appended to the
    log file (opened in append mode at start-up and kept open), whether
    [self.request_version] is ["HTTP/0.9"], and the response written so
    far. *)
Record state := {
  fs : world;
  log : list (string * log_event);
  http09 : bool;
  wire : response
}.

(** A connection on which nothing was written yet, when the request line
    has named a version other than ["HTTP/0.9"]. *)
Definition fresh (w : world) (l : list (string * log_event)) : state :=
  {| fs := w; log := l; http09 := false; wire := no_response |}.

Definition M (A : Type) : Type := state -> result A * state.

Definition ret {A} (a : A) : M A := fun s => (Ok a, s).

Definition bind {A B} (m : M A) (k : A -> M B) : M B :=
  fun s => match m s with
           | (Ok a, s') => k a s'
           | (Raise e, s') => (Raise e, s')
           end.

Definition raise {A} (e : exn) : M A := fun s => (Raise e, s).

(** A computation of the runtime that may raise. *)
Definition lift {A} (r : result A) : M A := fun s => (r, s).

(** [try: body  except Exception as e: handler(e)]. *)
Definition try_except {A} (body : M A) (handler : exn -> M A) : M A :=
  fun s => match body s with
           | (Raise e, s') => handler e s'
           | r => r
           end.

Declare Scope py_scope.
Delimit Scope py_scope with py.
Notation "x <- m ;; k" := (bind m (fun x => k))
  (at level 100, m at next level, right associativity) : py_scope.
Notation "m ;; k" := (bind m (fun _ => k))
  (at level 100, right associativity) : py_scope.
#[local] Open Scope py_scope.

Definition get_fs : M world := fun s => (Ok (fs s), s).

Definition put_fs (w : world) : M unit :=
  fun s => (Ok tt, {| fs := w; log := log s; http09 := http09 s;
                      wire := wire s |}).

Definition set_http09 (b : bool) : M unit :=
  fun s => (Ok tt, {| fs := fs s; log := log s; http09 := b;
                      wire := wire s |}).

Definition modify_wire (f : response -> response) : M unit :=
  fun s => (Ok tt, {| fs := fs s; log := log s; http09 := http09 s;
                      wire := f (wire s) |}).

(** A write to the headers buffer: [send_response_only], [send_header] and
    [end_headers] do nothing when [request_version] is ["HTTP/0.9"]. *)
Definition write_head (f : response -> response) : M unit :=
  fun s => if http09 s then (Ok tt, s) else modify_wire f s.

(** *** Methods inherited from [BaseHTTPRequestHandler] *)

Module Http.

Definition lower (c : ascii) : ascii :=
  let n := N_of_ascii c in
  if ((65 <=? n) && (n <=? 90))%N then ascii_of_N (n + 32) else c.

Fixpoint lower_str (s : string) : string :=
  match s with
  | EmptyString => EmptyString
  | String c s' => String (lower c) (lower_str s')
  end.

(** [headers[name]]: the first header of that name, compared without
    regard to the case of its ASCII letters; [None] when there is none. *)
Fixpoint headers_get (hs : list (string * string)) (name : string)
  : option string :=
  match hs with
  | [] => None
  | (k, v) :: rest =>
      if String.eqb (lower_str k) (lower_str name) then Some v
      else headers_get rest name
  end.

(** [rfile.read(n)] of the buffered reader.  The size must fit a
    [Py_ssize_t]; a size below [-1] is refused, [-1] reads to the end; for
    any other size a byte string of [n] bytes is allocated first, which fails
    for a size within 33 bytes of the largest and otherwise when the machine
    says so ([can_allocate]); then at most [n] bytes are read. *)
Definition rfile_read (can_allocate : Z -> bool) (self : request) (n : Z)
  : result string :=
  if (n <? - 2 ^ 63) || (2 ^ 63 - 34 <? n) then Raise OverflowError
  else if n <? -1 then Raise ValueError
  else if n =? -1 then Ok (rfile self)
  else if can_allocate n
       then Ok (String.substring 0 (Z.to_nat n) (rfile self))
       else Raise MemoryError.

(** [text.encode('latin-1', 'strict')] succeeds when no character of the
    text is above U+00FF; in UTF-8 the characters above U+00FF are those
    whose first byte is above 0xC3. *)
Fixpoint latin1 (s : string) : bool :=
  match s with
  | EmptyString => true
  | String c s' => (N_of_ascii c <? 196)%N && latin1 s'
  end.

(** Whether the text of an exception, and the status line with a message,
    can be encoded.  The texts of the library and of [server.py] are ASCII
    and what they quote of the request line was decoded from Latin-1; of the
    exceptions, only an [OSError] can bring other characters, in the path it
    quotes. *)
Definition exn_latin1 (e : exn) : bool :=
  match e with
  | OSError _ quoted => latin1 quoted
  | _ => true
  end.

Definition message_latin1 (msg : message) : bool :=
  match msg with
  | TextExn _ e => exn_latin1 e
  | _ => true
  end.

End Http.

(** [log_message] (lines 147-148): one [logging.info] line, appended to the
    log file. *)
Definition log_message (self : request) (ev : log_event) : M unit :=
  fun s => (Ok tt, {| fs := fs s;
                      log := (log s ++ [(client_address self, ev)])%list;
                      http09 := http09 s;
                      wire := wire s |}).

Definition send_header (self : request) (k : string) (v : hvalue) : M unit :=
  write_head (fun r =>
    {| status_line := status_line r;
       header_lines := (header_lines r ++ [(k, v)])%list;
       headers_done := headers_done r;
       body := body r |}).

(** [send_response_only]: the status line, encoded in Latin-1. *)
Definition send_response_only (self : request) (code : Z) (msg : message)
  : M unit :=
  fun s =>
    if http09 s then (Ok tt, s)
    else if Http.message_latin1 msg
         then modify_wire (fun r =>
                {| status_line := Some (code, msg);
                   header_lines := header_lines r;
                   headers_done := headers_done r;
                   body := body r |}) s
         else (Raise UnicodeEncodeError, s).

(** [send_response]: logs the request, writes the status line and the
    [Server] and [Date] headers. *)
Definition send_response (self : request) (code : Z) (msg : message) : M unit :=
  log_message self (LogRequest code) ;;
  send_response_only self code msg ;;
  send_header self "Server" ServerVersion ;;
  send_header self "Date" DateNow.

Definition super_end_headers (self : request) : M unit :=
  write_head (fun r =>
    {| status_line := status_line r;
       header_lines := header_lines r;
       headers_done := true;
       body := body r |}).

Definition wfile_write (self : request) (c : chunk) : M unit :=
  modify_wire (fun r =>
    {| status_line := status_line r;
       header_lines := header_lines r;
       headers_done := headers_done r;
       body := (body r ++ [c])%list |}).

(** [end_headers] (lines 37-41). *)
Definition end_headers (self : request) : M unit :=
  send_header self "Access-Control-Allow-Origin" (Lit "*") ;;
  send_header self "Access-Control-Allow-Methods" (Lit "GET, POST, OPTIONS") ;;
  send_header self "Access-Control-Allow-Headers"
    (Lit "Content-Type, Authorization") ;;
  super_end_headers self.

(** [send_error] of the library: it logs the error, sends the status line,
    the headers of the error page, ends the headers through
    [self.end_headers] and writes the page unless the request is a [HEAD]. *)
Definition has_error_page (code : Z) : bool :=
  (200 <=? code) && negb ((code =? 204) || (code =? 205) || (code =? 304)).

Definition send_error (self : request) (code : Z) (msg : message) : M unit :=
  log_message self (LogError code msg) ;;
  send_response self code msg ;;
  send_header self "Connection" (Lit "close") ;;
  (if has_error_page code
   then send_header self "Content-Type" (Lit "text/html;charset=utf-8") ;;
        send_header self "Content-Length" (LengthOf (ErrorPage code msg))
   else ret tt) ;;
  end_headers self ;;
  (if has_error_page code
   then if String.eqb (command self) "HEAD" then ret tt
        else wfile_write self (ErrorPage code msg)
   else ret tt).

(** ** The request handler *)

(** The two fields of [urllib.parse.urlparse(...)] that the handler reads. *)
Record url := { url_path : string; url_query : string }.

(** What [SimpleHTTPRequestHandler.send_head] decides for a request: an
    error, or a status with the headers it sends and, for a file to copy to
    the client, its bytes. *)
Inductive head_result :=
| HeadError (code : Z) (msg : string)
| HeadOk (code : Z) (hs : list (string * hvalue)) (file : option string).

(** What the server reads of a connection before it dispatches: the
    address of the client, the first line as [rfile.readline(65537)] returns
    it, what [http.client.parse_headers] makes of the lines that follow, and
    the bytes after them. *)
Inductive header_block :=
| Headers (hs : list (string * string))
| LineTooLong
| TooManyHeaders.

Record connection := {
  peer : string;
  raw_requestline : string;
  header_part : header_block;
  body_part : string
}.

Section Handler.

(** [SERVE_DIR = os.getcwd()], evaluated once at start-up. *)
Variable SERVE_DIR : string.

(** Whether the interpreter can allocate a byte string of [n] bytes: the
    machine decides. *)
Variable can_allocate : Z -> bool.

(** Library functions: [repr] of a [str], [bytes.decode('utf-8')],
    [json.loads], [urllib.parse.urlparse], [urllib.parse.parse_qs], and the
    decision of [SimpleHTTPRequestHandler.send_head], which looks at the
    file tree and may look at the log file. *)
Variable py_repr : string -> string.
Variable bytes_decode_utf8 : string -> result string.
Variable json_loads : string -> result json.
Variable urlparse : string -> url.
Variable parse_qs : string -> gmap string (list string).
Variable send_head : request -> world -> list (string * log_event) -> head_result.

Definition PROMPTS_DIR : string :=
  Py.os_path_join (Py.os_path_join SERVE_DIR "assets") "prompts".

(** [os.listdir], [os.remove] and [open] raise the error of the system
    call as an [OSError] that quotes the path they were given. *)
Definition os_error {A} (p : string) (r : res errno A) : result A :=
  match r with
  | Ok a => Ok a
  | Raise n => Raise (OSError n (py_repr p))
  end.

Definition os_listdir (w : world) (p : string) : result (list string) :=
  os_error p (Fs.os_listdir w p).

Definition os_remove (w : world) (p : string) : result world :=
  os_error p (Fs.os_remove w p).

Definition open_w (w : world) (p : string) (c : content) : result world :=
  os_error p (Fs.open_w w p c).

(** [SimpleHTTPRequestHandler.send_head], [do_GET] and [do_HEAD]: every
    header block the library writes is closed by [self.end_headers()]. *)
Definition super_send_head (self : request) : M (option string) :=
  fun s =>
    match send_head self (fs s) (log s) with
    | HeadError code msg =>
        (send_error self code (Text msg) ;; ret None) s
    | HeadOk code hs file =>
        (send_response self code Default ;;
         fold_right (fun h k => send_header self (fst h) (snd h) ;; k)
                    (ret tt) hs ;;
         end_headers self ;;
         ret file) s
    end.

Definition super_do_GET (self : request) : M unit :=
  f <- super_send_head self ;;
  match f with
  | Some bytes => wfile_write self (FileBytes bytes)
  | None => ret tt
  end.

Definition do_HEAD (self : request) : M unit :=
  super_send_head self ;; ret tt.

(** Lines 43-45. *)
Definition do_OPTIONS (self : request) : M unit :=
  send_response self 204 Default ;;
  end_headers self.

(** Lines 68-76. *)
Definition handle_list_prompts (self : request) : M unit :=
  try_except
    (w <- get_fs ;;
     names <- lift (os_listdir w PROMPTS_DIR) ;;
     let prompts := List.filter (fun f => Py.endswith f ".json") names in
     send_response self 200 Default ;;
     send_header self "Content-Type" (Lit "application/json") ;;
     end_headers self ;;
     wfile_write self (JsonText (JArray (List.map JString prompts))))
    (fun e => send_error self 500 (TextExn "Error listing prompts: " e)).

(** [query_components.get("filename", [None])[0]]. *)
Definition first_filename (query_components : gmap string (list string))
  : result (option string) :=
  match query_components !! "filename" with
  | None => Ok None
  | Some (v :: _) => Ok (Some v)
  | Some [] => Raise IndexError
  end.

(** Lines 78-89.  No [try] surrounds this handler. *)
Definition handle_check_prompt_exists (self : request) : M unit :=
  let query_components := parse_qs (url_query (urlparse (path self))) in
  filename <- lift (first_filename query_components) ;;
  match filename with
  | None | Some EmptyString =>
      send_error self 400 (Text "Filename parameter is missing")
  | Some filename =>
      w <- get_fs ;;
      let exists_ := Fs.os_path_exists w (Py.os_path_join PROMPTS_DIR filename) in
      send_response self 200 Default ;;
      send_header self "Content-Type" (Lit "application/json") ;;
      end_headers self ;;
      wfile_write self (JsonText (JObject [("exists", JBool exists_)]))
  end.

(** Lines 93-95 and 123-125: read and decode the body. *)
Definition read_json_body (self : request) : M json :=
  content_length <- lift (py_int (Http.headers_get (headers self) "Content-Length")) ;;
  post_data <- lift (Http.rfile_read can_allocate self content_length) ;;
  text <- lift (bytes_decode_utf8 post_data) ;;
  lift (json_loads text).

(** Lines 91-119. *)
Definition handle_save_prompt (self : request) : M unit :=
  try_except
    (data <- read_json_body self ;;
     filename <- lift (py_get data "filename") ;;
     content <- lift (py_get data "content") ;;
     if negb (truthy filename) || negb (truthy content)
     then send_error self 400 (Text "Missing filename or content")
     else
       base <- lift (py_basename filename) ;;
       let safe_filename := Py.re_sub_not_in_class base in
       if negb (Py.endswith safe_filename ".json")
       then send_error self 400 (Text "Filename must end with .json")
       else
         let filepath := Py.os_path_join PROMPTS_DIR safe_filename in
         w <- get_fs ;;
         w' <- lift (open_w w filepath (JsonIndent4 content)) ;;
         put_fs w' ;;
         send_response self 200 Default ;;
         send_header self "Content-Type" (Lit "application/json") ;;
         end_headers self ;;
         wfile_write self
           (JsonText (JObject [("success", JBool true);
                               ("message", JString "Prompt saved successfully.")])))
    (fun e => send_error self 500 (TextExn "Error saving prompt: " e)).

(** Lines 121-144. *)
Definition handle_delete_prompt (self : request) : M unit :=
  try_except
    (data <- read_json_body self ;;
     filename <- lift (py_get data "filename") ;;
     if negb (truthy filename)
     then send_error self 400 (Text "Missing filename")
     else
       base <- lift (py_basename filename) ;;
       let safe_filename := Py.re_sub_not_in_class base in
       let filepath := Py.os_path_join PROMPTS_DIR safe_filename in
       w <- get_fs ;;
       if Fs.os_path_exists w filepath
       then
         w' <- lift (os_remove w filepath) ;;
         put_fs w' ;;
         send_response self 200 Default ;;
         send_header self "Content-Type" (Lit "application/json") ;;
         end_headers self ;;
         wfile_write self
           (JsonText (JObject [("success", JBool true);
                               ("message", JString "Prompt deleted.")]))
       else send_error self 404 (Text "File not found"))
    (fun e => send_error self 500 (TextExn "Error deleting prompt: " e)).

(** Lines 47-57. *)
Definition do_GET (self : request) : M unit :=
  let parsed_path := urlparse (path self) in
  let path := url_path parsed_path in
  if String.eqb path "/list-prompts" then handle_list_prompts self
  else if String.eqb path "/check-prompt-exists"
       then handle_check_prompt_exists self
       else super_do_GET self.

(** Lines 59-66. *)
Definition do_POST (self : request) : M unit :=
  let path := path self in
  if String.eqb path "/save-prompt" then handle_save_prompt self
  else if String.eqb path "/delete-prompt" then handle_delete_prompt self
       else send_error self 404 (Text "Endpoint not found").

(** The dispatch of [handle_one_request] for a request that parsed: the
    method [do_<command>] when the class has one, an error 501 otherwise. *)
Definition handle (self : request) : M unit :=
  let c := command self in
  if String.eqb c "GET" then do_GET self
  else if String.eqb c "POST" then do_POST self
  else if String.eqb c "OPTIONS" then do_OPTIONS self
  else if String.eqb c "HEAD" then do_HEAD self
  else send_error self 501 (TextOf "Unsupported method (%r)" c).

(** One request that parsed, with a version other than ["HTTP/0.9"], on a
    fresh connection. *)
Definition serve (self : request) (w : world) (l : list (string * log_event))
  : result unit * state :=
  handle self (fresh w l).

(** *** Before the dispatch: [parse_request] and [handle_one_request] *)

(** The white space of [str.split()], among the characters of Latin-1. *)
Definition is_split_space (c : ascii) : bool :=
  let n := N_of_ascii c in
  (((9 <=? n) && (n <=? 13)) || ((28 <=? n) && (n <=? 32))
   || (n =? 133) || (n =? 160))%N.

(** [s.split()]; [word] is the word being read. *)
Fixpoint split_from (s word : string) : list string :=
  match s with
  | EmptyString => match word with EmptyString => [] | _ => [word] end
  | String c s' =>
      if is_split_space c
      then match word with
           | EmptyString => split_from s' EmptyString
           | _ => word :: split_from s' EmptyString
           end
      else split_from s' (word ++ String c EmptyString)
  end.

Definition py_split (s : string) : list string := split_from s EmptyString.

(** [s.split(".")]. *)
Fixpoint split_dot (s : string) : list string :=
  match s with
  | EmptyString => [EmptyString]
  | String c s' =>
      if Ascii.eqb c "." then EmptyString :: split_dot s'
      else match split_dot s' with
           | h :: t => String c h :: t
           | [] => [String c EmptyString]
           end
  end.

(** [s.lstrip('/')]. *)
Fixpoint lstrip_slash (s : string) : string :=
  match s with
  | String c s' => if Ascii.eqb c "/" then lstrip_slash s' else s
  | EmptyString => EmptyString
  end.

(** [s.rstrip('\r\n')]. *)
Fixpoint rstrip_crlf (s : string) : string :=
  match s with
  | EmptyString => EmptyString
  | String c s' =>
      match rstrip_crlf s' with
      | EmptyString =>
          if Ascii.eqb c "013" || Ascii.eqb c "010" then EmptyString
          else String c EmptyString
      | t => String c t
      end
  end.

(** What lines 289-315 of [http/server.py] make of the last word of a
    request line of three words or more: a version that is refused as
    malformed, one that is refused as 2.0 or later, or one that is
    accepted.  The two numbers are compared as a pair. *)
Inductive version_check :=
| BadVersion
| Unsupported (base_version_number : string)
| Version.

Definition check_version (version : string) : version_check :=
  if negb (Py.startswith version "HTTP/") then BadVersion
  else
    let base_version_number := Py.slice_from 5 version in
    match split_dot base_version_number with
    | [major; minor] =>
        match PyInt.parse major, PyInt.parse minor with
        | Some x, Some y =>
            if (2 <? x) || ((x =? 2) && (0 <=? y))
            then Unsupported base_version_number
            else Version
        | _, _ => BadVersion
        end
    | _ => BadVersion
    end.

(** The handler object while the request line is parsed: [command] is
    [None], which is not ["HEAD"]. *)
Definition unparsed (c : connection) : request :=
  {| client_address := peer c; command := ""; path := ""; headers := [];
     rfile := "" |}.

(** [self.path]: a target that starts with two slashes keeps one of its
    leading slashes. *)
Definition request_path (target : string) : string :=
  if Py.startswith target "//" then "/" ++ lstrip_slash target else target.

(** The handler object once the request line and the headers [hs] are
    parsed. *)
Definition parsed_request (c : connection) (command target : string)
  (hs : list (string * string)) : request :=
  {| client_address := peer c; command := command;
     path := request_path target; headers := hs; rfile := body_part c |}.

(** The end of [parse_request]: the command and the path are set, and the
    headers are parsed. *)
Definition parse_headers (c : connection) (command target : string)
  : M (option request) :=
  let self := parsed_request c command target [] in
  match header_part c with
  | Headers hs => ret (Some (parsed_request c command target hs))
  | LineTooLong => send_error self 431 (Text "Line too long") ;; ret None
  | TooManyHeaders => send_error self 431 (Text "Too many headers") ;; ret None
  end.

(** [parse_request]: [None] when it returns [False], after it has sent
    the error.  [request_version] starts as ["HTTP/0.9"] and changes only
    once the last of three words or more was accepted as a version. *)
Definition parse_request (c : connection) : M (option request) :=
  let requestline := rstrip_crlf (raw_requestline c) in
  let words := py_split requestline in
  set_http09 true ;;
  match words with
  | [] => ret None
  | [_] =>
      send_error (unparsed c) 400 (TextOf "Bad request syntax (%r)" requestline) ;;
      ret None
  | [command; target] =>
      if String.eqb command "GET" then parse_headers c command target
      else send_error (unparsed c) 400
             (TextOf "Bad HTTP/0.9 request type (%r)" command) ;;
           ret None
  | command :: target :: more =>
      let version := List.last words "" in
      match check_version version with
      | BadVersion =>
          send_error (unparsed c) 400
            (TextOf "Bad request version (%r)" version) ;;
          ret None
      | Unsupported base_version_number =>
          send_error (unparsed c) 505
            (TextOf "Invalid HTTP version (%s)" base_version_number) ;;
          ret None
      | Version =>
          set_http09 (String.eqb version "HTTP/0.9") ;;
          match more with
          | [_] => parse_headers c command target
          | _ =>
              send_error (unparsed c) 400
                (TextOf "Bad request syntax (%r)" requestline) ;;
              ret None
          end
      end
  end.

(** [handle_one_request]: a first line of more than 65536 bytes is
    refused, with [request_version] set to the empty string; an empty one
    ends the connection; any other is parsed and, when it parses,
    dispatched. *)
Definition handle_one_request (c : connection) : M unit :=
  if 65536 <? Z.of_nat (String.length (raw_requestline c))
  then set_http09 false ;; send_error (unparsed c) 414 Default
  else if String.eqb (raw_requestline c) "" then ret tt
  else
    parsed <- parse_request c ;;
    match parsed with
    | None => ret tt
    | Some self => handle self
    end.

(** One connection, from its first line on. *)
Definition serve_connection (c : connection) (w : world)
  (l : list (string * log_event)) : result unit * state :=
  handle_one_request c (fresh w l).

End Handler.

(** ** Notions the statements use *)

Section Notions.

#[local] Open Scope list_scope.

Fixpoint has_slash (s : string) : bool :=
  match s with
  | EmptyString => false
  | String c s' => Ascii.eqb c "/" || has_slash s'
  end.

(** The last character, for [endswith s "/"]. *)
Fixpoint last_char (s : string) : option ascii :=
  match s with
  | EmptyString => None
  | String c EmptyString => Some c
  | String _ s' => last_char s'
  end.

(** A name that can be an entry of a directory. *)
Definition is_entry_name (n : string) : bool :=
  negb (String.eqb n "") && negb (String.eqb n ".")
  && negb (String.eqb n "..") && negb (has_slash n).

(** [PROMPTS_DIR] names the directory at [pd], whose entries are [m]. *)
Definition prompts_dir_is (SERVE_DIR : string) (w : world) (pd : cpath)
  (m : gmap string node) : Prop :=
  Fs.resolve w (PROMPTS_DIR SERVE_DIR) = Ok pd
  /\ Fs.node_at (root w) pd = Some (Dir m).

(** The path of lines 110 and 133. *)
Definition filepath_of (SERVE_DIR filename : string) : string :=
  Py.os_path_join (PROMPTS_DIR SERVE_DIR) (safe_filename_of filename).

Definition not_dir (o : option node) : Prop :=
  match o with Some (Dir _) => False | _ => True end.

(** The entries of a directory after [set_at] has changed the entry [x]. *)
Definition entries_set (new : option node) (x : string) (m : gmap string node)
  : gmap string node :=
  match new with Some v => <[x := v]> m | None => delete x m end.

(** The tree after the entry [n] of the directory at [pd] was set. *)
Definition with_entry (w : world) (pd : cpath) (n : string) (new : option node)
  : world :=
  {| root := Fs.set_at (root w) (pd ++ [n]) new; cwd := cwd w |}.

(** The names [handle_list_prompts] reports for a directory with entries
    [m]. *)
Definition prompt_names (m : gmap string node) : list string :=
  List.filter (fun f => Py.endswith f ".json") ((map_to_list m).*1).

Definition cors_headers : list (string * hvalue) :=
  [("Access-Control-Allow-Origin", Lit "*");
   ("Access-Control-Allow-Methods", Lit "GET, POST, OPTIONS");
   ("Access-Control-Allow-Headers", Lit "Content-Type, Authorization")].

(** The three headers of [end_headers] are among the header lines. *)
Definition has_cors (r : response) : Prop :=
  forall h, In h cors_headers -> In h (header_lines r).

Definition error_headers (code : Z) (msg : message) : list (string * hvalue) :=
  [("Server", ServerVersion); ("Date", DateNow); ("Connection", Lit "close")]
  ++ (if has_error_page code
      then [("Content-Type", Lit "text/html;charset=utf-8");
            ("Content-Length", LengthOf (ErrorPage code msg))]
      else [])
  ++ cors_headers.

Definition error_body (self : request) (code : Z) (msg : message) : list chunk :=
  if has_error_page code && negb (String.eqb (command self) "HEAD")
  then [ErrorPage code msg] else [].

(** The state after [send_error]. *)
Definition after_error (self : request) (code : Z) (msg : message) (s : state)
  : state :=
  {| fs := fs s;
     log := log s ++ [(client_address self, LogError code msg);
                      (client_address self, LogRequest code)];
     http09 := http09 s;
     wire := {| status_line := Some (code, msg);
                header_lines := header_lines (wire s) ++ error_headers code msg;
                headers_done := true;
                body := body (wire s) ++ error_body self code msg |} |}.

(** The state after a [send_error] whose status line could not be
    encoded: the two lines are logged, nothing is written. *)
Definition after_unsent (self : request) (code : Z) (msg : message) (s : state)
  : state :=
  {| fs := fs s;
     log := log s ++ [(client_address self, LogError code msg);
                      (client_address self, LogRequest code)];
     http09 := http09 s;
     wire := wire s |}.

(** What [send_error] does when the version is not ["HTTP/0.9"]. *)
Definition error_result (self : request) (code : Z) (msg : message) (s : state)
  : result unit * state :=
  if Http.message_latin1 msg then (Ok tt, after_error self code msg s)
  else (Raise UnicodeEncodeError, after_unsent self code msg s).

Definition json_headers : list (string * hvalue) :=
  [("Server", ServerVersion); ("Date", DateNow);
   ("Content-Type", Lit "application/json")] ++ cors_headers.

Definition after_json (self : request) (j : json) (s : state) : state :=
  {| fs := fs s;
     log := log s ++ [(client_address self, LogRequest 200)];
     http09 := http09 s;
     wire := {| status_line := Some (200, Default);
                header_lines := header_lines (wire s) ++ json_headers;
                headers_done := true;
                body := body (wire s) ++ [JsonText j] |} |}.

Definition with_headers (hs : list (string * hvalue)) (s : state) : state :=
  {| fs := fs s; log := log s; http09 := http09 s;
     wire := {| status_line := status_line (wire s);
                header_lines := header_lines (wire s) ++ hs;
                headers_done := headers_done (wire s);
                body := body (wire s) |} |}.

(** The state after a status line, the library's headers [hs], and
    [end_headers]. *)
Definition after_head (self : request) (code : Z) (hs : list (string * hvalue))
  (s : state) : state :=
  {| fs := fs s;
     log := log s ++ [(client_address self, LogRequest code)];
     http09 := http09 s;
     wire := {| status_line := Some (code, Default);
                header_lines :=
                  header_lines (wire s)
                  ++ [("Server", ServerVersion); ("Date", DateNow)]
                  ++ hs ++ cors_headers;
                headers_done := true;
                body := body (wire s) |} |}.

Definition with_fs (w : world) (s : state) : state :=
  {| fs := w; log := log s; http09 := http09 s; wire := wire s |}.

Definition saved_json : json :=
  JObject [("success", JBool true);
           ("message", JString "Prompt saved successfully.")].

Definition deleted_json : json :=
  JObject [("success", JBool true); ("message", JString "Prompt deleted.")].

(** A handler either wrote nothing or wrote the three headers. *)
Definition silent_or_cors (s s' : state) : Prop :=
  wire s' = wire s \/ has_cors (wire s').

(** A method that, while [request_version] is ["HTTP/0.9"], leaves it so
    and writes neither a status line nor a header. *)
Definition keeps_head {A} (m : M A) : Prop :=
  forall s, http09 s = true ->
    http09 (snd (m s)) = true
    /\ status_line (wire (snd (m s))) = status_line (wire s)
    /\ header_lines (wire (snd (m s))) = header_lines (wire s).

End Notions.

(** ** The outcome of each handler, by cases

    The state each handler leaves is written out as a function of the
    request and of the state before; the lemmas [handle_save_prompt_run]
    and its siblings prove that the handlers compute exactly these. *)

Section Outcomes.

#[local] Open Scope list_scope.

Variable SERVE_DIR : string.
Variable can_allocate : Z -> bool.
Variable py_repr : string -> string.
Variable bytes_decode_utf8 : string -> result string.
Variable json_loads : string -> result json.
Variable urlparse : string -> url.
Variable parse_qs : string -> gmap string (list string).

(** The value lines 93-95 compute from the request. *)
Definition body_of (self : request) : result json :=
  match py_int (Http.headers_get (headers self) "Content-Length") with
  | Raise e => Raise e
  | Ok n =>
      match Http.rfile_read can_allocate self n with
      | Raise e => Raise e
      | Ok post_data =>
          match bytes_decode_utf8 post_data with
          | Raise e => Raise e
          | Ok text => json_loads text
          end
      end
  end.

(** What [handle_save_prompt] does, by cases. *)
Definition save_result (self : request) (s : state) : result unit * state :=
  let err e := error_result self 500 (TextExn "Error saving prompt: " e) s in
  match body_of self with
  | Raise e => err e
  | Ok data =>
      match py_get data "filename", py_get data "content" with
      | Ok filename, Ok content =>
          if negb (truthy filename) || negb (truthy content)
          then (Ok tt,
                after_error self 400 (Text "Missing filename or content") s)
          else
            match py_basename filename with
            | Raise e => err e
            | Ok base =>
                let safe_filename := Py.re_sub_not_in_class base in
                if negb (Py.endswith safe_filename ".json")
                then (Ok tt,
                      after_error self 400
                        (Text "Filename must end with .json") s)
                else
                  match open_w py_repr (fs s)
                          (Py.os_path_join (PROMPTS_DIR SERVE_DIR) safe_filename)
                          (JsonIndent4 content) with
                  | Raise e => err e
                  | Ok w' => (Ok tt, after_json self saved_json (with_fs w' s))
                  end
            end
      | Raise e, _ => err e
      | _, Raise e => err e
      end
  end.

(** What [handle_delete_prompt] does, by cases. *)
Definition delete_result (self : request) (s : state) : result unit * state :=
  let err e := error_result self 500 (TextExn "Error deleting prompt: " e) s in
  match body_of self with
  | Raise e => err e
  | Ok data =>
      match py_get data "filename" with
      | Raise e => err e
      | Ok filename =>
          if negb (truthy filename)
          then (Ok tt, after_error self 400 (Text "Missing filename") s)
          else
            match py_basename filename with
            | Raise e => err e
            | Ok base =>
                let filepath :=
                  Py.os_path_join (PROMPTS_DIR SERVE_DIR)
                    (Py.re_sub_not_in_class base) in
                if Fs.os_path_exists (fs s) filepath
                then match os_remove py_repr (fs s) filepath with
                     | Raise e => err e
                     | Ok w' =>
                         (Ok tt, after_json self deleted_json (with_fs w' s))
                     end
                else (Ok tt, after_error self 404 (Text "File not found") s)
            end
      end
  end.

(** What [handle_list_prompts] does. *)
Definition list_result (self : request) (s : state) : result unit * state :=
  match os_listdir py_repr (fs s) (PROMPTS_DIR SERVE_DIR) with
  | Raise e => error_result self 500 (TextExn "Error listing prompts: " e) s
  | Ok names =>
      (Ok tt,
       after_json self
         (JArray (List.map JString
                    (List.filter (fun f => Py.endswith f ".json") names))) s)
  end.

(** What [handle_check_prompt_exists] does. *)
Definition check_result (self : request) (s : state) : result unit * state :=
  match first_filename (parse_qs (url_query (urlparse (path self)))) with
  | Raise e => (Raise e, s)
  | Ok None | Ok (Some EmptyString) =>
      (Ok tt, after_error self 400 (Text "Filename parameter is missing") s)
  | Ok (Some filename) =>
      (Ok tt,
       after_json self
         (JObject [("exists",
                    JBool (Fs.os_path_exists (fs s)
                             (Py.os_path_join (PROMPTS_DIR SERVE_DIR) filename)))])
         s)
  end.


End Outcomes.

(** ** Further notions *)

Section MoreNotions.

#[local] Open Scope list_scope.

(** Every character of [s] is in the class [a-zA-Z0-9_.-]. *)
Fixpoint all_in_class (s : string) : bool :=
  match s with
  | EmptyString => true
  | String c s' => Py.in_class c && all_in_class s'
  end.

(** How many header lines bear the name [name]. *)
Definition count_header (name : string) (hs : list (string * hvalue)) : nat :=
  List.length (List.filter (fun h => String.eqb (fst h) name) hs).

(** The status code of a response, when one was written. *)
Definition status_code (r : response) : option Z :=
  option_map fst (status_line r).


(** The state after the library has sent a file: the head, then the bytes. *)
Definition after_file (self : request) (code : Z) (hs : list (string * hvalue))
  (bytes : string) (s : state) : state :=
  {| fs := fs s;
     log := log s ++ [(client_address self, LogRequest code)];
     http09 := http09 s;
     wire := {| status_line := Some (code, Default);
                header_lines :=
                  header_lines (wire s)
                  ++ [("Server", ServerVersion); ("Date", DateNow)]
                  ++ hs ++ cors_headers;
                headers_done := true;
                body := body (wire s) ++ [FileBytes bytes] |} |}.

(** The shapes the outcome of one request can take: an exception that
    escaped before anything was written or logged, an error that was logged
    but could not be sent, an error page, a JSON answer
    (possibly after the tree changed), or what the static file server
    sends. *)
Inductive outcome (self : request) (s : state) : result unit * state -> Prop :=
| OutRaise e : outcome self s (Raise e, s)
| OutUnsent code msg :
    outcome self s (Raise UnicodeEncodeError, after_unsent self code msg s)
| OutError code msg : outcome self s (Ok tt, after_error self code msg s)
| OutJson j w' : outcome self s (Ok tt, after_json self j (with_fs w' s))
| OutHead code hs : outcome self s (Ok tt, after_head self code hs s)
| OutFile code hs bytes :
    outcome self s (Ok tt, after_file self code hs bytes s).

End MoreNotions.

(** ** A sample installation

    A concrete file tree and concrete stand-ins for the library functions,
    to run the handlers on.  Each stand-in agrees with the library on the
    inputs the examples give it: the JSON documents built by
    [body_filename] and [body_save], ASCII bodies, request targets of the
    form [path?filename=value] without escapes, paths of printable ASCII
    characters without quotes or backslashes, lengths far below what a
    machine can allocate. *)

Module Sample.

#[local] Open Scope string_scope.

Definition SERVE_DIR : string := "/srv/daryl".

(** A machine that can allocate a mebibyte at a time. *)
Definition can_allocate (n : Z) : bool := (n <=? 2 ^ 20)%Z.

Definition py_repr (s : string) : string := "'" ++ s ++ "'".

Definition dq : string := String "034"%char "".

Definition quoted (s : string) : string := dq ++ s ++ dq.

(** The documents [{"filename": "f"}] and
    [{"filename": "f", "content": {"text": "hi"}}]. *)
Definition body_filename (f : string) : string :=
  "{" ++ quoted "filename" ++ ": " ++ quoted f ++ "}".

Definition content : json := JObject [("text", JString "hi")].

Definition body_save (f : string) : string :=
  "{" ++ quoted "filename" ++ ": " ++ quoted f ++ ", "
  ++ quoted "content" ++ ": {" ++ quoted "text" ++ ": " ++ quoted "hi" ++ "}}".

Definition filenames : list string :=
  ["a.json"; "b.json"; "notes"; "a b!@#.json"; ".."; "sub"; "./a.json"].

Definition json_loads (text : string) : result json :=
  match List.find (fun f => String.eqb text (body_filename f)) filenames with
  | Some f => Ok (JObject [("filename", JString f)])
  | None =>
      match List.find (fun f => String.eqb text (body_save f)) filenames with
      | Some f => Ok (JObject [("filename", JString f); ("content", content)])
      | None => Raise JSONDecodeError
      end
  end.

Definition bytes_decode_utf8 (b : string) : result string := Ok b.

Fixpoint split_query (p : string) : string * string :=
  match p with
  | EmptyString => (EmptyString, EmptyString)
  | String c p' =>
      if Ascii.eqb c "?" then (EmptyString, p')
      else let (a, q) := split_query p' in (String c a, q)
  end.

Definition urlparse (p : string) : url :=
  let (a, q) := split_query p in {| url_path := a; url_query := q |}.

Definition parse_qs (q : string) : gmap string (list string) :=
  if String.prefix "filename=" q
  then match Py.slice_from 9 q with
       | EmptyString => ∅
       | v => {[ "filename" := [v] ]}
       end
  else ∅.

Definition send_head (self : request) (w : world)
  (l : list (string * log_event)) : head_result :=
  HeadError 404 "File not found".

Definition prompts : gmap string node :=
  <["a.json" := File (JsonIndent4 (JString "first"))]>
    (<["sub" := Dir ∅]> ∅).

(** [/srv/daryl] holds [server.py], [logs/] and [assets/prompts/]. *)
Definition tree : world :=
  {| root :=
       Dir {[ "srv" :=
         Dir {[ "daryl" :=
           Dir (<["server.py" := File (Bytes "#!/usr/bin/env python3")]>
                (<["logs" := Dir ∅]>
                 {[ "assets" := Dir {[ "prompts" := Dir prompts ]} ]})) ]} ]};
     cwd := ["srv"; "daryl"] |}.

Definition prompts_at : cpath := ["srv"; "daryl"; "assets"; "prompts"].

Definition decimal (n : nat) : string :=
  NilEmpty.string_of_uint (Nat.to_uint n).

Definition post (target body : string) : request :=
  {| client_address := "127.0.0.1";
     command := "POST";
     path := target;
     headers := [("Host", "daryl.local:8000");
                 ("Content-Type", "application/json");
                 ("Content-Length", decimal (String.length body))];
     rfile := body |}.

Definition get (target : string) : request :=
  {| client_address := "127.0.0.1";
     command := "GET";
     path := target;
     headers := [("Host", "daryl.local:8000")];
     rfile := "" |}.

Definition run (self : request) (w : world) (l : list (string * log_event))
  : result unit * state :=
  serve SERVE_DIR can_allocate py_repr bytes_decode_utf8 json_loads urlparse
    parse_qs send_head self w l.

Definition crlf : string := String "013"%char (String "010"%char "").

(** A connection on which the client sends the request line [line], a
    [Host] header and nothing more. *)
Definition connection_with (line : string) : connection :=
  {| peer := "127.0.0.1";
     raw_requestline := line ++ crlf;
     header_part := Headers [("Host", "daryl.local:8000")];
     body_part := "" |}.

Definition connect (c : connection) (w : world) (l : list (string * log_event))
  : result unit * state :=
  serve_connection SERVE_DIR can_allocate py_repr bytes_decode_utf8 json_loads
    urlparse parse_qs send_head c w l.

End Sample.


(** A save request that announces the length [v]. *)
Definition post_with_length (v : string) : request :=
  {| client_address := "127.0.0.1"; command := "POST";
     path := "/save-prompt";
     headers := [("Host", "daryl.local:8000"); ("Content-Length", v)];
     rfile := Sample.body_save "a.json" |}.

(** More documents and another tree for the sample installation: bodies
    that are JSON but not what the handlers expect, and a serve directory
    without [assets/prompts]. *)
Module Shapes.

#[local] Open Scope string_scope.

(** The document [{"filename": 7}]. *)
Definition body_number_filename : string :=
  "{" ++ Sample.quoted "filename" ++ ": 7}".

(** The document [{"filename": ""}]. *)
Definition body_empty_filename : string := Sample.body_filename "".

(** [json.loads] on the documents above, on [[]] and on [{}]; on any other
    text, what [Sample.json_loads] answers. *)
Definition json_loads (text : string) : result json :=
  if String.eqb text "[]" then Ok (JArray [])
  else if String.eqb text "{}" then Ok (JObject [])
  else if String.eqb text body_number_filename
       then Ok (JObject [("filename", JInt 7)])
  else if String.eqb text body_empty_filename
       then Ok (JObject [("filename", JString "")])
  else Sample.json_loads text.

Definition run : request -> world -> list (string * log_event)
                 -> result unit * state :=
  serve Sample.SERVE_DIR Sample.can_allocate Sample.py_repr
    Sample.bytes_decode_utf8 json_loads Sample.urlparse Sample.parse_qs
    Sample.send_head.


End Shapes.

(** ** The model at work *)

Example safe_filename_traversal :
  safe_filename_of "../../etc/passwd" = "passwd".
Proof. reflexivity. Qed.

Example safe_filename_keeps_dotdot : safe_filename_of ".." = "..".
Proof. reflexivity. Qed.

Example join_absolute_replaces :
  Py.os_path_join "/srv/daryl/assets/prompts" "/etc/passwd" = "/etc/passwd".
Proof. reflexivity. Qed.

Example join_relative_appends :
  Py.os_path_join "/srv/daryl/assets/prompts" "a.json"
  = "/srv/daryl/assets/prompts/a.json".
Proof. reflexivity. Qed.

Example endswith_json : Py.endswith "ab.json" ".json" = true.
Proof. reflexivity. Qed.

Example endswith_short : Py.endswith "json" ".json" = false.
Proof. reflexivity. Qed.

Example int_strips_and_groups : py_int (Some " 1_000 ") = Ok 1000.
Proof. reflexivity. Qed.

Example int_negative : py_int (Some "-12") = Ok (-12).
Proof. reflexivity. Qed.

Example int_double_underscore : py_int (Some "1__0") = Raise ValueError.
Proof. reflexivity. Qed.

Example int_empty : py_int (Some "") = Raise ValueError.
Proof. reflexivity. Qed.

Example int_absent : py_int None = Raise TypeError.
Proof. reflexivity. Qed.

Example int_keeps_information_separator :
  py_int (Some ("38" ++ String (ascii_of_nat 28) "")) = Raise ValueError.
Proof. reflexivity. Qed.

Example int_strips_no_break_space :
  py_int (Some ("38" ++ String (ascii_of_nat 160) "")) = Ok 38.
Proof. reflexivity. Qed.

Example int_digit_limit :
  py_int (Some (string_of_list_ascii (List.repeat "1"%char 4301)))
  = Raise ValueError
  /\ py_int (Some (string_of_list_ascii (List.repeat "0"%char 4300))) = Ok 0.
Proof. split; vm_compute; reflexivity. Qed.

Example read_negative_length :
  Http.rfile_read Sample.can_allocate (post_with_length "-5") (-5)
  = Raise ValueError.
Proof. reflexivity. Qed.

Example read_to_the_end :
  Http.rfile_read Sample.can_allocate (post_with_length "-1") (-1)
  = Ok (Sample.body_save "a.json").
Proof. reflexivity. Qed.

Example read_length_beyond_ssize_t :
  Http.rfile_read Sample.can_allocate (post_with_length "9223372036854775808")
    (2 ^ 63)
  = Raise OverflowError.
Proof. reflexivity. Qed.

Example read_length_beyond_memory :
  Http.rfile_read Sample.can_allocate (post_with_length "1099511627776")
    (2 ^ 40)
  = Raise MemoryError.
Proof. reflexivity. Qed.

Example open_refuses_long_name :
  Fs.open_w Sample.tree
    (Py.os_path_join (PROMPTS_DIR Sample.SERVE_DIR)
       (string_of_list_ascii (List.repeat "a"%char 300) ++ ".json"))
    (Bytes "")
  = Raise ENAMETOOLONG.
Proof. vm_compute. reflexivity. Qed.

Example split_request_line :
  py_split (rstrip_crlf ("GET  /a%20b HTTP/1.1" ++ Sample.crlf))
  = ["GET"; "/a%20b"; "HTTP/1.1"].
Proof. reflexivity. Qed.

Example version_two_is_refused : check_version "HTTP/2.0" = Unsupported "2.0".
Proof. reflexivity. Qed.

Example version_with_three_numbers : check_version "HTTP/1.1.1" = BadVersion.
Proof. reflexivity. Qed.

Example split_slash_keeps_empty_components :
  Fs.split_slash "/a/b/" = [""; "a"; "b"; ""].
Proof. reflexivity. Qed.

Example resolve_dotdot :
  Fs.resolve Sample.tree "/srv/daryl/assets/prompts/../../server.py"
  = Ok ["srv"; "daryl"; "server.py"].
Proof. vm_compute. reflexivity. Qed.

Example resolve_through_missing_directory :
  Fs.resolve Sample.tree "/srv/daryl/assets/prompts/x/../a.json"
  = Raise ENOENT.
Proof. vm_compute. reflexivity. Qed.

Example resolve_through_file :
  Fs.resolve Sample.tree "/srv/daryl/assets/prompts/a.json/"
  = Raise ENOTDIR.
Proof. vm_compute. reflexivity. Qed.

Example sample_prompts_dir :
  prompts_dir_is Sample.SERVE_DIR Sample.tree Sample.prompts_at Sample.prompts.
Proof. split; vm_compute; reflexivity. Qed.

Example sample_list :
  body (wire (snd (Sample.run (Sample.get "/list-prompts") Sample.tree [])))
  = [JsonText (JArray [JString "a.json"])].
Proof. vm_compute. reflexivity. Qed.

(** ** Facts about the string functions *)

Section StringFacts.

#[local] Open Scope nat_scope.

Lemma in_class_not_slash c : Py.in_class c = true -> Ascii.eqb c "/" = false.
Proof.
  intros H. destruct (Ascii.eqb_spec c "/") as [->|]; [discriminate H | reflexivity].
Qed.

Lemma re_sub_has_slash s : has_slash (Py.re_sub_not_in_class s) = false.
Proof.
  induction s as [|c s IH]; simpl; [reflexivity|].
  destruct (Py.in_class c) eqn:Hc; simpl; [|exact IH].
  rewrite (in_class_not_slash c Hc), IH. reflexivity.
Qed.

Lemma re_sub_idem s :
  Py.re_sub_not_in_class (Py.re_sub_not_in_class s) = Py.re_sub_not_in_class s.
Proof.
  induction s as [|c s IH]; simpl; [reflexivity|].
  destruct (Py.in_class c) eqn:Hc; simpl; [|exact IH].
  rewrite Hc, IH. reflexivity.
Qed.

Lemma rfind_from_no_slash s i last :
  has_slash s = false -> Py.rfind_from "/" s i last = last.
Proof.
  revert i last. induction s as [|c s IH]; intros i last H; simpl in *; [reflexivity|].
  apply orb_false_iff in H as [Hc Hs]. rewrite Hc. apply IH, Hs.
Qed.

Lemma basename_no_slash s : has_slash s = false -> Py.os_path_basename s = s.
Proof.
  intros H. unfold Py.os_path_basename, Py.rfind.
  rewrite rfind_from_no_slash by exact H. reflexivity.
Qed.

Lemma split_slash_no_slash s : has_slash s = false -> Fs.split_slash s = [s].
Proof.
  induction s as [|c s IH]; simpl; intros H; [reflexivity|].
  apply orb_false_iff in H as [Hc Hs]. rewrite Hc, (IH Hs). reflexivity.
Qed.

Lemma split_slash_nonempty s : Fs.split_slash s <> [].
Proof.
  destruct s as [|c s]; simpl; [discriminate|].
  destruct (Ascii.eqb c "/"); [discriminate|].
  destruct (Fs.split_slash s); discriminate.
Qed.

Lemma split_slash_app a b :
  Fs.split_slash (a ++ "/" ++ b) = (Fs.split_slash a ++ Fs.split_slash b)%list.
Proof.
  induction a as [|c a IH]; simpl; [reflexivity|].
  destruct (Ascii.eqb c "/"); simpl.
  - f_equal. exact IH.
  - rewrite IH. destruct (Fs.split_slash a) as [|h t] eqn:Ha.
    + exfalso. exact (split_slash_nonempty a Ha).
    + reflexivity.
Qed.

Lemma slice_from_length s : Py.slice_from (String.length s) s = "".
Proof. induction s; simpl; auto. Qed.

Lemma slice_from_last s :
  s <> "" ->
  Py.slice_from (String.length s - 1) s
  = match last_char s with Some c => String c "" | None => "" end.
Proof.
  induction s as [|c s IH]; intros Hne; [congruence|].
  destruct s as [|d s]; [reflexivity|].
  specialize (IH ltac:(discriminate)).
  simpl in *. rewrite Nat.sub_0_r in *. exact IH.
Qed.

Lemma endswith_slash s :
  Py.endswith s "/" = true -> last_char s = Some "/"%char.
Proof.
  unfold Py.endswith. intros H. apply andb_true_iff in H as [Hl He].
  destruct s as [|c s]; [discriminate Hl|].
  change (String.length "/") with 1 in He.
  rewrite slice_from_last in He by discriminate.
  apply String.eqb_eq in He.
  destruct (last_char (String c s)) as [d|]; [|discriminate He].
  injection He as ->. reflexivity.
Qed.

Lemma last_char_app a b : b <> "" -> last_char (a ++ b) = last_char b.
Proof.
  intros Hb. induction a as [|c a IH]; simpl; [reflexivity|].
  rewrite <- IH. destruct (a ++ b) eqn:E; [|reflexivity].
  destruct a; simpl in E; [exact (False_ind _ (Hb E)) | discriminate E].
Qed.

End StringFacts.

(** ** Facts about the file tree *)

Section FsFacts.

#[local] Open Scope list_scope.

Lemma node_at_app r c y :
  Fs.node_at r (c ++ [y])
  = match Fs.node_at r c with
    | Some (Dir m) => m !! y
    | _ => None
    end.
Proof.
  revert r. induction c as [|z c IH]; intros r; simpl.
  - destruct r as [f|m]; [reflexivity|]. destruct (m !! y); reflexivity.
  - destruct r as [f|m]; [reflexivity|]. destruct (m !! z); [apply IH | reflexivity].
Qed.

Lemma walk_app r cur l1 l2 :
  Fs.walk r cur (l1 ++ l2)
  = match Fs.walk r cur l1 with
    | Ok c => Fs.walk r c l2
    | Raise e => Raise e
    end.
Proof.
  revert cur. induction l1 as [|a l1 IH]; intros cur; simpl; [reflexivity|].
  destruct (Fs.step r cur a); [apply IH | reflexivity].
Qed.

Lemma walk_from_non_dir r c comps t :
  (forall m, Fs.node_at r c <> Some (Dir m)) ->
  Fs.walk r c comps = Ok t -> comps = [] /\ t = c.
Proof.
  intros Hnd H. destruct comps as [|a comps]; simpl in H.
  - split; [reflexivity | congruence].
  - exfalso. unfold Fs.step in H.
    destruct (Fs.node_at r c) as [[f|m]|]; [discriminate H | | discriminate H].
    exact (Hnd m eq_refl).
Qed.

Lemma set_at_cons m0 z y q new :
  Fs.set_at (Dir m0) (z :: y :: q) new
  = match m0 !! z with
    | Some n' => Dir (<[z := Fs.set_at n' (y :: q) new]> m0)
    | None => Dir m0
    end.
Proof. reflexivity. Qed.

Lemma set_at_snoc_cons m0 z pd x new :
  Fs.set_at (Dir m0) (z :: pd ++ [x]) new
  = match m0 !! z with
    | Some n' => Dir (<[z := Fs.set_at n' (pd ++ [x]) new]> m0)
    | None => Dir m0
    end.
Proof. destruct pd; apply set_at_cons. Qed.

Lemma node_at_set_at pd r m x new :
  Fs.node_at r pd = Some (Dir m) ->
  Fs.node_at (Fs.set_at r (pd ++ [x]) new) pd = Some (Dir (entries_set new x m)).
Proof.
  revert r. induction pd as [|z pd IH]; intros r H.
  - simpl in H. injection H as ->. reflexivity.
  - destruct r as [f|m0]; [discriminate H|].
    simpl in H. destruct (m0 !! z) as [n'|] eqn:Hz; [|discriminate H].
    change ((z :: pd) ++ [x]) with (z :: pd ++ [x]).
    rewrite set_at_snoc_cons, Hz. simpl.
    rewrite lookup_insert_eq. apply IH, H.
Qed.

Lemma lookup_entries_set_ne new x y (m : gmap string node) :
  y <> x -> entries_set new x m !! y = m !! y.
Proof.
  intros Hne. destruct new; simpl.
  - apply lookup_insert_ne. congruence.
  - apply lookup_delete_ne. congruence.
Qed.

(** Changing an entry that is not a directory, into something that is not
    a directory, keeps every directory a directory and keeps all its
    entries but, possibly, the changed one. *)
Lemma set_at_keeps_dirs pd : forall r m x new,
  Fs.node_at r pd = Some (Dir m) ->
  not_dir (m !! x) -> not_dir new ->
  forall cur mc,
    Fs.node_at r cur = Some (Dir mc) ->
    exists mc',
      Fs.node_at (Fs.set_at r (pd ++ [x]) new) cur = Some (Dir mc')
      /\ forall y, (cur <> pd \/ y <> x) -> is_Some (mc !! y) -> is_Some (mc' !! y).
Proof.
  induction pd as [|z pd IH]; intros r m x new Hpd Hold Hnew cur mc Hcur.
  - simpl in Hpd. injection Hpd as ->.
    change (Fs.set_at (Dir m) ([] ++ [x]) new) with (Dir (entries_set new x m)).
    destruct cur as [|y0 cur].
    + simpl in Hcur. injection Hcur as <-. exists (entries_set new x m).
      split; [reflexivity|]. intros y [Hc|Hy] Hs; [congruence|].
      rewrite lookup_entries_set_ne by exact Hy. exact Hs.
    + exists mc. split.
      * simpl in *. destruct (decide (y0 = x)) as [->|Hne].
        -- exfalso. destruct (m !! x) as [[f|mx]|]; simpl in Hold.
           ++ destruct cur; simpl in Hcur; discriminate Hcur.
           ++ exact Hold.
           ++ discriminate Hcur.
        -- rewrite lookup_entries_set_ne by exact Hne. exact Hcur.
      * intros y _ Hs. exact Hs.
  - destruct r as [f|m0]; [discriminate Hpd|].
    simpl in Hpd. destruct (m0 !! z) as [n'|] eqn:Hz; [|discriminate Hpd].
    change ((z :: pd) ++ [x]) with (z :: pd ++ [x]).
    rewrite set_at_snoc_cons, Hz.
    destruct cur as [|y0 cur].
    + simpl in Hcur. injection Hcur as <-.
      eexists. split; [reflexivity|].
      intros y _ Hs. destruct (decide (z = y)) as [->|Hne].
      * rewrite lookup_insert_eq. eauto.
      * rewrite lookup_insert_ne by exact Hne. exact Hs.
    + simpl in Hcur. simpl. destruct (decide (z = y0)) as [<-|Hne].
      * rewrite lookup_insert_eq. rewrite Hz in Hcur.
        destruct (IH n' m x new Hpd Hold Hnew cur mc Hcur) as (mc' & H1 & H2).
        exists mc'. split; [exact H1|].
        intros y Hy. apply H2. destruct Hy as [Hy|Hy]; [left | right; exact Hy].
        intros ->. apply Hy. reflexivity.
      * rewrite lookup_insert_ne by exact Hne.
        exists mc. split; [exact Hcur|]. intros y _ Hs. exact Hs.
Qed.

Lemma walk_set_at r pd m x new :
  Fs.node_at r pd = Some (Dir m) ->
  not_dir (m !! x) -> not_dir new ->
  forall comps cur t mt,
    Fs.walk r cur comps = Ok t ->
    Fs.node_at r t = Some (Dir mt) ->
    Fs.walk (Fs.set_at r (pd ++ [x]) new) cur comps = Ok t.
Proof.
  intros Hpd Hold Hnew. induction comps as [|a comps IH]; intros cur t mt Hw Ht.
  - exact Hw.
  - simpl in Hw. simpl.
    destruct (Fs.step r cur a) as [c'|e] eqn:Hs; [|discriminate Hw].
    assert (Fs.step (Fs.set_at r (pd ++ [x]) new) cur a = Ok c') as ->.
    { unfold Fs.step in *.
      destruct (Fs.node_at r cur) as [[f|mc]|] eqn:Hc; try discriminate Hs.
      destruct (set_at_keeps_dirs pd r m x new Hpd Hold Hnew cur mc Hc)
        as (mc' & -> & Hkeep).
      destruct (String.eqb a "" || String.eqb a "."); [exact Hs|].
      destruct (String.eqb a ".."); [exact Hs|].
      destruct (mc !! a) as [na|] eqn:Ha; [|discriminate Hs].
      injection Hs as <-.
      destruct (decide (cur = pd /\ a = x)) as [[-> ->]|Hne].
      - exfalso.
        assert (Hfile : forall m', Fs.node_at r (pd ++ [x]) <> Some (Dir m')).
        { intros m' E. rewrite node_at_app, Hpd in E.
          rewrite E in Hold. exact Hold. }
        destruct (walk_from_non_dir r _ comps t Hfile Hw) as [_ ->].
        exact (Hfile mt Ht).
      - destruct (Hkeep a) as [v ->]; [|eauto|reflexivity].
        destruct (decide (cur = pd)) as [->|]; [right|left; assumption].
        intros ->. apply Hne. split; reflexivity. }
    eapply IH; eassumption.
Qed.

End FsFacts.

(** ** The prompts directory *)

Section PromptsFacts.

Variable SERVE_DIR : string.

Let P := PROMPTS_DIR SERVE_DIR.

Lemma append_assoc_str (a b c : string) : (a ++ b ++ c = (a ++ b) ++ c)%string.
Proof.
  induction a as [|x a IH]; [reflexivity|].
  change (String x (a ++ b ++ c) = String x ((a ++ b) ++ c))%string.
  f_equal. exact IH.
Qed.

Lemma prompts_dir_shape : exists X, P = (X ++ "prompts")%string.
Proof.
  unfold P, PROMPTS_DIR.
  set (a := Py.os_path_join SERVE_DIR "assets").
  unfold Py.os_path_join at 1. simpl Py.startswith.
  destruct (String.eqb a "" || Py.endswith a "/").
  - exists a. reflexivity.
  - exists (a ++ "/")%string. apply append_assoc_str.
Qed.

Lemma prompts_dir_nonempty : P <> "".
Proof.
  destruct prompts_dir_shape as [X ->]. destruct X; discriminate.
Qed.

Lemma prompts_dir_no_trailing_slash : Py.endswith P "/" = false.
Proof.
  destruct (Py.endswith P "/") eqn:E; [|reflexivity].
  apply endswith_slash in E. destruct prompts_dir_shape as [X HX].
  rewrite HX, last_char_app in E by discriminate. discriminate E.
Qed.

Lemma startswith_no_slash n : has_slash n = false -> Py.startswith n "/" = false.
Proof.
  destruct n as [|c n]; [reflexivity|]. intros H. simpl in H.
  apply orb_false_iff in H as [Hc _].
  unfold Py.startswith.
  change (String.prefix "/" (String c n))
    with (if ascii_dec "/" c then String.prefix "" n else false).
  destruct (ascii_dec "/" c) as [<-|]; [discriminate Hc | reflexivity].
Qed.

Lemma join_prompts n :
  has_slash n = false -> Py.os_path_join P n = (P ++ "/" ++ n)%string.
Proof.
  intros H. unfold Py.os_path_join.
  rewrite (startswith_no_slash n H), prompts_dir_no_trailing_slash.
  destruct (String.eqb_spec P "") as [E|_]; [|reflexivity].
  exfalso. exact (prompts_dir_nonempty E).
Qed.

Lemma start_of_app w a b : a <> "" -> Fs.start_of w (a ++ b)%string = Fs.start_of w a.
Proof.
  intros Ha. destruct a as [|c a]; [congruence|].
  unfold Fs.start_of, Py.startswith.
  change (String.prefix "/" (String c a ++ b)%string)
    with (if ascii_dec "/" c then String.prefix "" (a ++ b)%string else false).
  change (String.prefix "/" (String c a))
    with (if ascii_dec "/" c then String.prefix "" a else false).
  destruct (ascii_dec "/" c); [|reflexivity].
  destruct a, b; reflexivity.
Qed.

Lemma resolve_nonempty w p :
  p <> "" -> Fs.resolve w p = Fs.walk (root w) (Fs.start_of w p) (Fs.split_slash p).
Proof.
  intros Hp. unfold Fs.resolve.
  destruct (String.eqb_spec p "") as [E|_]; [congruence | reflexivity].
Qed.

Lemma app_nonempty_l (a b : string) : a <> "" -> (a ++ b)%string <> "".
Proof. destruct a; [congruence | discriminate]. Qed.

(** Joining a name without a slash to [PROMPTS_DIR] walks one more
    component from the prompts directory. *)
Lemma resolve_join_prompts w n :
  has_slash n = false ->
  Fs.resolve w (Py.os_path_join P n)
  = match Fs.resolve w P with
    | Ok pd => Fs.step (root w) pd n
    | Raise e => Raise e
    end.
Proof.
  intros H. rewrite (join_prompts n H).
  rewrite resolve_nonempty by (apply app_nonempty_l, prompts_dir_nonempty).
  rewrite (resolve_nonempty w P) by apply prompts_dir_nonempty.
  rewrite start_of_app by apply prompts_dir_nonempty.
  rewrite split_slash_app, (split_slash_no_slash n H), walk_app.
  destruct (Fs.walk (root w) (Fs.start_of w P) (Fs.split_slash P)); [|reflexivity].
  simpl. destruct (Fs.step (root w) a n); reflexivity.
Qed.

Lemma entry_name_no_slash n : is_entry_name n = true -> has_slash n = false.
Proof.
  unfold is_entry_name. intros H. apply andb_true_iff in H as [_ H].
  apply negb_true_iff in H. exact H.
Qed.

Lemma step_entry_name r pd m n :
  Fs.node_at r pd = Some (Dir m) -> is_entry_name n = true ->
  Fs.step r pd n
  = match m !! n with
    | Some _ => Ok (pd ++ [n])%list
    | None => Raise ENOENT
    end.
Proof.
  intros Hpd Hn. unfold Fs.step. rewrite Hpd.
  unfold is_entry_name in Hn.
  repeat (apply andb_true_iff in Hn as [Hn ?]).
  repeat match goal with H : negb _ = true |- _ => apply negb_true_iff in H end.
  rewrite Hn, H1, H0. reflexivity.
Qed.

(** [os.path.exists] of a prompt path. *)
Lemma exists_prompt w pd m n :
  prompts_dir_is SERVE_DIR w pd m -> is_entry_name n = true ->
  Fs.os_path_exists w (Py.os_path_join P n)
  = match m !! n with Some _ => true | None => false end.
Proof.
  intros [Hr Hd] Hn. unfold Fs.os_path_exists.
  rewrite resolve_join_prompts by (apply entry_name_no_slash, Hn).
  fold P in Hr. rewrite Hr, (step_entry_name _ _ _ _ Hd Hn).
  destruct (m !! n); reflexivity.
Qed.

(** [os.listdir(PROMPTS_DIR)]. *)
Lemma listdir_prompts w pd m :
  prompts_dir_is SERVE_DIR w pd m ->
  Fs.os_listdir w P = Ok ((map_to_list m).*1).
Proof.
  intros [Hr Hd]. unfold Fs.os_listdir. fold P in Hr. rewrite Hr, Hd. reflexivity.
Qed.

(** The prompts directory after one of its entries, not a directory, was
    replaced or unlinked. *)
Lemma prompts_dir_after_set w pd m x new :
  prompts_dir_is SERVE_DIR w pd m ->
  not_dir (m !! x) -> not_dir new ->
  prompts_dir_is SERVE_DIR
    {| root := Fs.set_at (root w) (pd ++ [x])%list new; cwd := cwd w |}
    pd (entries_set new x m).
Proof.
  intros [Hr Hd] Hold Hnew. split.
  - fold P in Hr |- *.
    rewrite resolve_nonempty in Hr |- * by apply prompts_dir_nonempty.
    unfold Fs.start_of in *. simpl.
    eapply walk_set_at; eassumption.
  - simpl. apply node_at_set_at, Hd.
Qed.

(** [os.remove] of a prompt that is a file. *)
Lemma remove_prompt w pd m n c :
  prompts_dir_is SERVE_DIR w pd m -> is_entry_name n = true ->
  m !! n = Some (File c) ->
  Fs.os_remove w (Py.os_path_join P n)
  = Ok {| root := Fs.set_at (root w) (pd ++ [n])%list None; cwd := cwd w |}.
Proof.
  intros [Hr Hd] Hn Hm. unfold Fs.os_remove.
  rewrite resolve_join_prompts by (apply entry_name_no_slash, Hn).
  fold P in Hr. rewrite Hr, (step_entry_name _ _ _ _ Hd Hn), Hm.
  rewrite node_at_app, Hd, Hm. reflexivity.
Qed.

(** [open(..., 'w')] of a prompt path that is not a directory. *)
Lemma open_w_prompt w pd m n c :
  prompts_dir_is SERVE_DIR w pd m -> is_entry_name n = true ->
  not_dir (m !! n) ->
  Fs.open_w w (Py.os_path_join P n) c
  = if (Fs.NAME_MAX <? String.length n)%nat then Raise ENAMETOOLONG
    else Ok {| root := Fs.set_at (root w) (pd ++ [n])%list (Some (File c));
               cwd := cwd w |}.
Proof.
  intros [Hr Hd] Hn Hm. unfold Fs.open_w.
  pose proof (entry_name_no_slash n Hn) as Hs.
  rewrite (join_prompts n Hs).
  destruct (String.eqb_spec (P ++ "/" ++ n) "") as [E|_].
  { exfalso. exact (app_nonempty_l _ _ prompts_dir_nonempty E). }
  rewrite split_slash_app, (split_slash_no_slash n Hs).
  rewrite removelast_last, last_last.
  rewrite start_of_app by apply prompts_dir_nonempty.
  fold P in Hr. rewrite resolve_nonempty in Hr by apply prompts_dir_nonempty.
  rewrite Hr, Hd.
  unfold is_entry_name in Hn.
  repeat (apply andb_true_iff in Hn as [Hn ?]).
  repeat match goal with H : negb _ = true |- _ => apply negb_true_iff in H end.
  rewrite Hn, H1, H0. cbn [orb].
  destruct (Fs.NAME_MAX <? String.length n)%nat; [reflexivity|].
  destruct (m !! n) as [[f|d]|]; simpl in Hm; [reflexivity | contradiction | reflexivity].
Qed.

End PromptsFacts.

(** ** What the response-building methods leave behind *)

Section ResponseFacts.

#[local] Open Scope list_scope.

(** Runs the response-building methods on a state whose fields are
    known. *)
Ltac run_writers :=
  cbv [bind ret send_response send_response_only end_headers send_header
       super_end_headers wfile_write log_message modify_wire write_head
       fs log http09 wire status_line header_lines headers_done body
       andb negb Http.message_latin1].

Lemma send_error_run self code msg s :
  http09 s = false ->
  send_error self code msg s = error_result self code msg s.
Proof.
  destruct s as [w l v r]. cbn [http09]. intros ->.
  unfold send_error, send_response, send_response_only, error_result,
    after_error, after_unsent, error_headers, error_body.
  destruct (Http.message_latin1 msg);
    (destruct (has_error_page code);
     [destruct (String.eqb (command self) "HEAD")|]);
    run_writers; rewrite <- ?app_assoc, ?app_nil_r; reflexivity.
Qed.

(** [send_error] with a message that can be encoded. *)
Lemma send_error_sent self code msg s :
  http09 s = false -> Http.message_latin1 msg = true ->
  send_error self code msg s = (Ok tt, after_error self code msg s).
Proof.
  intros H E. rewrite (send_error_run self code msg s H).
  unfold error_result. rewrite E. reflexivity.
Qed.

(** The four calls that end every successful API handler:
    [send_response(200)], the JSON content type, [end_headers()] and
    [wfile.write(json.dumps(j).encode('utf-8'))]. *)
Lemma reply_inline_run self j s :
  http09 s = false ->
  (send_response self 200 Default ;;
   send_header self "Content-Type" (Lit "application/json") ;;
   end_headers self ;;
   wfile_write self (JsonText j)) s
  = (Ok tt, after_json self j s).
Proof.
  destruct s as [w l v r]. cbn [http09]. intros ->.
  unfold after_json, json_headers.
  run_writers. rewrite <- ?app_assoc. reflexivity.
Qed.

Lemma has_cors_app r hs :
  header_lines r = hs ++ cors_headers -> has_cors r.
Proof. intros E h Hh. rewrite E. apply in_or_app. right. exact Hh. Qed.

Lemma has_cors_after_error self code msg s :
  has_cors (wire (after_error self code msg s)).
Proof.
  eapply has_cors_app. simpl. unfold error_headers.
  rewrite !app_assoc. reflexivity.
Qed.

Lemma has_cors_after_json self j s : has_cors (wire (after_json self j s)).
Proof.
  eapply has_cors_app. simpl. unfold json_headers.
  rewrite !app_assoc. reflexivity.
Qed.

(** What [send_error] leaves, sent or not. *)
Lemma error_result_cases self code msg s :
  error_result self code msg s = (Ok tt, after_error self code msg s)
  \/ (Http.message_latin1 msg = false
      /\ error_result self code msg s
         = (Raise UnicodeEncodeError, after_unsent self code msg s)).
Proof.
  unfold error_result. destruct (Http.message_latin1 msg); [left | right];
    auto.
Qed.

Lemma error_cors self code msg s :
  silent_or_cors s (snd (error_result self code msg s)).
Proof.
  destruct (error_result_cases self code msg s) as [-> | [_ ->]]; cbn [snd].
  - right. apply has_cors_after_error.
  - left. reflexivity.
Qed.

End ResponseFacts.

(** ** The handlers as functions of the state *)

Section HandlerFacts.

#[local] Open Scope list_scope.

Variable SERVE_DIR : string.
Variable can_allocate : Z -> bool.
Variable py_repr : string -> string.
Variable bytes_decode_utf8 : string -> result string.
Variable json_loads : string -> result json.
Variable urlparse : string -> url.
Variable parse_qs : string -> gmap string (list string).
Variable send_head : request -> world -> list (string * log_event) -> head_result.

Lemma bind_run {A B} (m : M A) (k : A -> M B) s :
  bind m k s
  = match m s with
    | (Ok a, s') => k a s'
    | (Raise e, s') => (Raise e, s')
    end.
Proof. reflexivity. Qed.

Lemma read_json_body_run self s :
  read_json_body can_allocate bytes_decode_utf8 json_loads self s
  = (body_of can_allocate bytes_decode_utf8 json_loads self, s).
Proof.
  unfold read_json_body, body_of. rewrite bind_run. unfold lift at 1.
  destruct (py_int _) as [n|e]; [|reflexivity].
  rewrite bind_run. unfold lift at 1.
  destruct (Http.rfile_read _ _ _) as [post_data|e]; [|reflexivity].
  rewrite bind_run. unfold lift at 1.
  destruct (bytes_decode_utf8 _) as [text|e]; reflexivity.
Qed.

Lemma handle_save_prompt_run self s :
  http09 s = false ->
  handle_save_prompt SERVE_DIR can_allocate py_repr bytes_decode_utf8
    json_loads self s
  = save_result SERVE_DIR can_allocate py_repr bytes_decode_utf8 json_loads
      self s.
Proof.
  intros H. unfold handle_save_prompt, try_except, save_result.
  rewrite bind_run, read_json_body_run.
  destruct (body_of can_allocate bytes_decode_utf8 json_loads self)
    as [data|e]; [|exact (send_error_run _ _ _ _ H)].
  rewrite bind_run. unfold lift at 1.
  destruct (py_get data "filename") as [filename|e];
    [|exact (send_error_run _ _ _ _ H)].
  rewrite bind_run. unfold lift at 1.
  destruct (py_get data "content") as [content|e];
    [|exact (send_error_run _ _ _ _ H)].
  destruct (negb (truthy filename) || negb (truthy content)).
  { rewrite send_error_run by exact H. reflexivity. }
  rewrite bind_run. unfold lift at 1.
  destruct (py_basename filename) as [base|e];
    [|exact (send_error_run _ _ _ _ H)].
  cbv zeta.
  destruct (negb (Py.endswith (Py.re_sub_not_in_class base) ".json")).
  { rewrite send_error_run by exact H. reflexivity. }
  rewrite bind_run. unfold get_fs at 1.
  rewrite bind_run. unfold lift at 1.
  destruct (open_w _ _ _ _) as [w'|e]; [|exact (send_error_run _ _ _ _ H)].
  rewrite bind_run. unfold put_fs at 1. cbv beta iota.
  rewrite reply_inline_run by exact H. reflexivity.
Qed.

Lemma handle_delete_prompt_run self s :
  http09 s = false ->
  handle_delete_prompt SERVE_DIR can_allocate py_repr bytes_decode_utf8
    json_loads self s
  = delete_result SERVE_DIR can_allocate py_repr bytes_decode_utf8 json_loads
      self s.
Proof.
  intros H. unfold handle_delete_prompt, try_except, delete_result.
  rewrite bind_run, read_json_body_run.
  destruct (body_of can_allocate bytes_decode_utf8 json_loads self)
    as [data|e]; [|exact (send_error_run _ _ _ _ H)].
  rewrite bind_run. unfold lift at 1.
  destruct (py_get data "filename") as [filename|e];
    [|exact (send_error_run _ _ _ _ H)].
  destruct (negb (truthy filename)).
  { rewrite send_error_run by exact H. reflexivity. }
  rewrite bind_run. unfold lift at 1.
  destruct (py_basename filename) as [base|e];
    [|exact (send_error_run _ _ _ _ H)].
  cbv zeta. rewrite bind_run. unfold get_fs at 1.
  destruct (Fs.os_path_exists _ _).
  - rewrite bind_run. unfold lift at 1.
    destruct (os_remove _ _ _) as [w'|e]; [|exact (send_error_run _ _ _ _ H)].
    rewrite bind_run. unfold put_fs at 1. cbv beta iota.
    rewrite reply_inline_run by exact H. reflexivity.
  - rewrite send_error_run by exact H. reflexivity.
Qed.

Lemma handle_list_prompts_run self s :
  http09 s = false ->
  handle_list_prompts SERVE_DIR py_repr self s
  = list_result SERVE_DIR py_repr self s.
Proof.
  intros H. unfold handle_list_prompts, try_except, list_result.
  rewrite bind_run. unfold get_fs at 1.
  rewrite bind_run. unfold lift at 1.
  destruct (os_listdir _ _ _) as [names|e]; [|exact (send_error_run _ _ _ _ H)].
  cbv zeta. rewrite reply_inline_run by exact H. reflexivity.
Qed.

Lemma handle_check_prompt_exists_run self s :
  http09 s = false ->
  handle_check_prompt_exists SERVE_DIR urlparse parse_qs self s
  = check_result SERVE_DIR urlparse parse_qs self s.
Proof.
  intros H. unfold handle_check_prompt_exists, check_result.
  cbv zeta. rewrite bind_run. unfold lift at 1.
  destruct (first_filename _) as [[[|c f]|]|e].
  - exact (send_error_run _ _ _ _ H).
  - rewrite bind_run. unfold get_fs at 1. cbv beta iota.
    rewrite reply_inline_run by exact H. reflexivity.
  - exact (send_error_run _ _ _ _ H).
  - reflexivity.
Qed.

End HandlerFacts.

(** ** Dispatch *)

Section Dispatch.

Variable SERVE_DIR : string.
Variable can_allocate : Z -> bool.
Variable py_repr : string -> string.
Variable bytes_decode_utf8 : string -> result string.
Variable json_loads : string -> result json.
Variable urlparse : string -> url.
Variable parse_qs : string -> gmap string (list string).
Variable send_head : request -> world -> list (string * log_event) -> head_result.

Let serve' :=
  serve SERVE_DIR can_allocate py_repr bytes_decode_utf8 json_loads urlparse
    parse_qs send_head.

Ltac eval_eqb := cbn [String.eqb Ascii.eqb Bool.eqb].

Lemma serve_post self w l :
  command self = "POST" ->
  serve' self w l
  = do_POST SERVE_DIR can_allocate py_repr bytes_decode_utf8 json_loads self
      (fresh w l).
Proof.
  intros Hc. unfold serve', serve, handle. cbv zeta. rewrite Hc. eval_eqb.
  reflexivity.
Qed.

Lemma serve_save self w l :
  command self = "POST" -> path self = "/save-prompt" ->
  serve' self w l
  = save_result SERVE_DIR can_allocate py_repr bytes_decode_utf8 json_loads
      self (fresh w l).
Proof.
  intros Hc Hp. rewrite (serve_post self w l Hc). unfold do_POST. cbv zeta.
  rewrite Hp. eval_eqb. apply handle_save_prompt_run. reflexivity.
Qed.

Lemma serve_delete self w l :
  command self = "POST" -> path self = "/delete-prompt" ->
  serve' self w l
  = delete_result SERVE_DIR can_allocate py_repr bytes_decode_utf8 json_loads
      self (fresh w l).
Proof.
  intros Hc Hp. rewrite (serve_post self w l Hc). unfold do_POST. cbv zeta.
  rewrite Hp. eval_eqb. apply handle_delete_prompt_run. reflexivity.
Qed.

Lemma serve_post_other self w l :
  command self = "POST" ->
  path self <> "/save-prompt" -> path self <> "/delete-prompt" ->
  serve' self w l
  = (Ok tt, after_error self 404 (Text "Endpoint not found") (fresh w l)).
Proof.
  intros Hc Hs Hd. rewrite (serve_post self w l Hc). unfold do_POST. cbv zeta.
  destruct (String.eqb_spec (path self) "/save-prompt") as [E|_]; [congruence|].
  destruct (String.eqb_spec (path self) "/delete-prompt") as [E|_]; [congruence|].
  exact (send_error_run self 404 (Text "Endpoint not found") (fresh w l)
           eq_refl).
Qed.

Lemma serve_get self w l :
  command self = "GET" ->
  serve' self w l
  = do_GET SERVE_DIR py_repr urlparse parse_qs send_head self (fresh w l).
Proof.
  intros Hc. unfold serve', serve, handle. cbv zeta. rewrite Hc. eval_eqb.
  reflexivity.
Qed.

Lemma serve_list self w l :
  command self = "GET" -> url_path (urlparse (path self)) = "/list-prompts" ->
  serve' self w l = list_result SERVE_DIR py_repr self (fresh w l).
Proof.
  intros Hc Hp. rewrite (serve_get self w l Hc). unfold do_GET. cbv zeta.
  rewrite Hp. eval_eqb. apply handle_list_prompts_run. reflexivity.
Qed.

Lemma serve_check self w l :
  command self = "GET" ->
  url_path (urlparse (path self)) = "/check-prompt-exists" ->
  serve' self w l = check_result SERVE_DIR urlparse parse_qs self (fresh w l).
Proof.
  intros Hc Hp. rewrite (serve_get self w l Hc). unfold do_GET. cbv zeta.
  rewrite Hp. eval_eqb. apply handle_check_prompt_exists_run. reflexivity.
Qed.

End Dispatch.

(** ** Static files, [OPTIONS], and the headers of every response *)

Section Static.

#[local] Open Scope list_scope.

Variable SERVE_DIR : string.
Variable can_allocate : Z -> bool.
Variable py_repr : string -> string.
Variable bytes_decode_utf8 : string -> result string.
Variable json_loads : string -> result json.
Variable urlparse : string -> url.
Variable parse_qs : string -> gmap string (list string).
Variable send_head : request -> world -> list (string * log_event) -> head_result.

Ltac run_writers :=
  cbv [bind ret send_response send_response_only end_headers send_header
       super_end_headers wfile_write log_message modify_wire write_head
       fs log http09 wire status_line header_lines headers_done body
       andb negb Http.message_latin1].

Lemma send_header_run self k v s :
  http09 s = false ->
  send_header self k v s = (Ok tt, with_headers [(k, v)] s).
Proof.
  intros H. unfold send_header, write_head. rewrite H. reflexivity.
Qed.

Lemma with_headers_app hs1 hs2 s :
  with_headers hs2 (with_headers hs1 s) = with_headers (hs1 ++ hs2) s.
Proof. unfold with_headers. simpl. rewrite <- app_assoc. reflexivity. Qed.

Lemma send_headers_run self hs : forall s,
  http09 s = false ->
  fold_right (fun h k => send_header self (fst h) (snd h) ;; k) (ret tt) hs s
  = (Ok tt, with_headers hs s).
Proof.
  induction hs as [|[k v] hs IH]; intros s H.
  - unfold with_headers. simpl. rewrite app_nil_r.
    destruct s as [w l v [st hl hd b]]. reflexivity.
  - cbn [fold_right fst snd].
    rewrite bind_run, send_header_run by exact H.
    rewrite IH by exact H.
    rewrite with_headers_app. reflexivity.
Qed.

Lemma head_run self code hs (file : option string) s :
  http09 s = false ->
  (send_response self code Default ;;
   fold_right (fun h k => send_header self (fst h) (snd h) ;; k) (ret tt) hs ;;
   end_headers self ;;
   ret file) s
  = (Ok file, after_head self code hs s).
Proof.
  intros H. rewrite bind_run.
  replace (send_response self code Default s)
    with (@Ok exn unit tt,
          {| fs := fs s;
             log := log s ++ [(client_address self, LogRequest code)];
             http09 := http09 s;
             wire := {| status_line := Some (code, Default);
                        header_lines :=
                          header_lines (wire s)
                          ++ [("Server", ServerVersion); ("Date", DateNow)];
                        headers_done := headers_done (wire s);
                        body := body (wire s) |} |}).
  2: { destruct s as [w l v r]. cbn [http09] in H. subst v.
       run_writers. rewrite <- ?app_assoc. reflexivity. }
  rewrite bind_run, send_headers_run by exact H.
  destruct s as [w l v r]. cbn [http09] in H. subst v.
  unfold after_head, with_headers.
  run_writers. rewrite <- ?app_assoc. reflexivity.
Qed.

Lemma has_cors_after_head self code hs s :
  has_cors (wire (after_head self code hs s)).
Proof.
  apply (has_cors_app _
           (header_lines (wire s)
            ++ [("Server", ServerVersion); ("Date", DateNow)] ++ hs)).
  unfold after_head. cbn [wire header_lines].
  rewrite <- !app_assoc. reflexivity.
Qed.

Lemma super_send_head_run self s :
  http09 s = false ->
  super_send_head send_head self s
  = match send_head self (fs s) (log s) with
    | HeadError code msg => (Ok None, after_error self code (Text msg) s)
    | HeadOk code hs file => (Ok file, after_head self code hs s)
    end.
Proof.
  intros H. unfold super_send_head. destruct (send_head self (fs s) (log s)).
  - rewrite bind_run, send_error_run by exact H. reflexivity.
  - apply head_run, H.
Qed.

Lemma do_OPTIONS_run self s :
  http09 s = false ->
  do_OPTIONS self s = (Ok tt, after_head self 204 [] s).
Proof.
  destruct s as [w l v r]. cbn [http09]. intros ->.
  unfold do_OPTIONS, after_head.
  run_writers. rewrite <- ?app_assoc. reflexivity.
Qed.

Lemma save_cors self s :
  silent_or_cors s
    (snd (save_result SERVE_DIR can_allocate py_repr bytes_decode_utf8
            json_loads self s)).
Proof.
  unfold save_result. cbv zeta.
  repeat case_match; cbn [snd];
    first [apply error_cors
          | right; apply has_cors_after_error
          | right; apply has_cors_after_json].
Qed.

Lemma delete_cors self s :
  silent_or_cors s
    (snd (delete_result SERVE_DIR can_allocate py_repr bytes_decode_utf8
            json_loads self s)).
Proof.
  unfold delete_result. cbv zeta.
  repeat case_match; cbn [snd];
    first [apply error_cors
          | right; apply has_cors_after_error
          | right; apply has_cors_after_json].
Qed.

Lemma list_cors self s :
  silent_or_cors s (snd (list_result SERVE_DIR py_repr self s)).
Proof.
  unfold list_result.
  case_match; cbn [snd];
    first [apply error_cors | right; apply has_cors_after_json].
Qed.

Lemma check_cors self s :
  silent_or_cors s (snd (check_result SERVE_DIR urlparse parse_qs self s)).
Proof.
  unfold check_result.
  destruct (first_filename _) as [[[|c f]|]|e]; simpl.
  - right. apply has_cors_after_error.
  - right. apply has_cors_after_json.
  - right. apply has_cors_after_error.
  - left. reflexivity.
Qed.

Lemma super_do_GET_cors self s :
  http09 s = false ->
  silent_or_cors s (snd (super_do_GET send_head self s)).
Proof.
  intros H. right. unfold super_do_GET.
  rewrite bind_run, super_send_head_run by exact H.
  destruct (send_head self (fs s) (log s)) as [code msg|code hs [bytes|]].
  - apply has_cors_after_error.
  - unfold wfile_write, modify_wire. cbn [snd wire header_lines].
    apply has_cors_after_head.
  - apply has_cors_after_head.
Qed.

Lemma do_HEAD_cors self s :
  http09 s = false ->
  silent_or_cors s (snd (do_HEAD send_head self s)).
Proof.
  intros H. right. unfold do_HEAD.
  rewrite bind_run, super_send_head_run by exact H.
  destruct (send_head self (fs s) (log s)) as [code msg|code hs file].
  - apply has_cors_after_error.
  - apply has_cors_after_head.
Qed.

Lemma handle_cors self s :
  http09 s = false ->
  silent_or_cors s
    (snd (handle SERVE_DIR can_allocate py_repr bytes_decode_utf8 json_loads
            urlparse parse_qs send_head self s)).
Proof.
  intros H. unfold handle. cbv zeta.
  destruct (String.eqb (command self) "GET").
  { unfold do_GET. cbv zeta.
    destruct (String.eqb _ "/list-prompts").
    { rewrite handle_list_prompts_run by exact H. apply list_cors. }
    destruct (String.eqb _ "/check-prompt-exists").
    { rewrite handle_check_prompt_exists_run by exact H. apply check_cors. }
    apply super_do_GET_cors, H. }
  destruct (String.eqb (command self) "POST").
  { unfold do_POST. cbv zeta.
    destruct (String.eqb _ "/save-prompt").
    { rewrite handle_save_prompt_run by exact H. apply save_cors. }
    destruct (String.eqb _ "/delete-prompt").
    { rewrite handle_delete_prompt_run by exact H. apply delete_cors. }
    rewrite send_error_run by exact H. apply error_cors. }
  destruct (String.eqb (command self) "OPTIONS").
  { rewrite do_OPTIONS_run by exact H. right. apply has_cors_after_head. }
  destruct (String.eqb (command self) "HEAD").
  { apply do_HEAD_cors, H. }
  rewrite send_error_run by exact H. apply error_cors.
Qed.

End Static.

(** ** Before the dispatch *)

Section Connection.

#[local] Open Scope list_scope.

Variable SERVE_DIR : string.
Variable can_allocate : Z -> bool.
Variable py_repr : string -> string.
Variable bytes_decode_utf8 : string -> result string.
Variable json_loads : string -> result json.
Variable urlparse : string -> url.
Variable parse_qs : string -> gmap string (list string).
Variable send_head : request -> world -> list (string * log_event) -> head_result.

Let handle' :=
  handle SERVE_DIR can_allocate py_repr bytes_decode_utf8 json_loads urlparse
    parse_qs send_head.

Lemma keeps_ret {A} (a : A) : keeps_head (ret a).
Proof. intros s H. repeat split. exact H. Qed.

Lemma keeps_lift {A} (r : result A) : keeps_head (lift r).
Proof. intros s H. repeat split. exact H. Qed.

Lemma keeps_bind {A B} (m : M A) (k : A -> M B) :
  keeps_head m -> (forall a, keeps_head (k a)) -> keeps_head (bind m k).
Proof.
  intros Hm Hk s H. unfold bind. destruct (Hm s H) as (H1 & H2 & H3).
  destruct (m s) as [[a|e] s1]; cbn [snd] in *.
  - destruct (Hk a s1 H1) as (H4 & H5 & H6).
    split; [exact H4|]. split; congruence.
  - repeat split; assumption.
Qed.

Lemma keeps_try {A} (m : M A) (h : exn -> M A) :
  keeps_head m -> (forall e, keeps_head (h e)) -> keeps_head (try_except m h).
Proof.
  intros Hm Hh s H. unfold try_except. destruct (Hm s H) as (H1 & H2 & H3).
  destruct (m s) as [[a|e] s1]; cbn [snd] in *.
  - repeat split; assumption.
  - destruct (Hh e s1 H1) as (H4 & H5 & H6).
    split; [exact H4|]. split; congruence.
Qed.

Lemma keeps_log_message self ev : keeps_head (log_message self ev).
Proof. intros s H. repeat split. exact H. Qed.

Lemma keeps_write_head f : keeps_head (write_head f).
Proof. intros s H. unfold write_head. rewrite H. repeat split. exact H. Qed.

Lemma keeps_send_response_only self code msg :
  keeps_head (send_response_only self code msg).
Proof.
  intros s H. unfold send_response_only. rewrite H. repeat split. exact H.
Qed.

Lemma keeps_wfile_write self c : keeps_head (wfile_write self c).
Proof. intros s H. repeat split. exact H. Qed.

Lemma keeps_get_fs : keeps_head get_fs.
Proof. intros s H. repeat split. exact H. Qed.

Lemma keeps_put_fs w : keeps_head (put_fs w).
Proof. intros s H. repeat split. exact H. Qed.

Lemma keeps_set_http09 : keeps_head (set_http09 true).
Proof. intros s H. repeat split. Qed.

(** Splits a method into the calls it is made of. *)
Ltac keeps_step :=
  first
    [ apply keeps_bind; [|intros ?]
    | apply keeps_try; [|intros ?]
    | apply keeps_ret | apply keeps_lift | apply keeps_log_message
    | apply keeps_write_head | apply keeps_send_response_only
    | apply keeps_wfile_write | apply keeps_get_fs | apply keeps_put_fs
    | apply keeps_set_http09
    | match goal with
      | |- keeps_head (if ?b then _ else _) => destruct b
      | |- keeps_head (match ?x with _ => _ end) => destruct x
      end ].

Lemma keeps_send_header self k v : keeps_head (send_header self k v).
Proof. apply keeps_write_head. Qed.

Lemma keeps_send_response self code msg :
  keeps_head (send_response self code msg).
Proof. unfold send_response, send_header. repeat keeps_step. Qed.

Lemma keeps_end_headers self : keeps_head (end_headers self).
Proof.
  unfold end_headers, send_header, super_end_headers. repeat keeps_step.
Qed.

Lemma keeps_send_error self code msg : keeps_head (send_error self code msg).
Proof.
  unfold send_error.
  repeat first [apply keeps_send_response | apply keeps_end_headers
               | apply keeps_send_header | keeps_step].
Qed.

Ltac keeps :=
  repeat first [apply keeps_send_response | apply keeps_end_headers
               | apply keeps_send_header | apply keeps_send_error
               | keeps_step].

Lemma keeps_send_headers self hs :
  keeps_head
    (fold_right (fun h k => send_header self (fst h) (snd h) ;; k) (ret tt) hs).
Proof.
  induction hs as [|h hs IH]; cbn [fold_right]; [apply keeps_ret|].
  apply keeps_bind; [apply keeps_send_header | intros _; exact IH].
Qed.

Lemma keeps_super_send_head self :
  keeps_head (super_send_head send_head self).
Proof.
  intros s H. unfold super_send_head.
  destruct (send_head self (fs s) (log s)) as [code msg|code hs file].
  - assert (K : keeps_head
                  (send_error self code (Text msg) ;; ret (@None string)))
      by keeps.
    exact (K s H).
  - assert (K : keeps_head
                  (send_response self code Default ;;
                   fold_right
                     (fun h k => send_header self (fst h) (snd h) ;; k)
                     (ret tt) hs ;;
                   end_headers self ;;
                   ret file)).
    { apply keeps_bind; [apply keeps_send_response | intros _].
      apply keeps_bind; [apply keeps_send_headers | intros _].
      keeps. }
    exact (K s H).
Qed.

(** Every method of the handler, run for an HTTP/0.9 request, writes no
    status line and no header. *)
Lemma keeps_handle self : keeps_head (handle' self).
Proof.
  unfold handle', handle, do_GET, do_POST, do_OPTIONS, do_HEAD, super_do_GET,
    handle_list_prompts, handle_check_prompt_exists, handle_save_prompt,
    handle_delete_prompt, read_json_body.
  cbv zeta.
  repeat first [apply keeps_super_send_head | progress keeps].
Qed.

Lemma keeps_parse_headers c command target :
  keeps_head (parse_headers c command target).
Proof. unfold parse_headers. cbv zeta. keeps. Qed.

Lemma keeps_dispatch (parsed : option request) :
  keeps_head match parsed with
             | None => ret tt
             | Some self => handle' self
             end.
Proof. destruct parsed; [apply keeps_handle | apply keeps_ret]. Qed.

(** The state in which [parse_request] starts. *)
Lemma set_http09_fresh b w l :
  set_http09 b (fresh w l)
  = (Ok tt, {| fs := w; log := l; http09 := b; wire := no_response |}).
Proof. reflexivity. Qed.

(** What [parse_request] leaves: a request and nothing written, when the
    line named a version other than ["HTTP/0.9"] and the headers parsed;
    or the version is still ["HTTP/0.9"] and neither a status line nor a
    header was written; or the request was refused with an error that
    carries the three headers. *)
Lemma parse_request_cases c w l :
  (exists self, parse_request c (fresh w l) = (Ok (Some self), fresh w l))
  \/ (http09 (snd (parse_request c (fresh w l))) = true
      /\ status_line (wire (snd (parse_request c (fresh w l)))) = None)
  \/ (fst (parse_request c (fresh w l)) = Ok None
      /\ has_cors (wire (snd (parse_request c (fresh w l))))).
Proof.
  set (s1 := {| fs := w; log := l; http09 := true; wire := no_response |}).
  assert (Hbare : forall m : M (option request),
             keeps_head m ->
             http09 (snd (m s1)) = true
             /\ status_line (wire (snd (m s1))) = None).
  { intros m K. destruct (K s1 eq_refl) as (H1 & H2 & _).
    split; [exact H1 | exact H2]. }
  unfold parse_request. cbv zeta.
  rewrite bind_run, set_http09_fresh. fold s1.
  destruct (py_split (rstrip_crlf (raw_requestline c)))
    as [|a [|b [|v more]]].
  - right. left. apply Hbare. keeps.
  - right. left. apply Hbare. keeps.
  - right. left. apply Hbare.
    destruct (String.eqb a "GET"); [apply keeps_parse_headers | keeps].
  - destruct (check_version _) as [|bvn|].
    + right. left. apply Hbare. keeps.
    + right. left. apply Hbare. keeps.
    + destruct (String.eqb _ "HTTP/0.9").
      * right. left. apply Hbare.
        apply keeps_bind; [apply keeps_set_http09 | intros _].
        destruct more; [apply keeps_parse_headers | keeps].
      * rewrite bind_run. unfold s1, set_http09. cbn [fs log wire].
        fold (fresh w l).
        destruct more as [|x more].
        -- unfold parse_headers. cbv zeta.
           destruct (header_part c) as [hs| |].
           ++ left. eexists. reflexivity.
           ++ right. right. rewrite bind_run, send_error_run by reflexivity.
              split; [reflexivity | apply has_cors_after_error].
           ++ right. right. rewrite bind_run, send_error_run by reflexivity.
              split; [reflexivity | apply has_cors_after_error].
        -- right. right. rewrite bind_run, send_error_run by reflexivity.
           split; [reflexivity | apply has_cors_after_error].
Qed.

(** Whatever the client sends, a response with a status line carries the
    three headers. *)
Lemma handle_one_request_cors c w l :
  status_line
    (wire (snd (handle_one_request SERVE_DIR can_allocate py_repr
                  bytes_decode_utf8 json_loads urlparse parse_qs send_head
                  c (fresh w l)))) = None
  \/ has_cors
       (wire (snd (handle_one_request SERVE_DIR can_allocate py_repr
                     bytes_decode_utf8 json_loads urlparse parse_qs send_head
                     c (fresh w l)))).
Proof.
  unfold handle_one_request. fold handle'.
  destruct (65536 <? _)%Z.
  - right. rewrite bind_run, set_http09_fresh. fold (fresh w l).
    rewrite send_error_run by reflexivity. apply has_cors_after_error.
  - destruct (String.eqb _ ""); [left; reflexivity|].
    rewrite bind_run.
    destruct (parse_request_cases c w l)
      as [(self & ->) | [(H1 & H2) | (H1 & H2)]].
    + destruct (handle_cors SERVE_DIR can_allocate py_repr bytes_decode_utf8
                  json_loads urlparse parse_qs send_head self (fresh w l)
                  eq_refl) as [E | E].
      * left. unfold handle'. rewrite E. reflexivity.
      * right. exact E.
    + left.
      destruct (parse_request c (fresh w l)) as [[parsed|e] s']; cbn [snd] in *.
      * destruct (keeps_dispatch parsed s' H1) as (_ & E & _).
        rewrite E. exact H2.
      * exact H2.
    + right.
      destruct (parse_request c (fresh w l)) as [[parsed|e] s'];
        cbn [fst snd] in *; [|discriminate H1].
      injection H1 as ->. exact H2.
Qed.

Lemma py_split_empty_line : py_split (rstrip_crlf "") = [].
Proof. reflexivity. Qed.

(** A request line of three words whose version is accepted and is not
    ["HTTP/0.9"], followed by headers that parse, is dispatched as the
    request [parsed_request] on a connection on which nothing was written. *)
Lemma serve_connection_parsed c w l command target version hs :
  (Z.of_nat (String.length (raw_requestline c)) <= 65536)%Z ->
  py_split (rstrip_crlf (raw_requestline c)) = [command; target; version] ->
  check_version version = Version ->
  version <> "HTTP/0.9"%string ->
  header_part c = Headers hs ->
  serve_connection SERVE_DIR can_allocate py_repr bytes_decode_utf8 json_loads
    urlparse parse_qs send_head c w l
  = serve SERVE_DIR can_allocate py_repr bytes_decode_utf8 json_loads urlparse
      parse_qs send_head (parsed_request c command target hs) w l.
Proof.
  intros Hlen Hw Hv Hne Hh. unfold serve_connection, handle_one_request, serve.
  replace (65536 <? Z.of_nat (String.length (raw_requestline c)))%Z
    with false by (symmetry; apply Z.ltb_ge; exact Hlen).
  destruct (String.eqb (raw_requestline c) "") eqn:He.
  { apply String.eqb_eq in He. rewrite He, py_split_empty_line in Hw.
    discriminate Hw. }
  assert (E : parse_request c (fresh w l)
              = (Ok (Some (parsed_request c command target hs)), fresh w l)).
  { unfold parse_request. cbv zeta. rewrite Hw. cbn [List.last].
    rewrite Hv.
    replace (String.eqb version "HTTP/0.9") with false
      by (symmetry; apply String.eqb_neq; exact Hne).
    unfold parse_headers. cbv zeta. rewrite Hh. reflexivity. }
  rewrite bind_run, E. reflexivity.
Qed.

End Connection.

(** ** Saving a prompt *)

Section Save.

#[local] Open Scope list_scope.

Variable SERVE_DIR : string.
Variable can_allocate : Z -> bool.
Variable py_repr : string -> string.
Variable bytes_decode_utf8 : string -> result string.
Variable json_loads : string -> result json.

Let P := PROMPTS_DIR SERVE_DIR.

Lemma json_suffix_entry_name s :
  Py.endswith s ".json" = true -> has_slash s = false -> is_entry_name s = true.
Proof.
  intros He Hs. unfold Py.endswith in He.
  apply andb_true_iff in He as [Hl _]. apply Nat.leb_le in Hl.
  unfold is_entry_name. rewrite Hs.
  destruct s as [|a [|b [|c s]]]; simpl in Hl; try lia.
  cbn [String.eqb].
  destruct (Ascii.eqb a "."), (Ascii.eqb b "."); reflexivity.
Qed.

Lemma safe_filename_entry_name f :
  Py.endswith (safe_filename_of f) ".json" = true ->
  is_entry_name (safe_filename_of f) = true.
Proof.
  intros H. apply json_suffix_entry_name; [exact H|]. apply re_sub_has_slash.
Qed.

(** Inversion of [open_w_prompt]. *)
Lemma open_w_prompt_inv w n c w' :
  is_entry_name n = true ->
  Fs.open_w w (Py.os_path_join P n) c = Ok w' ->
  exists pd m,
    prompts_dir_is SERVE_DIR w pd m /\ not_dir (m !! n)
    /\ w' = with_entry w pd n (Some (File c)).
Proof.
  intros Hn H. unfold Fs.open_w in H.
  pose proof (entry_name_no_slash n Hn) as Hs.
  unfold P in *. rewrite (join_prompts SERVE_DIR n Hs) in H.
  destruct (String.eqb_spec (PROMPTS_DIR SERVE_DIR ++ "/" ++ n) "") as [E|_];
    [discriminate H|].
  rewrite split_slash_app, (split_slash_no_slash n Hs) in H.
  rewrite removelast_last, last_last in H.
  rewrite start_of_app in H by apply prompts_dir_nonempty.
  destruct (Fs.walk _ _ _) as [pd|e] eqn:Hw; [|discriminate H].
  destruct (Fs.node_at (root w) pd) as [[f|m]|] eqn:Hd; try discriminate H.
  exists pd, m. split; [split|].
  - rewrite resolve_nonempty by apply prompts_dir_nonempty. exact Hw.
  - exact Hd.
  - destruct (_ || _); [discriminate H|].
    destruct (Fs.NAME_MAX <? String.length n)%nat; [discriminate H|].
    destruct (m !! n) as [[f|d]|]; simpl; try discriminate H;
      (split; [exact I | injection H as <-; reflexivity]).
Qed.

(** A name that [open] accepted fits a directory entry. *)
Lemma open_w_name_fits w n c w' :
  is_entry_name n = true ->
  Fs.open_w w (Py.os_path_join P n) c = Ok w' ->
  (String.length n <= Fs.NAME_MAX)%nat.
Proof.
  intros Hn H. unfold Fs.open_w in H.
  pose proof (entry_name_no_slash n Hn) as Hs.
  unfold P in *. rewrite (join_prompts SERVE_DIR n Hs) in H.
  destruct (String.eqb_spec (PROMPTS_DIR SERVE_DIR ++ "/" ++ n) "") as [E|_];
    [discriminate H|].
  rewrite split_slash_app, (split_slash_no_slash n Hs) in H.
  rewrite removelast_last, last_last in H.
  destruct (Fs.walk _ _ _) as [pd|e]; [|discriminate H].
  destruct (Fs.node_at (root w) pd) as [[f|m]|]; try discriminate H.
  destruct (_ || _); [discriminate H|].
  destruct (Fs.NAME_MAX <? String.length n)%nat eqn:E; [discriminate H|].
  apply Nat.ltb_ge in E. exact E.
Qed.

(** The wrappers of the system calls succeed when the calls do. *)
Lemma os_error_ok {A} p (r : res errno A) (a : A) :
  os_error py_repr p r = Ok a <-> r = Ok a.
Proof.
  unfold os_error. destruct r; split; intros H; try discriminate H;
    injection H as ->; reflexivity.
Qed.

(** A request that passes every check of [handle_save_prompt]. *)
Lemma save_ok self w l data f content pd m :
  command self = "POST" -> path self = "/save-prompt" ->
  body_of can_allocate bytes_decode_utf8 json_loads self = Ok data ->
  py_get data "filename" = Ok (JString f) ->
  py_get data "content" = Ok content ->
  truthy content = true ->
  Py.endswith (safe_filename_of f) ".json" = true ->
  prompts_dir_is SERVE_DIR w pd m ->
  not_dir (m !! safe_filename_of f) ->
  (String.length (safe_filename_of f) <= Fs.NAME_MAX)%nat ->
  save_result SERVE_DIR can_allocate py_repr bytes_decode_utf8 json_loads self (fresh w l)
  = (Ok tt,
     after_json self saved_json
       (with_fs (with_entry w pd (safe_filename_of f)
                   (Some (File (JsonIndent4 content))))
          (fresh w l))).
Proof.
  intros _ _ Hb Hf Hc Ht He Hp Hm Hlen.
  unfold save_result. cbv zeta. rewrite Hb, Hf, Hc, Ht.
  assert (Hne : truthy (JString f) = true).
  { cbn [truthy]. destruct f; [discriminate He | reflexivity]. }
  rewrite Hne. cbn [negb orb py_basename].
  change (Py.re_sub_not_in_class (Py.os_path_basename f))
    with (safe_filename_of f).
  rewrite He. cbn [negb fs fresh]. unfold open_w.
  rewrite (open_w_prompt SERVE_DIR w pd m _ _ Hp (safe_filename_entry_name f He) Hm).
  apply Nat.ltb_ge in Hlen. rewrite Hlen. reflexivity.
Qed.

(** What a 200 from [handle_save_prompt] tells. *)
Lemma save_success_inv self s :
  status_line (wire s) = None ->
  status_line
    (wire (snd (save_result SERVE_DIR can_allocate py_repr bytes_decode_utf8
                  json_loads self s)))
  = Some (200, Default) ->
  exists data f content w',
    body_of can_allocate bytes_decode_utf8 json_loads self = Ok data
    /\ py_get data "filename" = Ok (JString f)
    /\ py_get data "content" = Ok content
    /\ Py.endswith (safe_filename_of f) ".json" = true
    /\ Fs.open_w (fs s) (filepath_of SERVE_DIR f) (JsonIndent4 content) = Ok w'
    /\ save_result SERVE_DIR can_allocate py_repr bytes_decode_utf8 json_loads self s
       = (Ok tt, after_json self saved_json (with_fs w' s)).
Proof.
  intros Hs.
  assert (Herr : forall code msg,
             status_line (wire (snd (error_result self code msg s)))
             = Some (200, Default) -> code = 200).
  { intros code msg.
    destruct (error_result_cases self code msg s) as [-> | [_ ->]]; cbn [snd].
    - simpl. intros E. injection E as E. exact E.
    - simpl. rewrite Hs. discriminate. }
  unfold save_result. cbv zeta.
  destruct (body_of _ _ _ self) as [data|e];
    [|intros E; apply Herr in E; discriminate E].
  destruct (py_get data "filename") as [filename|e] eqn:Hf;
    [|intros E; apply Herr in E; discriminate E].
  destruct (py_get data "content") as [content|e] eqn:Hc;
    [|intros E; apply Herr in E; discriminate E].
  destruct (negb (truthy filename) || negb (truthy content)); [discriminate|].
  destruct filename as [| | | |f| |]; cbn [py_basename];
    try (intros E; apply Herr in E; discriminate E).
  change (Py.re_sub_not_in_class (Py.os_path_basename f))
    with (safe_filename_of f).
  destruct (Py.endswith (safe_filename_of f) ".json") eqn:He;
    cbn [negb]; [|discriminate].
  change (Py.os_path_join (PROMPTS_DIR SERVE_DIR) (safe_filename_of f))
    with (filepath_of SERVE_DIR f).
  destruct (open_w _ _ _ _) as [w'|e] eqn:Ho;
    [|intros E; apply Herr in E; discriminate E].
  apply os_error_ok in Ho.
  intros _. exists data, f, content, w'. repeat split; auto.
Qed.

End Save.

(** ** The properties of the prompt store *)

Section SaveClaims.

#[local] Open Scope list_scope.

Variable SERVE_DIR : string.
Variable can_allocate : Z -> bool.
Variable py_repr : string -> string.
Variable bytes_decode_utf8 : string -> result string.
Variable json_loads : string -> result json.
Variable urlparse : string -> url.
Variable parse_qs : string -> gmap string (list string).
Variable send_head : request -> world -> list (string * log_event) -> head_result.

Let serve' :=
  serve SERVE_DIR can_allocate py_repr bytes_decode_utf8 json_loads urlparse parse_qs send_head.
Let body_of' := body_of can_allocate bytes_decode_utf8 json_loads.

(** Claim C8.  The sanitizer of save-prompt and delete-prompt is idempotent:
    sanitizing a sanitized name gives the same name. *)
Theorem safe_filename_idempotent (s : string) :
  safe_filename_of (safe_filename_of s) = safe_filename_of s.
Proof.
  unfold safe_filename_of.
  rewrite (basename_no_slash (Py.re_sub_not_in_class (Py.os_path_basename s)))
    by apply re_sub_has_slash.
  apply re_sub_idem.
Qed.

(** Claim C5.  A save whose raw filename is ["a b!@#.json"] stores the
    content under exactly the name ["ab.json"] of the prompts directory:
    the sanitizer maps the raw name to ["ab.json"], the request succeeds,
    and the directory afterwards is the old one with the entry ["ab.json"]
    set to the dumped content. *)
Theorem save_stores_under_ab_json self w l data content pd m :
  command self = "POST" -> path self = "/save-prompt" ->
  body_of' self = Ok data ->
  py_get data "filename" = Ok (JString "a b!@#.json") ->
  py_get data "content" = Ok content ->
  truthy content = true ->
  prompts_dir_is SERVE_DIR w pd m ->
  not_dir (m !! "ab.json") ->
  safe_filename_of "a b!@#.json" = "ab.json"
  /\ serve' self w l
     = (Ok tt,
        after_json self saved_json
          (with_fs (with_entry w pd "ab.json" (Some (File (JsonIndent4 content))))
             (fresh w l)))
  /\ prompts_dir_is SERVE_DIR
       (with_entry w pd "ab.json" (Some (File (JsonIndent4 content))))
       pd (<["ab.json" := File (JsonIndent4 content)]> m).
Proof.
  intros Hc Hp Hb Hf Hct Ht Hd Hm.
  split; [reflexivity|]. split.
  - unfold serve'. rewrite (serve_save _ _ _ _ _ _ _ _ self w l Hc Hp).
    rewrite (save_ok SERVE_DIR can_allocate py_repr bytes_decode_utf8 json_loads self w l data
               "a b!@#.json" content pd m Hc Hp Hb Hf Hct Ht eq_refl Hd Hm).
    + reflexivity.
    + apply Nat.leb_le. reflexivity.
  - apply (prompts_dir_after_set SERVE_DIR w pd m "ab.json"
             (Some (File (JsonIndent4 content))) Hd Hm I).
Qed.


End SaveClaims.

Lemma save_stores_under_ab_json_witness :
  safe_filename_of "a b!@#.json" = "ab.json"
  /\ Sample.run (Sample.post "/save-prompt" (Sample.body_save "a b!@#.json"))
       Sample.tree []
     = (Ok tt,
        after_json
          (Sample.post "/save-prompt" (Sample.body_save "a b!@#.json"))
          saved_json
          (with_fs
             (with_entry Sample.tree Sample.prompts_at "ab.json"
                (Some (File (JsonIndent4 Sample.content))))
             (fresh Sample.tree [])))
  /\ prompts_dir_is Sample.SERVE_DIR
       (with_entry Sample.tree Sample.prompts_at "ab.json"
          (Some (File (JsonIndent4 Sample.content))))
       Sample.prompts_at
       (<["ab.json" := File (JsonIndent4 Sample.content)]> Sample.prompts).
Proof.
  unfold Sample.run.
  apply (save_stores_under_ab_json Sample.SERVE_DIR Sample.can_allocate Sample.py_repr Sample.bytes_decode_utf8
           Sample.json_loads Sample.urlparse Sample.parse_qs Sample.send_head
           (Sample.post "/save-prompt" (Sample.body_save "a b!@#.json"))
           Sample.tree []
           (JObject [("filename", JString "a b!@#.json");
                     ("content", Sample.content)])
           Sample.content Sample.prompts_at Sample.prompts).
  - reflexivity.
  - reflexivity.
  - vm_compute. reflexivity.
  - reflexivity.
  - reflexivity.
  - reflexivity.
  - split; vm_compute; reflexivity.
  - vm_compute. exact I.
Defined.



(** ** Listing and deleting prompts *)

Lemma prompt_names_spec (m : gmap string node) (n : string) :
  In n (prompt_names m) <-> is_Some (m !! n) /\ Py.endswith n ".json" = true.
Proof.
  unfold prompt_names. rewrite filter_In.
  rewrite <- list_elem_of_In, list_elem_of_fmap.
  split.
  - intros [([k v] & -> & Hkv) He]. split; [|exact He].
    apply elem_of_map_to_list in Hkv. simpl. eauto.
  - intros [[v Hv] He]. split; [|exact He].
    exists (n, v). split; [reflexivity|]. apply elem_of_map_to_list, Hv.
Qed.

Lemma prompt_names_NoDup (m : gmap string node) : List.NoDup (prompt_names m).
Proof.
  unfold prompt_names. apply List.NoDup_filter.
  apply NoDup_ListNoDup, NoDup_fst_map_to_list.
Qed.

Section ListDeleteClaims.

#[local] Open Scope list_scope.

Variable SERVE_DIR : string.
Variable can_allocate : Z -> bool.
Variable py_repr : string -> string.
Variable bytes_decode_utf8 : string -> result string.
Variable json_loads : string -> result json.
Variable urlparse : string -> url.
Variable parse_qs : string -> gmap string (list string).
Variable send_head : request -> world -> list (string * log_event) -> head_result.

Let serve' :=
  serve SERVE_DIR can_allocate py_repr bytes_decode_utf8 json_loads urlparse parse_qs send_head.
Let body_of' := body_of can_allocate bytes_decode_utf8 json_loads.

Lemma list_result_prompts self w l pd m :
  prompts_dir_is SERVE_DIR w pd m ->
  list_result SERVE_DIR py_repr self (fresh w l)
  = (Ok tt,
     after_json self (JArray (List.map JString (prompt_names m))) (fresh w l)).
Proof.
  intros Hd. unfold list_result, os_listdir. cbn [fs fresh].
  rewrite (listdir_prompts SERVE_DIR w pd m Hd). reflexivity.
Qed.

(** [handle_delete_prompt] on a name that can be an entry, by what the
    prompts directory holds under the sanitized name. *)
Lemma delete_result_entry self w l data f pd m :
  body_of' self = Ok data ->
  py_get data "filename" = Ok (JString f) ->
  f <> "" ->
  prompts_dir_is SERVE_DIR w pd m ->
  is_entry_name (safe_filename_of f) = true ->
  delete_result SERVE_DIR can_allocate py_repr bytes_decode_utf8 json_loads self (fresh w l)
  = match m !! safe_filename_of f with
    | Some (File _) =>
        (Ok tt,
         after_json self deleted_json
           (with_fs (with_entry w pd (safe_filename_of f) None) (fresh w l)))
    | Some (Dir _) =>
        error_result self 500
          (TextExn "Error deleting prompt: "
             (OSError EISDIR (py_repr (filepath_of SERVE_DIR f))))
          (fresh w l)
    | None => (Ok tt, after_error self 404 (Text "File not found") (fresh w l))
    end.
Proof.
  intros Hb Hf Hne Hd Hn. unfold delete_result. cbv zeta.
  fold body_of'. rewrite Hb, Hf.
  assert (Ht : truthy (JString f) = true).
  { cbn [truthy]. destruct f; [congruence | reflexivity]. }
  rewrite Ht. cbn [negb py_basename].
  change (Py.re_sub_not_in_class (Py.os_path_basename f))
    with (safe_filename_of f).
  cbn [fs fresh].
  rewrite (exists_prompt SERVE_DIR w pd m _ Hd Hn).
  destruct (m !! safe_filename_of f) as [[c|d]|] eqn:Hm.
  - unfold os_remove.
    rewrite (remove_prompt SERVE_DIR w pd m _ c Hd Hn Hm). reflexivity.
  - unfold os_remove, Fs.os_remove.
    rewrite resolve_join_prompts by (apply entry_name_no_slash, Hn).
    destruct Hd as [Hr Hdir]. rewrite Hr.
    rewrite (step_entry_name _ _ _ _ Hdir Hn), Hm.
    rewrite node_at_app, Hdir, Hm. reflexivity.
  - reflexivity.
Qed.

(** Claim C6.  [GET /list-prompts] answers with exactly the names of the
    entries of the prompts directory that end in [".json"], each once, in
    the order the directory enumerates them; and after a save that
    answered 200, the list contains the sanitized filename of that save. *)
Theorem saved_prompt_is_listed self_list :
  command self_list = "GET" ->
  url_path (urlparse (path self_list)) = "/list-prompts" ->
  (forall w l pd m,
      prompts_dir_is SERVE_DIR w pd m ->
      serve' self_list w l
      = (Ok tt,
         after_json self_list (JArray (List.map JString (prompt_names m)))
           (fresh w l))
      /\ List.NoDup (prompt_names m)
      /\ forall n, In n (prompt_names m)
                   <-> is_Some (m !! n) /\ Py.endswith n ".json" = true)
  /\ (forall self w l,
        command self = "POST" -> path self = "/save-prompt" ->
        status_line (wire (snd (serve' self w l))) = Some (200, Default) ->
        exists data f names,
          body_of' self = Ok data
          /\ py_get data "filename" = Ok (JString f)
          /\ serve' self_list (fs (snd (serve' self w l)))
               (log (snd (serve' self w l)))
             = (Ok tt,
                after_json self_list (JArray (List.map JString names))
                  (fresh (fs (snd (serve' self w l)))
                     (log (snd (serve' self w l)))))
          /\ In (safe_filename_of f) names).
Proof.
  intros Hc Hp. split.
  - intros w l pd m Hd. split; [|split].
    + unfold serve'. rewrite (serve_list _ _ _ _ _ _ _ _ self_list w l Hc Hp).
      rewrite (list_result_prompts self_list w l pd m Hd). reflexivity.
    + apply prompt_names_NoDup.
    + apply prompt_names_spec.
  - intros self w l Hcs Hps. unfold serve'.
    rewrite (serve_save _ _ _ _ _ _ _ _ self w l Hcs Hps).
    intros H200.
    destruct (save_success_inv SERVE_DIR can_allocate py_repr bytes_decode_utf8 json_loads self
                (fresh w l) eq_refl H200)
      as (data & f & content & w' & Hb & Hf & Hct & He & Ho & ->).
    cbn [fs fresh] in Ho. cbn [snd].
    destruct (open_w_prompt_inv SERVE_DIR w (safe_filename_of f) _ w'
                (safe_filename_entry_name f He) Ho)
      as (pd & m & Hd & Hm & ->).
    pose proof (prompts_dir_after_set SERVE_DIR w pd m (safe_filename_of f)
                  (Some (File (JsonIndent4 content))) Hd Hm I) as Hd'.
    fold (with_entry w pd (safe_filename_of f)
            (Some (File (JsonIndent4 content)))) in Hd'.
    exists data, f,
      (prompt_names
         (entries_set (Some (File (JsonIndent4 content))) (safe_filename_of f) m)).
    split; [exact Hb|]. split; [exact Hf|]. split.
    + cbn [fs log after_json with_fs].
      rewrite (serve_list _ _ _ _ _ _ _ _ self_list _ _ Hc Hp).
      rewrite (list_result_prompts self_list _ _ pd _ Hd'). reflexivity.
    + apply prompt_names_spec. split; [|exact He].
      simpl. rewrite lookup_insert_eq. eauto.
Qed.


End ListDeleteClaims.

Lemma saved_prompt_is_listed_witness :
  Sample.run (Sample.get "/list-prompts") Sample.tree []
  = (Ok tt,
     after_json (Sample.get "/list-prompts")
       (JArray (List.map JString (prompt_names Sample.prompts)))
       (fresh Sample.tree []))
  /\ exists names,
       Sample.run (Sample.get "/list-prompts")
         (fs (snd (Sample.run
                     (Sample.post "/save-prompt" (Sample.body_save "b.json"))
                     Sample.tree [])))
         (log (snd (Sample.run
                      (Sample.post "/save-prompt" (Sample.body_save "b.json"))
                      Sample.tree [])))
       = (Ok tt,
          after_json (Sample.get "/list-prompts")
            (JArray (List.map JString names))
            (fresh
               (fs (snd (Sample.run
                           (Sample.post "/save-prompt" (Sample.body_save "b.json"))
                           Sample.tree [])))
               (log (snd (Sample.run
                            (Sample.post "/save-prompt" (Sample.body_save "b.json"))
                            Sample.tree [])))))
       /\ In "b.json" names.
Proof.
  unfold Sample.run.
  destruct (saved_prompt_is_listed Sample.SERVE_DIR Sample.can_allocate Sample.py_repr Sample.bytes_decode_utf8
              Sample.json_loads Sample.urlparse Sample.parse_qs Sample.send_head
              (Sample.get "/list-prompts") eq_refl eq_refl) as [Hlist Hsave].
  split.
  - refine (proj1 (Hlist Sample.tree [] Sample.prompts_at Sample.prompts _)).
    split; vm_compute; reflexivity.
  - destruct (Hsave (Sample.post "/save-prompt" (Sample.body_save "b.json"))
                Sample.tree [] eq_refl eq_refl)
      as (data & f & names & Hb & Hf & Hrun & Hin).
    + vm_compute. reflexivity.
    + exists names. split; [exact Hrun|].
      vm_compute in Hb. injection Hb as <-.
      vm_compute in Hf. injection Hf as <-.
      exact Hin.
Defined.



(** ** Headers, unknown endpoints and undecodable bodies *)

Section ErrorClaims.

#[local] Open Scope list_scope.

Variable SERVE_DIR : string.
Variable can_allocate : Z -> bool.
Variable py_repr : string -> string.
Variable bytes_decode_utf8 : string -> result string.
Variable json_loads : string -> result json.
Variable urlparse : string -> url.
Variable parse_qs : string -> gmap string (list string).
Variable send_head : request -> world -> list (string * log_event) -> head_result.

Let serve' :=
  serve SERVE_DIR can_allocate py_repr bytes_decode_utf8 json_loads urlparse parse_qs send_head.
Let serve_connection' :=
  serve_connection SERVE_DIR can_allocate py_repr bytes_decode_utf8 json_loads
    urlparse parse_qs send_head.
Let body_of' := body_of can_allocate bytes_decode_utf8 json_loads.

(** Claim C7, amended.  Whatever the client sends, a response that begins
    with a status line carries the three headers
    [Access-Control-Allow-Origin: *],
    [Access-Control-Allow-Methods: GET, POST, OPTIONS] and
    [Access-Control-Allow-Headers: Content-Type, Authorization].  A request
    line of at most 65536 bytes and of exactly three words, whose version is
    accepted and is not ["HTTP/0.9"], followed by headers that parse, is
    handled as the request it spells; when its method is [OPTIONS] the
    answer is 204 with the three headers and an empty body.  The responses
    to other request lines and to HTTP/0.9 requests have no status line and
    no header, and an [OPTIONS] among them is not answered 204. *)
Theorem status_line_comes_with_cors_headers c w l :
  (status_line (wire (snd (serve_connection' c w l))) <> None ->
   has_cors (wire (snd (serve_connection' c w l))))
  /\ (forall method target version hs,
        (Z.of_nat (String.length (raw_requestline c)) <= 65536)%Z ->
        py_split (rstrip_crlf (raw_requestline c))
        = [method; target; version] ->
        check_version version = Version ->
        version <> "HTTP/0.9" ->
        header_part c = Headers hs ->
        let self := parsed_request c method target hs in
        serve_connection' c w l = serve' self w l
        /\ (method = "OPTIONS" ->
            serve_connection' c w l
            = (Ok tt, after_head self 204 [] (fresh w l))
            /\ status_line (wire (snd (serve_connection' c w l)))
               = Some (204, Default)
            /\ has_cors (wire (snd (serve_connection' c w l)))
            /\ body (wire (snd (serve_connection' c w l))) = [])).
Proof.
  split.
  - intros Hs. unfold serve_connection', serve_connection in *.
    destruct (handle_one_request_cors SERVE_DIR can_allocate py_repr
                bytes_decode_utf8 json_loads urlparse parse_qs send_head
                c w l) as [E|H]; [|exact H].
    exfalso. apply Hs. exact E.
  - intros method target version hs Hlen Hw Hv Hne Hh self.
    assert (E : serve_connection' c w l = serve' self w l).
    { apply (serve_connection_parsed SERVE_DIR can_allocate py_repr
               bytes_decode_utf8 json_loads urlparse parse_qs send_head
               c w l method target version hs Hlen Hw Hv Hne Hh). }
    split; [exact E|]. intros Hc. rewrite E.
    assert (H : serve' self w l = (Ok tt, after_head self 204 [] (fresh w l))).
    { unfold serve', serve, handle. cbv zeta.
      change (command self) with method. rewrite Hc.
      cbn [String.eqb Ascii.eqb Bool.eqb]. apply do_OPTIONS_run. reflexivity. }
    rewrite H. split; [reflexivity|]. split; [reflexivity|].
    split; [apply has_cors_after_head | reflexivity].
Qed.




End ErrorClaims.

Lemma status_line_comes_with_cors_headers_witness :
  has_cors
    (wire (snd (Sample.connect
                  (Sample.connection_with "GET /index.html HTTP/1.1")
                  Sample.tree [])))
  /\ Sample.connect (Sample.connection_with "OPTIONS /save-prompt HTTP/1.1")
       Sample.tree []
     = (Ok tt,
        after_head
          {| client_address := "127.0.0.1"; command := "OPTIONS";
             path := "/save-prompt";
             headers := [("Host", "daryl.local:8000")]; rfile := "" |}
          204 [] (fresh Sample.tree [])).
Proof.
  unfold Sample.connect. split.
  - refine (proj1
              (status_line_comes_with_cors_headers Sample.SERVE_DIR
                 Sample.can_allocate Sample.py_repr
                 Sample.bytes_decode_utf8 Sample.json_loads Sample.urlparse
                 Sample.parse_qs Sample.send_head
                 (Sample.connection_with "GET /index.html HTTP/1.1")
                 Sample.tree []) _).
    vm_compute. discriminate.
  - refine (proj1
              (proj2
                 (proj2
                    (status_line_comes_with_cors_headers Sample.SERVE_DIR
                       Sample.can_allocate Sample.py_repr
                       Sample.bytes_decode_utf8 Sample.json_loads
                       Sample.urlparse Sample.parse_qs Sample.send_head
                       (Sample.connection_with "OPTIONS /save-prompt HTTP/1.1")
                       Sample.tree [])
                    "OPTIONS" "/save-prompt" "HTTP/1.1"
                    [("Host", "daryl.local:8000")] _ _ _ _ _)
                 eq_refl)).
    + simpl. lia.
    + vm_compute. reflexivity.
    + vm_compute. reflexivity.
    + discriminate.
    + reflexivity.
Defined.

(** Claim C7 as stated fails for the responses written while
    [request_version] is still, or is again, ["HTTP/0.9"]: they have neither
    a status line nor a header.  A request line that names version 2.0 gets
    the page of the error 505 alone, an [OPTIONS] request line of two words
    the page of the error 400 alone, an HTTP/0.9 [GET] the page or the file
    alone, and an [OPTIONS] request that names ["HTTP/0.9"] gets nothing.
    None of the three [OPTIONS] requests is answered 204. *)
Lemma responses_without_status_line_carry_no_header :
  wire (snd (Sample.connect (Sample.connection_with "OPTIONS /x HTTP/2.0")
               Sample.tree []))
  = {| status_line := None; header_lines := []; headers_done := false;
       body := [ErrorPage 505 (TextOf "Invalid HTTP version (%s)" "2.0")] |}
  /\ wire (snd (Sample.connect (Sample.connection_with "OPTIONS /x")
                  Sample.tree []))
     = {| status_line := None; header_lines := []; headers_done := false;
          body := [ErrorPage 400
                     (TextOf "Bad HTTP/0.9 request type (%r)" "OPTIONS")] |}
  /\ wire (snd (Sample.connect (Sample.connection_with "GET /hello.txt")
                  Sample.tree []))
     = {| status_line := None; header_lines := []; headers_done := false;
          body := [ErrorPage 404 (Text "File not found")] |}
  /\ wire (snd (Sample.connect (Sample.connection_with "OPTIONS /x HTTP/0.9")
                  Sample.tree []))
     = no_response
  /\ ~ has_cors
        (wire (snd (Sample.connect
                      (Sample.connection_with "OPTIONS /x HTTP/2.0")
                      Sample.tree []))).
Proof.
  split; [vm_compute; reflexivity|].
  split; [vm_compute; reflexivity|].
  split; [vm_compute; reflexivity|].
  split; [vm_compute; reflexivity|].
  intros H.
  exact (H ("Access-Control-Allow-Origin", Lit "*") (or_introl eq_refl)).
Qed.





(** ** Where the paths of the handlers point *)

Section PathClaims.

#[local] Open Scope list_scope.

Variable SERVE_DIR : string.
Variable py_repr : string -> string.
Variable urlparse : string -> url.
Variable parse_qs : string -> gmap string (list string).

Lemma length_removelast_le {A} (l : list A) :
  (List.length (removelast l) <= List.length l)%nat.
Proof.
  induction l as [|a [|b l] IH]; simpl in *; lia.
Qed.


(** Claim C1 fails at the filename [".."], which the sanitizer leaves as it
    is: the path [handle_delete_prompt] builds resolves to the parent of the
    prompts directory, not to an entry of the prompts directory. *)
Theorem delete_target_of_dotdot_is_the_parent w pd m :
  prompts_dir_is SERVE_DIR w pd m ->
  safe_filename_of ".." = ".."
  /\ Fs.resolve w (filepath_of SERVE_DIR "..") = Ok (removelast pd)
  /\ forall name, removelast pd <> pd ++ [name].
Proof.
  intros [Hr Hd]. split; [reflexivity|]. split.
  - unfold filepath_of. change (safe_filename_of "..") with "..".
    rewrite resolve_join_prompts by reflexivity.
    rewrite Hr. unfold Fs.step. rewrite Hd. reflexivity.
  - intros name E. apply (f_equal (@List.length string)) in E.
    rewrite length_app in E. simpl in E.
    pose proof (length_removelast_le pd). lia.
Qed.

(** What [handle_check_prompt_exists] answers for a filename parameter. *)
Lemma check_exists_answer self w l filename rest :
  parse_qs (url_query (urlparse (path self))) !! "filename"
  = Some (filename :: rest) ->
  filename <> "" ->
  check_result SERVE_DIR urlparse parse_qs self (fresh w l)
  = (Ok tt,
     after_json self
       (JObject [("exists",
                  JBool (Fs.os_path_exists w
                           (Py.os_path_join (PROMPTS_DIR SERVE_DIR) filename)))])
       (fresh w l)).
Proof.
  intros Hq Hne. unfold check_result, first_filename. rewrite Hq.
  destruct filename; [congruence | reflexivity].
Qed.

(** For a filename that can be a directory entry, the answer tells whether
    the prompts directory has an entry of that name, file or directory. *)
Lemma check_exists_of_entry_name self w l filename rest pd m :
  parse_qs (url_query (urlparse (path self))) !! "filename"
  = Some (filename :: rest) ->
  is_entry_name filename = true ->
  prompts_dir_is SERVE_DIR w pd m ->
  check_result SERVE_DIR urlparse parse_qs self (fresh w l)
  = (Ok tt,
     after_json self
       (JObject [("exists",
                  JBool (match m !! filename with
                         | Some _ => true
                         | None => false
                         end))])
       (fresh w l)).
Proof.
  intros Hq Hn Hd.
  rewrite (check_exists_answer self w l filename rest Hq).
  - rewrite (exists_prompt SERVE_DIR w pd m filename Hd Hn). reflexivity.
  - intros ->. discriminate Hn.
Qed.

End PathClaims.

Lemma delete_target_of_dotdot_is_the_parent_witness :
  safe_filename_of ".." = ".."
  /\ Fs.resolve Sample.tree (filepath_of Sample.SERVE_DIR "..")
     = Ok (removelast Sample.prompts_at)
  /\ forall name,
       removelast Sample.prompts_at <> (Sample.prompts_at ++ [name])%list.
Proof.
  apply (delete_target_of_dotdot_is_the_parent Sample.SERVE_DIR Sample.tree
           Sample.prompts_at Sample.prompts).
  split; vm_compute; reflexivity.
Defined.

(** Claim C2 fails where the filename parameter is not a plain name: the
    handler joins it to the prompts directory unsanitized and reports what
    the joined path resolves to.  For [../../server.py] it answers
    [{"exists": true}] although the prompts directory has no entry of that
    name; and after a save under the raw name [./a.json], stored as
    [a.json], the check of the raw name answers [{"exists": true}] although
    the raw name differs from the stored one. *)
Theorem check_exists_reports_paths_outside_the_prompts_directory :
  prompts_dir_is Sample.SERVE_DIR Sample.tree Sample.prompts_at Sample.prompts
  /\ Sample.prompts !! "../../server.py" = None
  /\ Fs.resolve Sample.tree
       (Py.os_path_join (PROMPTS_DIR Sample.SERVE_DIR) "../../server.py")
     = Ok ["srv"; "daryl"; "server.py"]
  /\ Sample.run (Sample.get "/check-prompt-exists?filename=../../server.py")
       Sample.tree []
     = (Ok tt,
        after_json (Sample.get "/check-prompt-exists?filename=../../server.py")
          (JObject [("exists", JBool true)]) (fresh Sample.tree []))
  /\ safe_filename_of "./a.json" = "a.json"
  /\ status_line
       (wire (snd (Sample.run
                     (Sample.post "/save-prompt" (Sample.body_save "./a.json"))
                     Sample.tree [])))
     = Some (200, Default)
  /\ body
       (wire (snd (Sample.run
                     (Sample.get "/check-prompt-exists?filename=./a.json")
                     (fs (snd (Sample.run
                                 (Sample.post "/save-prompt"
                                    (Sample.body_save "./a.json"))
                                 Sample.tree [])))
                     [])))
     = [JsonText (JObject [("exists", JBool true)])].
Proof. repeat split; vm_compute; reflexivity. Qed.

(** ** More about the sanitizer *)

Section SanitizerFacts.

Lemma re_sub_all_in_class s : all_in_class (Py.re_sub_not_in_class s) = true.
Proof.
  induction s as [|c s IH]; simpl; [reflexivity|].
  destruct (Py.in_class c) eqn:Hc; simpl; [rewrite Hc|]; exact IH.
Qed.

Lemma all_in_class_no_slash s : all_in_class s = true -> has_slash s = false.
Proof.
  induction s as [|c s IH]; simpl; [reflexivity|]. intros H.
  apply andb_true_iff in H as [Hc Hs].
  rewrite (in_class_not_slash c Hc), (IH Hs). reflexivity.
Qed.

Lemma re_sub_fixed s : all_in_class s = true -> Py.re_sub_not_in_class s = s.
Proof.
  induction s as [|c s IH]; simpl; [reflexivity|]. intros H.
  apply andb_true_iff in H as [Hc Hs]. rewrite Hc, (IH Hs). reflexivity.
Qed.

(** The sanitized name is made of characters of the class only: no
    separator, no blank, no control character survives. *)
Theorem safe_filename_all_in_class (f : string) :
  all_in_class (safe_filename_of f) = true
  /\ has_slash (safe_filename_of f) = false.
Proof.
  split.
  - apply re_sub_all_in_class.
  - apply re_sub_has_slash.
Qed.

(** The names the sanitizer leaves alone are exactly those made of
    characters of the class: for them, and only for them, the stored name is
    the raw name. *)
Theorem safe_filename_fixed_points (f : string) :
  safe_filename_of f = f <-> all_in_class f = true.
Proof.
  split.
  - intros E. rewrite <- E. apply re_sub_all_in_class.
  - intros H. unfold safe_filename_of.
    rewrite (basename_no_slash f (all_in_class_no_slash f H)).
    apply re_sub_fixed, H.
Qed.

(** [rfind_from] in terms of whether a slash follows. *)
Lemma rfind_from_shift s : forall i last,
  has_slash s = true ->
  Py.rfind_from "/" s i last = (Py.rfind_from "/" s 0 (-1) + i)%Z.
Proof.
  induction s as [|c s IH]; intros i last H; simpl in H; [discriminate H|].
  cbn [Py.rfind_from].
  destruct (has_slash s) eqn:Hs.
  - rewrite (IH (i + 1)%Z _ eq_refl), (IH (0 + 1)%Z _ eq_refl). lia.
  - rewrite !(rfind_from_no_slash s _ _ Hs).
    rewrite orb_false_r in H. rewrite H. lia.
Qed.

Lemma rfind_from_nonneg s : forall i last,
  (0 <= i)%Z -> (-1 <= last)%Z -> (-1 <= Py.rfind_from "/" s i last)%Z.
Proof.
  induction s as [|c s IH]; intros i last Hi Hl; cbn [Py.rfind_from]; [exact Hl|].
  apply IH; [lia|]. destruct (Ascii.eqb c "/"); lia.
Qed.

Lemma rfind_has_slash_nonneg s :
  has_slash s = true -> (0 <= Py.rfind "/" s)%Z.
Proof.
  unfold Py.rfind. induction s as [|c s IH]; simpl; [discriminate|]. intros H.
  destruct (has_slash s) eqn:Hs.
  - rewrite (rfind_from_shift s 1%Z _ Hs). specialize (IH eq_refl). lia.
  - rewrite (rfind_from_no_slash s _ _ Hs).
    rewrite orb_false_r in H. rewrite H. lia.
Qed.

(** [os.path.basename] looks past the first character when a slash
    follows it. *)
Lemma basename_cons c s :
  Py.os_path_basename (String c s)
  = if has_slash s then Py.os_path_basename s
    else if Ascii.eqb c "/" then s else String c s.
Proof.
  unfold Py.os_path_basename, Py.rfind. cbn [Py.rfind_from].
  destruct (has_slash s) eqn:Hs.
  - rewrite (rfind_from_shift s (0 + 1)%Z _ Hs).
    pose proof (rfind_has_slash_nonneg s Hs) as Hn. unfold Py.rfind in Hn.
    replace (Z.to_nat (Py.rfind_from "/" s 0 (-1) + (0 + 1) + 1))
      with (S (Z.to_nat (Py.rfind_from "/" s 0 (-1) + 1))) by lia.
    reflexivity.
  - rewrite (rfind_from_no_slash s _ _ Hs).
    destruct (Ascii.eqb c "/"); reflexivity.
Qed.

Lemma has_slash_app_slash d f : has_slash (d ++ "/" ++ f) = true.
Proof.
  induction d as [|c d IH].
  - reflexivity.
  - change (has_slash (String c (d ++ "/" ++ f)) = true). simpl.
    rewrite IH. apply orb_true_r.
Qed.

Lemma basename_app_slash d f :
  Py.os_path_basename (d ++ "/" ++ f) = Py.os_path_basename f.
Proof.
  induction d as [|c d IH].
  - change (Py.os_path_basename (String "/" f) = Py.os_path_basename f).
    rewrite basename_cons. destruct (has_slash f) eqn:Hf; [reflexivity|].
    cbn [Ascii.eqb Bool.eqb]. symmetry. apply basename_no_slash, Hf.
  - change (Py.os_path_basename (String c (d ++ "/" ++ f))
            = Py.os_path_basename f).
    rewrite basename_cons, has_slash_app_slash. exact IH.
Qed.

(** Whatever directories a raw filename names are dropped: only what
    follows the last slash reaches the prompts directory, so raw names that
    differ in their directory part are stored under the same name. *)
Theorem safe_filename_drops_directories (d f : string) :
  safe_filename_of (d ++ "/" ++ f) = safe_filename_of f.
Proof.
  unfold safe_filename_of. rewrite basename_app_slash. reflexivity.
Qed.

End SanitizerFacts.

(** ** More about the tree and the two writers *)

Section WriterFacts.

#[local] Open Scope list_scope.

Variable SERVE_DIR : string.
Variable can_allocate : Z -> bool.
Variable py_repr : string -> string.
Variable bytes_decode_utf8 : string -> result string.
Variable json_loads : string -> result json.

Let P := PROMPTS_DIR SERVE_DIR.

Lemma prompts_dir_unique w pd m pd' m' :
  prompts_dir_is SERVE_DIR w pd m -> prompts_dir_is SERVE_DIR w pd' m' ->
  pd' = pd /\ m' = m.
Proof.
  intros [Hr Hd] [Hr' Hd']. rewrite Hr in Hr'. injection Hr' as <-.
  rewrite Hd in Hd'. injection Hd' as <-. split; reflexivity.
Qed.

(** The parent of a directory is a directory. *)
Lemma node_at_removelast r pd m :
  Fs.node_at r pd = Some (Dir m) ->
  exists m', Fs.node_at r (removelast pd) = Some (Dir m').
Proof.
  intros H. induction pd as [|x pd' _] using rev_ind.
  - simpl. eauto.
  - rewrite removelast_last. rewrite node_at_app in H.
    destruct (Fs.node_at r pd') as [[c|m']|]; try discriminate H. eauto.
Qed.


Lemma not_entry_name_cases n :
  has_slash n = false -> is_entry_name n = false ->
  n = "" \/ n = "." \/ n = "..".
Proof.
  intros Hs Hn. unfold is_entry_name in Hn. rewrite Hs in Hn.
  destruct (String.eqb_spec n "") as [->|_]; [left; reflexivity|].
  destruct (String.eqb_spec n ".") as [->|_]; [right; left; reflexivity|].
  destruct (String.eqb_spec n "..") as [->|_]; [right; right; reflexivity|].
  discriminate Hn.
Qed.

(** [os.remove] of a path of [handle_delete_prompt] succeeds only on a
    regular file that is an entry of the prompts directory. *)
Lemma remove_prompt_inv w f w' :
  Fs.os_remove w (filepath_of SERVE_DIR f) = Ok w' ->
  exists pd m c,
    prompts_dir_is SERVE_DIR w pd m
    /\ is_entry_name (safe_filename_of f) = true
    /\ m !! safe_filename_of f = Some (File c)
    /\ w' = with_entry w pd (safe_filename_of f) None.
Proof.
  unfold Fs.os_remove, filepath_of. intros H.
  pose proof (re_sub_has_slash (Py.os_path_basename f)) as Hs.
  fold (safe_filename_of f) in Hs.
  rewrite resolve_join_prompts in H by exact Hs.
  destruct (Fs.resolve w (PROMPTS_DIR SERVE_DIR)) as [pd|e] eqn:Hr;
    [|discriminate H].
  destruct (is_entry_name (safe_filename_of f)) eqn:Hn.
  - destruct (Fs.node_at (root w) pd) as [[c|m]|] eqn:Hd;
      try (unfold Fs.step in H; rewrite Hd in H; discriminate H).
    rewrite (step_entry_name _ _ _ _ Hd Hn) in H.
    destruct (m !! safe_filename_of f) as [x|] eqn:Hm; [|discriminate H].
    rewrite node_at_app, Hd, Hm in H.
    destruct x as [c|d]; [|discriminate H].
    injection H as <-. exists pd, m, c. repeat split; assumption.
  - exfalso. unfold Fs.step in H.
    destruct (Fs.node_at (root w) pd) as [[c|m]|] eqn:Hd; try discriminate H.
    destruct (not_entry_name_cases _ Hs Hn) as [E|[E|E]]; rewrite E in H;
      cbn [String.eqb Ascii.eqb Bool.eqb orb] in H.
    + rewrite Hd in H. discriminate H.
    + rewrite Hd in H. discriminate H.
    + destruct (node_at_removelast _ _ _ Hd) as [m' Hm'].
      rewrite Hm' in H. discriminate H.
Qed.

(** Settles a goal about a result by cases that is an [error_result]. *)
Ltac by_error_result :=
  match goal with
  | |- context [error_result ?self ?c ?msg ?s] =>
      destruct (error_result_cases self c msg s) as [-> | [? ->]];
      [left; solve [eauto 7] | right; left; solve [eauto 7]]
  end.

(** The answers of [handle_save_prompt]: an error page that leaves the
    tree alone, an error that could not be sent, or a file written. *)
Lemma save_result_cases self s :
  (exists code msg,
      (code = 400 \/ code = 500)
      /\ save_result SERVE_DIR can_allocate py_repr bytes_decode_utf8 json_loads self s
         = (Ok tt, after_error self code msg s))
  \/ (exists msg,
        Http.message_latin1 msg = false
        /\ save_result SERVE_DIR can_allocate py_repr bytes_decode_utf8 json_loads self s
           = (Raise UnicodeEncodeError, after_unsent self 500 msg s))
  \/ (exists data f content w',
        body_of can_allocate bytes_decode_utf8 json_loads self = Ok data
        /\ py_get data "filename" = Ok (JString f)
        /\ py_get data "content" = Ok content
        /\ truthy content = true
        /\ Py.endswith (safe_filename_of f) ".json" = true
        /\ Fs.open_w (fs s) (filepath_of SERVE_DIR f) (JsonIndent4 content)
           = Ok w'
        /\ save_result SERVE_DIR can_allocate py_repr bytes_decode_utf8 json_loads self s
           = (Ok tt, after_json self saved_json (with_fs w' s))).
Proof.
  unfold save_result. cbv zeta.
  destruct (body_of _ _ _ self) as [data|e]; [|by_error_result].
  destruct (py_get data "filename") as [filename|e] eqn:Hf; [|by_error_result].
  destruct (py_get data "content") as [content|e] eqn:Hc; [|by_error_result].
  destruct (truthy filename) eqn:Htf; cbn [negb orb]; [|left; eauto 6].
  destruct (truthy content) eqn:Htc; cbn [negb orb]; [|left; eauto 6].
  destruct filename as [| | | |f| |]; cbn [py_basename]; try by_error_result.
  change (Py.re_sub_not_in_class (Py.os_path_basename f))
    with (safe_filename_of f).
  destruct (Py.endswith (safe_filename_of f) ".json") eqn:He;
    cbn [negb]; [|left; eauto 6].
  change (Py.os_path_join (PROMPTS_DIR SERVE_DIR) (safe_filename_of f))
    with (filepath_of SERVE_DIR f).
  destruct (open_w _ _ _ _) as [w'|e] eqn:Ho; [|by_error_result].
  apply os_error_ok in Ho.
  right. right. exists data, f, content, w'. repeat split; auto.
Qed.

(** The answers of [handle_delete_prompt]: an error page that leaves the
    tree alone, an error that could not be sent, or a file removed. *)
Lemma delete_result_cases self s :
  (exists code msg,
      (code = 400 \/ code = 404 \/ code = 500)
      /\ delete_result SERVE_DIR can_allocate py_repr bytes_decode_utf8 json_loads self s
         = (Ok tt, after_error self code msg s))
  \/ (exists msg,
        Http.message_latin1 msg = false
        /\ delete_result SERVE_DIR can_allocate py_repr bytes_decode_utf8 json_loads self s
           = (Raise UnicodeEncodeError, after_unsent self 500 msg s))
  \/ (exists data f w',
        body_of can_allocate bytes_decode_utf8 json_loads self = Ok data
        /\ py_get data "filename" = Ok (JString f)
        /\ f <> ""
        /\ Fs.os_remove (fs s) (filepath_of SERVE_DIR f) = Ok w'
        /\ delete_result SERVE_DIR can_allocate py_repr bytes_decode_utf8 json_loads self s
           = (Ok tt, after_json self deleted_json (with_fs w' s))).
Proof.
  unfold delete_result. cbv zeta.
  destruct (body_of _ _ _ self) as [data|e]; [|by_error_result].
  destruct (py_get data "filename") as [filename|e] eqn:Hf; [|by_error_result].
  destruct (truthy filename) eqn:Htf; cbn [negb]; [|left; eauto 7].
  destruct filename as [| | | |f| |]; cbn [py_basename]; try by_error_result.
  change (Py.re_sub_not_in_class (Py.os_path_basename f))
    with (safe_filename_of f).
  change (Py.os_path_join (PROMPTS_DIR SERVE_DIR) (safe_filename_of f))
    with (filepath_of SERVE_DIR f).
  destruct (Fs.os_path_exists _ _); [|left; eauto 7].
  destruct (os_remove _ _ _) as [w'|e] eqn:Ho; [|by_error_result].
  apply os_error_ok in Ho.
  right. right. exists data, f, w'. repeat split; auto.
  intros ->. discriminate Htf.
Qed.

End WriterFacts.

(** ** More about saving and deleting *)

Section WriterProperties.

#[local] Open Scope list_scope.

Variable SERVE_DIR : string.
Variable can_allocate : Z -> bool.
Variable py_repr : string -> string.
Variable bytes_decode_utf8 : string -> result string.
Variable json_loads : string -> result json.
Variable urlparse : string -> url.
Variable parse_qs : string -> gmap string (list string).
Variable send_head : request -> world -> list (string * log_event) -> head_result.

Let serve' :=
  serve SERVE_DIR can_allocate py_repr bytes_decode_utf8 json_loads urlparse parse_qs send_head.
Let body_of' := body_of can_allocate bytes_decode_utf8 json_loads.












End WriterProperties.

(** ** The outcome of any request *)

Section OutcomeFacts.

#[local] Open Scope list_scope.

Variable SERVE_DIR : string.
Variable can_allocate : Z -> bool.
Variable py_repr : string -> string.
Variable bytes_decode_utf8 : string -> result string.
Variable json_loads : string -> result json.
Variable urlparse : string -> url.
Variable parse_qs : string -> gmap string (list string).
Variable send_head : request -> world -> list (string * log_event) -> head_result.

Lemma with_fs_same s : with_fs (fs s) s = s.
Proof. destruct s. reflexivity. Qed.

Lemma super_do_GET_run self s :
  http09 s = false ->
  super_do_GET send_head self s
  = match send_head self (fs s) (log s) with
    | HeadError code msg => (Ok tt, after_error self code (Text msg) s)
    | HeadOk code hs (Some bytes) => (Ok tt, after_file self code hs bytes s)
    | HeadOk code hs None => (Ok tt, after_head self code hs s)
    end.
Proof.
  intros H. unfold super_do_GET.
  rewrite bind_run, super_send_head_run by exact H.
  destruct (send_head self (fs s) (log s)) as [code msg|code hs [bytes|]];
    reflexivity.
Qed.

Lemma do_HEAD_run self s :
  http09 s = false ->
  do_HEAD send_head self s
  = match send_head self (fs s) (log s) with
    | HeadError code msg => (Ok tt, after_error self code (Text msg) s)
    | HeadOk code hs _ => (Ok tt, after_head self code hs s)
    end.
Proof.
  intros H. unfold do_HEAD.
  rewrite bind_run, super_send_head_run by exact H.
  destruct (send_head self (fs s) (log s)); reflexivity.
Qed.

Lemma out_json_same self s j : outcome self s (Ok tt, after_json self j s).
Proof.
  pose proof (OutJson self s j (fs s)) as H. rewrite with_fs_same in H. exact H.
Qed.

Lemma error_outcome self code msg s :
  outcome self s (error_result self code msg s).
Proof.
  destruct (error_result_cases self code msg s) as [-> | [_ ->]]; constructor.
Qed.

Lemma save_outcome self s :
  outcome self s
    (save_result SERVE_DIR can_allocate py_repr bytes_decode_utf8 json_loads
       self s).
Proof.
  destruct (save_result_cases SERVE_DIR can_allocate py_repr bytes_decode_utf8
              json_loads self s)
    as [(code & msg & _ & ->)|[(msg & _ & ->)|(data & f & content & w' & H)]].
  - constructor.
  - constructor.
  - destruct H as (_ & _ & _ & _ & _ & _ & ->). constructor.
Qed.

Lemma delete_outcome self s :
  outcome self s
    (delete_result SERVE_DIR can_allocate py_repr bytes_decode_utf8 json_loads
       self s).
Proof.
  destruct (delete_result_cases SERVE_DIR can_allocate py_repr
              bytes_decode_utf8 json_loads self s)
    as [(code & msg & _ & ->)|[(msg & _ & ->)|(data & f & w' & H)]].
  - constructor.
  - constructor.
  - destruct H as (_ & _ & _ & _ & ->). constructor.
Qed.

Lemma list_outcome self s :
  outcome self s (list_result SERVE_DIR py_repr self s).
Proof.
  unfold list_result. destruct (os_listdir _ _ _).
  - apply out_json_same.
  - apply error_outcome.
Qed.

Lemma check_outcome self s :
  outcome self s (check_result SERVE_DIR urlparse parse_qs self s).
Proof.
  unfold check_result. destruct (first_filename _) as [[[|c f]|]|e].
  - constructor.
  - apply out_json_same.
  - constructor.
  - constructor.
Qed.

(** Every request ends in one of the six shapes. *)
Lemma handle_outcome self s :
  http09 s = false ->
  outcome self s
    (handle SERVE_DIR can_allocate py_repr bytes_decode_utf8 json_loads urlparse parse_qs send_head
       self s).
Proof.
  intros H. unfold handle. cbv zeta.
  destruct (String.eqb (command self) "GET").
  { unfold do_GET. cbv zeta.
    destruct (String.eqb _ "/list-prompts").
    { rewrite handle_list_prompts_run by exact H. apply list_outcome. }
    destruct (String.eqb _ "/check-prompt-exists").
    { rewrite handle_check_prompt_exists_run by exact H. apply check_outcome. }
    rewrite super_do_GET_run by exact H.
    destruct (send_head self (fs s) (log s)) as [code msg|code hs [bytes|]];
      constructor. }
  destruct (String.eqb (command self) "POST").
  { unfold do_POST. cbv zeta.
    destruct (String.eqb _ "/save-prompt").
    { rewrite handle_save_prompt_run by exact H. apply save_outcome. }
    destruct (String.eqb _ "/delete-prompt").
    { rewrite handle_delete_prompt_run by exact H. apply delete_outcome. }
    rewrite send_error_run by exact H. apply error_outcome. }
  destruct (String.eqb (command self) "OPTIONS").
  { rewrite do_OPTIONS_run by exact H. constructor. }
  destruct (String.eqb (command self) "HEAD").
  { rewrite do_HEAD_run by exact H.
    destruct (send_head self (fs s) (log s)); constructor. }
  rewrite send_error_run by exact H. apply error_outcome.
Qed.

Lemma error_result_fs self code msg s :
  fs (snd (error_result self code msg s)) = fs s.
Proof.
  destruct (error_result_cases self code msg s) as [-> | [_ ->]]; reflexivity.
Qed.

(** The tree after a request other than a [POST]. *)
Lemma handle_keeps_tree_unless_post self s :
  http09 s = false ->
  command self <> "POST" ->
  fs (snd (handle SERVE_DIR can_allocate py_repr bytes_decode_utf8 json_loads urlparse parse_qs
             send_head self s))
  = fs s.
Proof.
  intros H Hc. unfold handle. cbv zeta.
  destruct (String.eqb (command self) "GET").
  { unfold do_GET. cbv zeta.
    destruct (String.eqb _ "/list-prompts").
    { rewrite handle_list_prompts_run by exact H. unfold list_result.
      destruct (os_listdir _ _ _); [reflexivity | apply error_result_fs]. }
    destruct (String.eqb _ "/check-prompt-exists").
    { rewrite handle_check_prompt_exists_run by exact H. unfold check_result.
      destruct (first_filename _) as [[[|c f]|]|e]; reflexivity. }
    rewrite super_do_GET_run by exact H.
    destruct (send_head self (fs s) (log s)) as [code msg|code hs [bytes|]];
      reflexivity. }
  destruct (String.eqb_spec (command self) "POST") as [E|_]; [congruence|].
  destruct (String.eqb (command self) "OPTIONS").
  { rewrite do_OPTIONS_run by exact H. reflexivity. }
  destruct (String.eqb (command self) "HEAD").
  { rewrite do_HEAD_run by exact H.
    destruct (send_head self (fs s) (log s)); reflexivity. }
  rewrite send_error_run by exact H. apply error_result_fs.
Qed.

(** The answer to a [POST]: an error page with one of three codes, an
    error 500 that could not be sent, or the JSON of a save or of a
    delete. *)
Lemma post_outcome self w l :
  command self = "POST" ->
  (exists code msg,
      (code = 400 \/ code = 404 \/ code = 500)
      /\ (path self = "/save-prompt" -> code <> 404)
      /\ (path self <> "/save-prompt" -> path self <> "/delete-prompt" ->
          code = 404)
      /\ serve SERVE_DIR can_allocate py_repr bytes_decode_utf8 json_loads urlparse parse_qs
           send_head self w l
         = (Ok tt, after_error self code msg (fresh w l)))
  \/ (exists msg,
        Http.message_latin1 msg = false
        /\ serve SERVE_DIR can_allocate py_repr bytes_decode_utf8 json_loads
             urlparse parse_qs send_head self w l
           = (Raise UnicodeEncodeError, after_unsent self 500 msg (fresh w l)))
  \/ (exists j w',
        (path self = "/save-prompt" \/ path self = "/delete-prompt")
        /\ serve SERVE_DIR can_allocate py_repr bytes_decode_utf8 json_loads urlparse parse_qs
             send_head self w l
           = (Ok tt, after_json self j (with_fs w' (fresh w l)))).
Proof.
  intros Hc.
  destruct (String.eqb_spec (path self) "/save-prompt") as [Hs|Hs].
  { rewrite (serve_save _ _ _ _ _ _ _ _ self w l Hc Hs).
    destruct (save_result_cases SERVE_DIR can_allocate py_repr bytes_decode_utf8 json_loads self
                (fresh w l))
      as [(code & msg & Hcode & ->)|[(msg & Hl & ->)|(data & f & content & w' & H)]].
    - left. exists code, msg. repeat split; try tauto.
      intros _. destruct Hcode as [-> | ->]; discriminate.
    - right. left. eauto.
    - destruct H as (_ & _ & _ & _ & _ & _ & ->). right. right. eauto. }
  destruct (String.eqb_spec (path self) "/delete-prompt") as [Hd|Hd].
  { rewrite (serve_delete _ _ _ _ _ _ _ _ self w l Hc Hd).
    destruct (delete_result_cases SERVE_DIR can_allocate py_repr bytes_decode_utf8 json_loads self
                (fresh w l))
      as [(code & msg & Hcode & ->)|[(msg & Hl & ->)|(data & f & w' & H)]].
    - left. exists code, msg. repeat split; try tauto.
    - right. left. eauto.
    - destruct H as (_ & _ & _ & _ & ->). right. right. eauto. }
  rewrite (serve_post_other _ _ _ _ _ _ _ _ self w l Hc Hs Hd).
  left. exists 404, (Text "Endpoint not found"). repeat split; tauto.
Qed.

End OutcomeFacts.

(** ** More about listing, checking and the server as a whole *)

Lemma prompt_names_insert (m : gmap string node) (n : string) (v : node)
  (k : string) :
  Py.endswith n ".json" = true ->
  In k (prompt_names (<[n := v]> m)) <-> In k (prompt_names m) \/ k = n.
Proof.
  intros He. rewrite !prompt_names_spec.
  destruct (decide (k = n)) as [->|Hne].
  - rewrite lookup_insert_eq. split; [auto|]. intros _. split; [eauto|exact He].
  - rewrite lookup_insert_ne by congruence. tauto.
Qed.

Lemma prompt_names_delete (m : gmap string node) (n k : string) :
  In k (prompt_names (delete n m)) <-> In k (prompt_names m) /\ k <> n.
Proof.
  rewrite !prompt_names_spec.
  destruct (decide (k = n)) as [->|Hne].
  - rewrite lookup_delete_eq. split.
    + intros [[v Hv] _]. discriminate Hv.
    + intros [_ H]. congruence.
  - rewrite lookup_delete_ne by congruence. tauto.
Qed.

Section ServerProperties.

#[local] Open Scope list_scope.

Variable SERVE_DIR : string.
Variable can_allocate : Z -> bool.
Variable py_repr : string -> string.
Variable bytes_decode_utf8 : string -> result string.
Variable json_loads : string -> result json.
Variable urlparse : string -> url.
Variable parse_qs : string -> gmap string (list string).
Variable send_head : request -> world -> list (string * log_event) -> head_result.

Let serve' :=
  serve SERVE_DIR can_allocate py_repr bytes_decode_utf8 json_loads urlparse parse_qs send_head.
Let body_of' := body_of can_allocate bytes_decode_utf8 json_loads.


(** After a save that passes every check, with a sanitized name no longer
    than a directory entry can be, the list is the list before with the
    sanitized name added (once, even when the name was there). *)
Theorem list_after_save self self_list w l data f content pd m :
  command self = "POST" -> path self = "/save-prompt" ->
  command self_list = "GET" ->
  url_path (urlparse (path self_list)) = "/list-prompts" ->
  body_of' self = Ok data ->
  py_get data "filename" = Ok (JString f) ->
  py_get data "content" = Ok content ->
  truthy content = true ->
  Py.endswith (safe_filename_of f) ".json" = true ->
  (String.length (safe_filename_of f) <= Fs.NAME_MAX)%nat ->
  prompts_dir_is SERVE_DIR w pd m ->
  not_dir (m !! safe_filename_of f) ->
  exists names,
    serve' self_list (fs (snd (serve' self w l))) (log (snd (serve' self w l)))
    = (Ok tt,
       after_json self_list (JArray (List.map JString names))
         (fresh (fs (snd (serve' self w l))) (log (snd (serve' self w l)))))
    /\ List.NoDup names
    /\ forall k, In k names <-> In k (prompt_names m) \/ k = safe_filename_of f.
Proof.
  intros Hc Hp Hcl Hpl Hb Hf Hct Ht He Hlen Hd Hm.
  pose proof (prompts_dir_after_set SERVE_DIR w pd m (safe_filename_of f)
                (Some (File (JsonIndent4 content))) Hd Hm I) as Hd'.
  cbn [entries_set] in Hd'.
  exists (prompt_names (<[safe_filename_of f := File (JsonIndent4 content)]> m)).
  split; [|split].
  - unfold serve'. rewrite (serve_save _ _ _ _ _ _ _ _ self w l Hc Hp).
    rewrite (save_ok SERVE_DIR can_allocate py_repr bytes_decode_utf8 json_loads self w l data f
               content pd m Hc Hp Hb Hf Hct Ht He Hd Hm Hlen).
    cbn [snd fs log after_json with_fs].
    rewrite (serve_list _ _ _ _ _ _ _ _ self_list _ _ Hcl Hpl).
    rewrite (list_result_prompts SERVE_DIR py_repr self_list _ _ pd _ Hd').
    reflexivity.
  - apply prompt_names_NoDup.
  - intros k. apply prompt_names_insert, He.
Qed.

(** After a delete that removed a file, the list is the list before
    without the sanitized name; every other name stays. *)
Theorem list_after_delete self self_list w l data f pd m c :
  command self = "POST" -> path self = "/delete-prompt" ->
  command self_list = "GET" ->
  url_path (urlparse (path self_list)) = "/list-prompts" ->
  body_of' self = Ok data ->
  py_get data "filename" = Ok (JString f) ->
  f <> "" ->
  prompts_dir_is SERVE_DIR w pd m ->
  is_entry_name (safe_filename_of f) = true ->
  m !! safe_filename_of f = Some (File c) ->
  exists names,
    serve' self_list (fs (snd (serve' self w l))) (log (snd (serve' self w l)))
    = (Ok tt,
       after_json self_list (JArray (List.map JString names))
         (fresh (fs (snd (serve' self w l))) (log (snd (serve' self w l)))))
    /\ List.NoDup names
    /\ forall k, In k names <-> In k (prompt_names m) /\ k <> safe_filename_of f.
Proof.
  intros Hc Hp Hcl Hpl Hb Hf Hne Hd Hn Hm.
  pose proof (prompts_dir_after_set SERVE_DIR w pd m (safe_filename_of f) None
                Hd) as Hd'.
  rewrite Hm in Hd'. specialize (Hd' I I). cbn [entries_set] in Hd'.
  exists (prompt_names (delete (safe_filename_of f) m)).
  split; [|split].
  - unfold serve'. rewrite (serve_delete _ _ _ _ _ _ _ _ self w l Hc Hp).
    rewrite (delete_result_entry SERVE_DIR can_allocate py_repr bytes_decode_utf8 json_loads self w l
               data f pd m Hb Hf Hne Hd Hn).
    rewrite Hm. cbn [snd fs log after_json with_fs].
    rewrite (serve_list _ _ _ _ _ _ _ _ self_list _ _ Hcl Hpl).
    rewrite (list_result_prompts SERVE_DIR py_repr self_list _ _ pd _ Hd').
    reflexivity.
  - apply prompt_names_NoDup.
  - intros k. apply prompt_names_delete.
Qed.


(** For a filename that is a plain entry name, the check tells whether
    the prompts directory has an entry of that name: a file or a directory,
    with or without the [.json] suffix.  Only the first value of a repeated
    parameter counts, and the tree is unchanged. *)
Theorem check_reports_entries_of_any_kind self w l filename rest pd m :
  command self = "GET" ->
  url_path (urlparse (path self)) = "/check-prompt-exists" ->
  parse_qs (url_query (urlparse (path self))) !! "filename"
  = Some (filename :: rest) ->
  is_entry_name filename = true ->
  prompts_dir_is SERVE_DIR w pd m ->
  serve' self w l
  = (Ok tt,
     after_json self
       (JObject [("exists",
                  JBool (match m !! filename with
                         | Some _ => true
                         | None => false
                         end))])
       (fresh w l))
  /\ fs (snd (serve' self w l)) = w.
Proof.
  intros Hc Hp Hq Hn Hd.
  assert (H : serve' self w l
              = (Ok tt,
                 after_json self
                   (JObject [("exists",
                              JBool (match m !! filename with
                                     | Some _ => true
                                     | None => false
                                     end))])
                   (fresh w l))).
  { unfold serve'. rewrite (serve_check _ _ _ _ _ _ _ _ self w l Hc Hp).
    apply (check_exists_of_entry_name SERVE_DIR urlparse parse_qs self w l
             filename rest pd m Hq Hn Hd). }
  split; [exact H|]. rewrite H. reflexivity.
Qed.

(** After a save that passes every check, with a sanitized name no longer
    than a directory entry can be, a check of the sanitized name answers
    [{"exists": true}]. *)
Theorem check_after_save self self_check w l data f content pd m rest :
  command self = "POST" -> path self = "/save-prompt" ->
  command self_check = "GET" ->
  url_path (urlparse (path self_check)) = "/check-prompt-exists" ->
  parse_qs (url_query (urlparse (path self_check))) !! "filename"
  = Some (safe_filename_of f :: rest) ->
  body_of' self = Ok data ->
  py_get data "filename" = Ok (JString f) ->
  py_get data "content" = Ok content ->
  truthy content = true ->
  Py.endswith (safe_filename_of f) ".json" = true ->
  (String.length (safe_filename_of f) <= Fs.NAME_MAX)%nat ->
  prompts_dir_is SERVE_DIR w pd m ->
  not_dir (m !! safe_filename_of f) ->
  serve' self_check (fs (snd (serve' self w l))) (log (snd (serve' self w l)))
  = (Ok tt,
     after_json self_check (JObject [("exists", JBool true)])
       (fresh (fs (snd (serve' self w l))) (log (snd (serve' self w l))))).
Proof.
  intros Hc Hp Hcc Hpc Hq Hb Hf Hct Ht He Hlen Hd Hm.
  pose proof (prompts_dir_after_set SERVE_DIR w pd m (safe_filename_of f)
                (Some (File (JsonIndent4 content))) Hd Hm I) as Hd'.
  cbn [entries_set] in Hd'.
  unfold serve'. rewrite (serve_save _ _ _ _ _ _ _ _ self w l Hc Hp).
  rewrite (save_ok SERVE_DIR can_allocate py_repr bytes_decode_utf8 json_loads self w l data f
             content pd m Hc Hp Hb Hf Hct Ht He Hd Hm Hlen).
  cbn [snd fs log after_json with_fs].
  rewrite (serve_check _ _ _ _ _ _ _ _ self_check _ _ Hcc Hpc).
  rewrite (check_exists_of_entry_name SERVE_DIR urlparse parse_qs self_check
             _ _ (safe_filename_of f) rest pd _ Hq
             (safe_filename_entry_name f He) Hd').
  rewrite lookup_insert_eq. reflexivity.
Qed.

(** After a delete that removed a file, a check of the sanitized name
    answers [{"exists": false}]. *)
Theorem check_after_delete self self_check w l data f pd m c rest :
  command self = "POST" -> path self = "/delete-prompt" ->
  command self_check = "GET" ->
  url_path (urlparse (path self_check)) = "/check-prompt-exists" ->
  parse_qs (url_query (urlparse (path self_check))) !! "filename"
  = Some (safe_filename_of f :: rest) ->
  body_of' self = Ok data ->
  py_get data "filename" = Ok (JString f) ->
  f <> "" ->
  prompts_dir_is SERVE_DIR w pd m ->
  is_entry_name (safe_filename_of f) = true ->
  m !! safe_filename_of f = Some (File c) ->
  serve' self_check (fs (snd (serve' self w l))) (log (snd (serve' self w l)))
  = (Ok tt,
     after_json self_check (JObject [("exists", JBool false)])
       (fresh (fs (snd (serve' self w l))) (log (snd (serve' self w l))))).
Proof.
  intros Hc Hp Hcc Hpc Hq Hb Hf Hne Hd Hn Hm.
  pose proof (prompts_dir_after_set SERVE_DIR w pd m (safe_filename_of f) None
                Hd) as Hd'.
  rewrite Hm in Hd'. specialize (Hd' I I). cbn [entries_set] in Hd'.
  unfold serve'. rewrite (serve_delete _ _ _ _ _ _ _ _ self w l Hc Hp).
  rewrite (delete_result_entry SERVE_DIR can_allocate py_repr bytes_decode_utf8 json_loads self w l
             data f pd m Hb Hf Hne Hd Hn).
  rewrite Hm. cbn [snd fs log after_json with_fs].
  rewrite (serve_check _ _ _ _ _ _ _ _ self_check _ _ Hcc Hpc).
  rewrite (check_exists_of_entry_name SERVE_DIR urlparse parse_qs self_check
             _ _ (safe_filename_of f) rest pd _ Hq Hn Hd').
  rewrite lookup_delete_eq. reflexivity.
Qed.

(** Only a [POST] can change the tree: after a [GET] (API or static), a
    [HEAD], an [OPTIONS] or any other method the tree is what it was. *)
Theorem only_post_changes_the_tree self w l :
  command self <> "POST" -> fs (snd (serve' self w l)) = w.
Proof.
  intros Hc. unfold serve', serve.
  apply (handle_keeps_tree_unless_post SERVE_DIR can_allocate py_repr bytes_decode_utf8 json_loads
           urlparse parse_qs send_head self (fresh w l) eq_refl Hc).
Qed.

(** Every [POST] of HTTP/1.0 or later is answered, unless its answer is a
    500 whose status line cannot be encoded in Latin-1: that error is
    logged, nothing is sent, and the [UnicodeEncodeError] escapes the
    handler.  No other exception escapes.  The status of an answer is 200,
    400, 404 or 500; a save is never answered 404, and a path that is
    neither endpoint always is. *)
Theorem post_is_answered_unless_unsendable self w l :
  command self = "POST" ->
  (exists s' code,
      serve' self w l = (Ok tt, s')
      /\ status_code (wire s') = Some code
      /\ (code = 200 \/ code = 400 \/ code = 404 \/ code = 500)
      /\ (path self = "/save-prompt" -> code <> 404)
      /\ (path self <> "/save-prompt" -> path self <> "/delete-prompt" ->
          code = 404))
  \/ (exists msg,
        Http.message_latin1 msg = false
        /\ serve' self w l
           = (Raise UnicodeEncodeError,
              after_unsent self 500 msg (fresh w l))).
Proof.
  intros Hc. unfold serve'.
  destruct (post_outcome SERVE_DIR can_allocate py_repr bytes_decode_utf8 json_loads urlparse
              parse_qs send_head self w l Hc)
    as [(code & msg & Hcode & Hs & Ho & ->)
       |[(msg & Hl & ->)|(j & w' & Hp & ->)]].
  - left. eexists _, code. split; [reflexivity|]. split; [reflexivity|].
    split; [tauto|]. split; assumption.
  - right. exists msg. split; [exact Hl | reflexivity].
  - left. eexists _, 200. split; [reflexivity|]. split; [reflexivity|].
    split; [tauto|]. split.
    + intros _. discriminate.
    + intros H1 H2. tauto.
Qed.

(** No request removes, replaces or moves the prompts directory: it is
    still a directory at the same place afterwards, at most one of its
    entries differs, and its sub-directories are untouched. *)
Theorem prompts_directory_survives self w l pd m :
  prompts_dir_is SERVE_DIR w pd m ->
  exists m' n,
    prompts_dir_is SERVE_DIR (fs (snd (serve' self w l))) pd m'
    /\ (forall k, k <> n -> m' !! k = m !! k)
    /\ (forall k d, m !! k = Some (Dir d) -> m' !! k = Some (Dir d)).
Proof.
  intros Hd.
  assert (Hsame : fs (snd (serve' self w l)) = w ->
                  exists m' n,
                    prompts_dir_is SERVE_DIR (fs (snd (serve' self w l))) pd m'
                    /\ (forall k, k <> n -> m' !! k = m !! k)
                    /\ (forall k d, m !! k = Some (Dir d) ->
                                    m' !! k = Some (Dir d))).
  { intros ->. exists m, "". split; [exact Hd|]. split; auto. }
  destruct (String.eqb_spec (command self) "POST") as [Hc|Hc].
  2: { apply Hsame. unfold serve', serve.
       apply (handle_keeps_tree_unless_post SERVE_DIR can_allocate py_repr bytes_decode_utf8
                json_loads urlparse parse_qs send_head self (fresh w l)
                eq_refl Hc). }
  destruct (String.eqb_spec (path self) "/save-prompt") as [Hs|Hs].
  { revert Hsame. unfold serve'.
    rewrite (serve_save _ _ _ _ _ _ _ _ self w l Hc Hs). intros Hsame.
    destruct (save_result_cases SERVE_DIR can_allocate py_repr bytes_decode_utf8 json_loads self
                (fresh w l))
      as [(code & msg & _ & E)|[(msg & _ & E)|(data & f & content & w' & H)]].
    - apply Hsame. rewrite E. reflexivity.
    - apply Hsame. rewrite E. reflexivity.
    - destruct H as (_ & _ & _ & _ & He & Ho & E). rewrite E. cbn [snd].
      cbn [fs fresh after_json with_fs] in *.
      destruct (open_w_prompt_inv SERVE_DIR w (safe_filename_of f) _ w'
                  (safe_filename_entry_name f He) Ho)
        as (pd' & m0 & Hd0 & Hm0 & ->).
      destruct (prompts_dir_unique SERVE_DIR w pd m pd' m0 Hd Hd0) as [-> ->].
      exists (<[safe_filename_of f := File (JsonIndent4 content)]> m),
        (safe_filename_of f).
      split; [|split].
      + apply (prompts_dir_after_set SERVE_DIR w pd m (safe_filename_of f)
                 (Some (File (JsonIndent4 content))) Hd Hm0 I).
      + intros k Hk. apply lookup_insert_ne. congruence.
      + intros k d Hk. rewrite lookup_insert_ne; [exact Hk|].
        intros <-. rewrite Hk in Hm0. exact Hm0. }
  destruct (String.eqb_spec (path self) "/delete-prompt") as [Hdl|Hdl].
  { revert Hsame. unfold serve'.
    rewrite (serve_delete _ _ _ _ _ _ _ _ self w l Hc Hdl). intros Hsame.
    destruct (delete_result_cases SERVE_DIR can_allocate py_repr bytes_decode_utf8 json_loads self
                (fresh w l))
      as [(code & msg & _ & E)|[(msg & _ & E)|(data & f & w' & H)]].
    - apply Hsame. rewrite E. reflexivity.
    - apply Hsame. rewrite E. reflexivity.
    - destruct H as (_ & _ & _ & Ho & E). rewrite E. cbn [snd].
      cbn [fs fresh after_json with_fs] in *.
      destruct (remove_prompt_inv SERVE_DIR w f w' Ho)
        as (pd' & m0 & c & Hd0 & Hn & Hm0 & ->).
      destruct (prompts_dir_unique SERVE_DIR w pd m pd' m0 Hd Hd0) as [-> ->].
      exists (delete (safe_filename_of f) m), (safe_filename_of f).
      split; [|split].
      + pose proof (prompts_dir_after_set SERVE_DIR w pd m (safe_filename_of f)
                      None Hd) as Hd'.
        rewrite Hm0 in Hd'. exact (Hd' I I).
      + intros k Hk. apply lookup_delete_ne. congruence.
      + intros k d Hk. rewrite lookup_delete_ne; [exact Hk|].
        intros <-. rewrite Hk in Hm0. discriminate Hm0. }
  apply Hsame. unfold serve'.
  rewrite (serve_post_other _ _ _ _ _ _ _ _ self w l Hc Hs Hdl). reflexivity.
Qed.

(** The log only grows, every line a request adds bears the address of its
    client, and every response is logged with its status code
    ([log_message], lines 147-148). *)
Theorem every_response_is_logged self w l :
  exists added,
    log (snd (serve' self w l)) = l ++ added
    /\ Forall (fun e => fst e = client_address self) added
    /\ forall code,
         status_code (wire (snd (serve' self w l))) = Some code ->
         In (client_address self, LogRequest code) added.
Proof.
  unfold serve', serve.
  destruct (handle_outcome SERVE_DIR can_allocate py_repr bytes_decode_utf8 json_loads urlparse
              parse_qs send_head self (fresh w l) eq_refl)
    as [e|code msg|code msg|j w'|code hs|code hs bytes]; cbn [snd].
  - exists []. split; [symmetry; apply app_nil_r|]. split; [constructor|].
    intros code H. discriminate H.
  - eexists. split; [reflexivity|]. split.
    + repeat constructor.
    + intros c H. discriminate H.
  - eexists. split; [reflexivity|]. split.
    + repeat constructor.
    + intros c H. injection H as <-. right. left. reflexivity.
  - eexists. split; [reflexivity|]. split.
    + repeat constructor.
    + intros c H. injection H as <-. left. reflexivity.
  - eexists. split; [reflexivity|]. split.
    + repeat constructor.
    + intros c H. injection H as <-. left. reflexivity.
  - eexists. split; [reflexivity|]. split.
    + repeat constructor.
    + intros c H. injection H as <-. left. reflexivity.
Qed.

(** The answer to a [POST] of HTTP/1.0 or later, when a status line is
    sent, carries each of the three CORS headers exactly once. *)
Theorem post_answers_carry_each_cors_header_once self w l :
  command self = "POST" ->
  status_code (wire (snd (serve' self w l))) <> None ->
  count_header "Access-Control-Allow-Origin"
    (header_lines (wire (snd (serve' self w l)))) = 1%nat
  /\ count_header "Access-Control-Allow-Methods"
       (header_lines (wire (snd (serve' self w l)))) = 1%nat
  /\ count_header "Access-Control-Allow-Headers"
       (header_lines (wire (snd (serve' self w l)))) = 1%nat.
Proof.
  intros Hc. unfold serve'.
  destruct (post_outcome SERVE_DIR can_allocate py_repr bytes_decode_utf8 json_loads urlparse
              parse_qs send_head self w l Hc)
    as [(code & msg & _ & _ & _ & ->)|[(msg & _ & ->)|(j & w' & _ & ->)]];
    intros Hsent.
  - cbn [snd wire after_error header_lines fresh no_response app].
    unfold error_headers. destruct (has_error_page code); repeat split.
  - exfalso. apply Hsent. reflexivity.
  - repeat split.
Qed.

End ServerProperties.

(** ** The further properties at work on the sample installation *)












Lemma list_after_save_witness :
  exists names,
    Sample.run (Sample.get "/list-prompts")
      (fs (snd (Sample.run
                  (Sample.post "/save-prompt" (Sample.body_save "b.json"))
                  Sample.tree [])))
      (log (snd (Sample.run
                   (Sample.post "/save-prompt" (Sample.body_save "b.json"))
                   Sample.tree [])))
    = (Ok tt,
       after_json (Sample.get "/list-prompts") (JArray (List.map JString names))
         (fresh
            (fs (snd (Sample.run
                        (Sample.post "/save-prompt" (Sample.body_save "b.json"))
                        Sample.tree [])))
            (log (snd (Sample.run
                         (Sample.post "/save-prompt" (Sample.body_save "b.json"))
                         Sample.tree [])))))
    /\ List.NoDup names
    /\ forall k,
         In k names
         <-> In k (prompt_names Sample.prompts) \/ k = safe_filename_of "b.json".
Proof.
  unfold Sample.run.
  refine (list_after_save Sample.SERVE_DIR Sample.can_allocate Sample.py_repr
            Sample.bytes_decode_utf8 Sample.json_loads Sample.urlparse
            Sample.parse_qs Sample.send_head
            (Sample.post "/save-prompt" (Sample.body_save "b.json"))
            (Sample.get "/list-prompts") Sample.tree []
            (JObject [("filename", JString "b.json"); ("content", Sample.content)])
            "b.json" Sample.content Sample.prompts_at Sample.prompts
            eq_refl eq_refl eq_refl eq_refl _ eq_refl eq_refl eq_refl eq_refl
            _ _ _).
  - vm_compute. reflexivity.
  - unfold Fs.NAME_MAX. simpl. lia.
  - split; vm_compute; reflexivity.
  - vm_compute. exact I.
Defined.

Lemma list_after_delete_witness :
  exists names,
    Sample.run (Sample.get "/list-prompts")
      (fs (snd (Sample.run
                  (Sample.post "/delete-prompt" (Sample.body_filename "a.json"))
                  Sample.tree [])))
      (log (snd (Sample.run
                   (Sample.post "/delete-prompt" (Sample.body_filename "a.json"))
                   Sample.tree [])))
    = (Ok tt,
       after_json (Sample.get "/list-prompts") (JArray (List.map JString names))
         (fresh
            (fs (snd (Sample.run
                        (Sample.post "/delete-prompt"
                           (Sample.body_filename "a.json"))
                        Sample.tree [])))
            (log (snd (Sample.run
                         (Sample.post "/delete-prompt"
                            (Sample.body_filename "a.json"))
                         Sample.tree [])))))
    /\ List.NoDup names
    /\ forall k,
         In k names
         <-> In k (prompt_names Sample.prompts) /\ k <> safe_filename_of "a.json".
Proof.
  unfold Sample.run.
  refine (list_after_delete Sample.SERVE_DIR Sample.can_allocate Sample.py_repr
            Sample.bytes_decode_utf8 Sample.json_loads Sample.urlparse
            Sample.parse_qs Sample.send_head
            (Sample.post "/delete-prompt" (Sample.body_filename "a.json"))
            (Sample.get "/list-prompts") Sample.tree []
            (JObject [("filename", JString "a.json")])
            "a.json" Sample.prompts_at Sample.prompts
            (JsonIndent4 (JString "first"))
            eq_refl eq_refl eq_refl eq_refl _ eq_refl _ _ eq_refl _).
  - vm_compute. reflexivity.
  - discriminate.
  - split; vm_compute; reflexivity.
  - vm_compute. reflexivity.
Defined.


Lemma check_reports_entries_of_any_kind_witness :
  Sample.run (Sample.get "/check-prompt-exists?filename=sub") Sample.tree []
  = (Ok tt,
     after_json (Sample.get "/check-prompt-exists?filename=sub")
       (JObject [("exists", JBool true)]) (fresh Sample.tree [])).
Proof.
  unfold Sample.run.
  refine (proj1 (check_reports_entries_of_any_kind Sample.SERVE_DIR Sample.can_allocate Sample.py_repr
                   Sample.bytes_decode_utf8 Sample.json_loads Sample.urlparse
                   Sample.parse_qs Sample.send_head
                   (Sample.get "/check-prompt-exists?filename=sub")
                   Sample.tree [] "sub" [] Sample.prompts_at Sample.prompts
                   eq_refl eq_refl _ eq_refl _)).
  - vm_compute. reflexivity.
  - split; vm_compute; reflexivity.
Defined.

Lemma check_after_save_witness :
  Sample.run (Sample.get "/check-prompt-exists?filename=b.json")
    (fs (snd (Sample.run
                (Sample.post "/save-prompt" (Sample.body_save "b.json"))
                Sample.tree [])))
    (log (snd (Sample.run
                 (Sample.post "/save-prompt" (Sample.body_save "b.json"))
                 Sample.tree [])))
  = (Ok tt,
     after_json (Sample.get "/check-prompt-exists?filename=b.json")
       (JObject [("exists", JBool true)])
       (fresh
          (fs (snd (Sample.run
                      (Sample.post "/save-prompt" (Sample.body_save "b.json"))
                      Sample.tree [])))
          (log (snd (Sample.run
                       (Sample.post "/save-prompt" (Sample.body_save "b.json"))
                       Sample.tree []))))).
Proof.
  unfold Sample.run.
  refine (check_after_save Sample.SERVE_DIR Sample.can_allocate Sample.py_repr
            Sample.bytes_decode_utf8 Sample.json_loads Sample.urlparse
            Sample.parse_qs Sample.send_head
            (Sample.post "/save-prompt" (Sample.body_save "b.json"))
            (Sample.get "/check-prompt-exists?filename=b.json")
            Sample.tree []
            (JObject [("filename", JString "b.json"); ("content", Sample.content)])
            "b.json" Sample.content Sample.prompts_at Sample.prompts []
            eq_refl eq_refl eq_refl eq_refl _ _ eq_refl eq_refl eq_refl eq_refl
            _ _ _).
  - vm_compute. reflexivity.
  - vm_compute. reflexivity.
  - unfold Fs.NAME_MAX. simpl. lia.
  - split; vm_compute; reflexivity.
  - vm_compute. exact I.
Defined.

Lemma check_after_delete_witness :
  Sample.run (Sample.get "/check-prompt-exists?filename=a.json")
    (fs (snd (Sample.run
                (Sample.post "/delete-prompt" (Sample.body_filename "a.json"))
                Sample.tree [])))
    (log (snd (Sample.run
                 (Sample.post "/delete-prompt" (Sample.body_filename "a.json"))
                 Sample.tree [])))
  = (Ok tt,
     after_json (Sample.get "/check-prompt-exists?filename=a.json")
       (JObject [("exists", JBool false)])
       (fresh
          (fs (snd (Sample.run
                      (Sample.post "/delete-prompt"
                         (Sample.body_filename "a.json"))
                      Sample.tree [])))
          (log (snd (Sample.run
                       (Sample.post "/delete-prompt"
                          (Sample.body_filename "a.json"))
                       Sample.tree []))))).
Proof.
  unfold Sample.run.
  refine (check_after_delete Sample.SERVE_DIR Sample.can_allocate Sample.py_repr
            Sample.bytes_decode_utf8 Sample.json_loads Sample.urlparse
            Sample.parse_qs Sample.send_head
            (Sample.post "/delete-prompt" (Sample.body_filename "a.json"))
            (Sample.get "/check-prompt-exists?filename=a.json")
            Sample.tree []
            (JObject [("filename", JString "a.json")])
            "a.json" Sample.prompts_at Sample.prompts
            (JsonIndent4 (JString "first")) []
            eq_refl eq_refl eq_refl eq_refl _ _ eq_refl _ _ eq_refl _).
  - vm_compute. reflexivity.
  - vm_compute. reflexivity.
  - discriminate.
  - split; vm_compute; reflexivity.
  - vm_compute. reflexivity.
Defined.

Lemma only_post_changes_the_tree_witness :
  fs (snd (Sample.run (Sample.get "/index.html") Sample.tree [])) = Sample.tree.
Proof.
  unfold Sample.run.
  refine (only_post_changes_the_tree Sample.SERVE_DIR Sample.can_allocate Sample.py_repr
            Sample.bytes_decode_utf8 Sample.json_loads Sample.urlparse
            Sample.parse_qs Sample.send_head
            (Sample.get "/index.html") Sample.tree [] _).
  discriminate.
Defined.

Lemma post_is_answered_unless_unsendable_witness :
  exists s' code,
    Sample.run (Sample.post "/delete-prompt" (Sample.body_filename "b.json"))
      Sample.tree [] = (Ok tt, s')
    /\ status_code (wire s') = Some code
    /\ (code = 200 \/ code = 400 \/ code = 404 \/ code = 500)
    /\ (path (Sample.post "/delete-prompt" (Sample.body_filename "b.json"))
        = "/save-prompt" -> code <> 404)
    /\ (path (Sample.post "/delete-prompt" (Sample.body_filename "b.json"))
        <> "/save-prompt" ->
        path (Sample.post "/delete-prompt" (Sample.body_filename "b.json"))
        <> "/delete-prompt" ->
        code = 404).
Proof.
  unfold Sample.run.
  destruct (post_is_answered_unless_unsendable Sample.SERVE_DIR
              Sample.can_allocate Sample.py_repr
              Sample.bytes_decode_utf8 Sample.json_loads Sample.urlparse
              Sample.parse_qs Sample.send_head
              (Sample.post "/delete-prompt" (Sample.body_filename "b.json"))
              Sample.tree [] eq_refl) as [H | (msg & _ & H)].
  - exact H.
  - exfalso. vm_compute in H. discriminate H.
Defined.

Lemma prompts_directory_survives_witness :
  exists m' n,
    prompts_dir_is Sample.SERVE_DIR
      (fs (snd (Sample.run
                  (Sample.post "/delete-prompt" (Sample.body_filename "a.json"))
                  Sample.tree [])))
      Sample.prompts_at m'
    /\ (forall k, k <> n -> m' !! k = Sample.prompts !! k)
    /\ (forall k d, Sample.prompts !! k = Some (Dir d) -> m' !! k = Some (Dir d)).
Proof.
  unfold Sample.run.
  refine (prompts_directory_survives Sample.SERVE_DIR Sample.can_allocate Sample.py_repr
            Sample.bytes_decode_utf8 Sample.json_loads Sample.urlparse
            Sample.parse_qs Sample.send_head
            (Sample.post "/delete-prompt" (Sample.body_filename "a.json"))
            Sample.tree [] Sample.prompts_at Sample.prompts _).
  split; vm_compute; reflexivity.
Defined.

Lemma post_answers_carry_each_cors_header_once_witness :
  count_header "Access-Control-Allow-Origin"
    (header_lines
       (wire (snd (Sample.run
                     (Sample.post "/save-prompt" (Sample.body_save "notes"))
                     Sample.tree []))))
  = 1%nat.
Proof.
  unfold Sample.run.
  refine (proj1 (post_answers_carry_each_cors_header_once Sample.SERVE_DIR
                   Sample.can_allocate Sample.py_repr
                   Sample.bytes_decode_utf8 Sample.json_loads Sample.urlparse
                   Sample.parse_qs Sample.send_head
                   (Sample.post "/save-prompt" (Sample.body_save "notes"))
                   Sample.tree [] eq_refl _)).
  vm_compute. discriminate.
Defined.
